(** * rt.py, the control script of the resolver testbed

    A shallow embedding of [rt.py] and the properties of its remote
    execution path, its sanity checks and its command-line dispatcher.

    The script talks to three things outside itself: the clock
    ([time.strftime]), the local hypervisor command line
    ([subprocess.Popen] on [VBoxManage]) and the SSH sessions opened through
    [fabric].  They are gathered in an environment [Env] whose answers may
    depend on everything that happened so far.  The process state is the
    history of those interactions, the log file, the terminal output and the
    global [rt_config]. *)

From Stdlib Require Import List ZArith Lia Bool.
From Stdlib.Strings Require Import Ascii String Byte.
Import ListNotations.
Local Open Scope string_scope.
Local Open Scope Z_scope.

(** ** Python strings *)

Module PyStr.

(** Text is modelled with one character per code point below 256, which is
    what [decode("latin-1")] produces. *)

(** [str.isspace] on the code points below 256: tab, line feed, vertical
    tab, form feed, carriage return, the four separators 0x1c-0x1f, space,
    next line (0x85) and no-break space (0xa0). *)
Definition isspace (c : ascii) : bool :=
  let n := nat_of_ascii c in
  ((9 <=? n) && (n <=? 13) || (28 <=? n) && (n <=? 32)
   || (n =? 133) || (n =? 160))%nat.

Definition is_empty (s : string) : bool :=
  match s with EmptyString => true | String _ _ => false end.

(** [s.lstrip()] *)
Fixpoint lstrip (s : string) : string :=
  match s with
  | EmptyString => EmptyString
  | String c r => if isspace c then lstrip r else s
  end.

(** [s.rstrip()] *)
Fixpoint rstrip (s : string) : string :=
  match s with
  | EmptyString => EmptyString
  | String c r =>
      let r' := rstrip r in
      if is_empty r' && isspace c then EmptyString else String c r'
  end.

(** [s.strip()] *)
Definition strip (s : string) : string := lstrip (rstrip s).

(** [s.split(sep)] for a one-character separator: never an empty list. *)
Fixpoint split (sep : ascii) (s : string) : list string :=
  match s with
  | EmptyString => [EmptyString]
  | String c r =>
      if Ascii.eqb c sep then EmptyString :: split sep r
      else match split sep r with
           | [] => [String c EmptyString]
           | h :: t => String c h :: t
           end
  end.

(** [sep.join(l)] *)
Fixpoint join (sep : string) (l : list string) : string :=
  match l with
  | [] => EmptyString
  | [x] => x
  | x :: r => x ++ sep ++ join sep r
  end.

Definition len (s : string) : Z := Z.of_nat (String.length s).

(** Index of the first [c] in [s], counted from [i], or [-1]. *)
Fixpoint find_from (c : ascii) (s : string) (i : Z) : Z :=
  match s with
  | EmptyString => -1
  | String a r => if Ascii.eqb a c then i else find_from c r (i + 1)
  end.

Fixpoint drop (n : nat) (s : string) : string :=
  match n, s with
  | O, _ => s
  | S _, EmptyString => EmptyString
  | S m, String _ r => drop m r
  end.

Fixpoint take (n : nat) (s : string) : string :=
  match n, s with
  | O, _ => EmptyString
  | S _, EmptyString => EmptyString
  | S m, String c r => String c (take m r)
  end.

(** How a slice bound is read: a negative bound counts from the end, and
    the result is clamped to [0 .. len s]. *)
Definition clamp (s : string) (i : Z) : Z :=
  if i <? 0 then Z.max (i + len s) 0 else Z.min i (len s).

(** [s.find(c, start)] for a one-character [c]. *)
Definition find (s : string) (c : ascii) (start : Z) : Z :=
  let b := clamp s start in
  if (start >? len s) then -1
  else find_from c (drop (Z.to_nat b) s) b.

(** [s[start:stop]] *)
Definition slice (s : string) (start stop : Z) : string :=
  let b := clamp s start in
  let e := clamp s stop in
  take (Z.to_nat (e - b)) (drop (Z.to_nat b) s).

(** [needle in s] *)
Fixpoint contains (needle s : string) : bool :=
  String.prefix needle s ||
  match s with
  | EmptyString => false
  | String _ r => contains needle r
  end.

(** [x in l] for a list of strings *)
Definition mem (x : string) (l : list string) : bool :=
  existsb (String.eqb x) l.

(** [bytes.decode("latin-1")]: byte [n] becomes code point [n]. *)
Definition decode_latin1 (b : list byte) : string := string_of_list_byte b.

End PyStr.

Import PyStr.

(** ** The outside world *)

(** What [fabric]'s [run] hands back: the exit status of the remote command
    and the text it wrote.  [failed] is fabric's [Result.failed]. *)
Record run_result := mk_run_result {
  exited : Z;
  stdout : string;
  stderr : string
}.

Definition failed (r : run_result) : bool := negb (exited r =? 0).

(** One interaction of the process with its surroundings, with the answer
    it received. *)
Inductive event : Type :=
| EvStrftime (fmt text : string)
| EvPopen (cmd : string) (returncode : Z) (output : list byte)
| EvOpen (host user : string) (ok : bool)
| EvRun (host user cmd : string) (hide warn : bool) (res : run_result).

(** The surroundings: every answer may depend on the whole history.
    [env_ssh_log] gives the records the SSH library logs, at level INFO or
    above, while a connection is being opened (paramiko's "Connected ..."
    and "Authentication ..." lines): rt.py puts its file handler on the root
    logger, so they end up in the log file. *)
Record Env := mk_env {
  env_strftime : list event -> string -> string;
  env_popen : list event -> string -> Z * list byte;
  env_open : list event -> string -> string -> bool;
  env_run : list event -> string -> string -> string -> bool -> bool -> run_result;
  env_ssh_log : list event -> string -> string -> list string
}.

(** A Python [dict] with string keys, in insertion order. *)
Definition dict (V : Type) : Type := list (string * V).

Fixpoint dict_get {V} (d : dict V) (k : string) : option V :=
  match d with
  | [] => None
  | (k', v) :: r => if String.eqb k k' then Some v else dict_get r k
  end.

Definition dict_keys {V} (d : dict V) : list string := map fst d.

(** [k in d] *)
Definition dict_mem {V} (k : string) (d : dict V) : bool := mem k (dict_keys d).

(** The value [startup_and_config_general] returns and [rt_config] holds:
    a dictionary with the single key ["vm_info"]. *)
Record local_config := mk_local_config {
  vm_info : dict (dict string)
}.

Record world := mk_world {
  history : list event;
  log_file : string;
  terminal : string;
  rt_config : option local_config
}.

(** ** Control: return, [SystemExit], uncaught exception *)

Inductive exn : Type :=
| NameError | KeyError | IndexError | ConnectError | UnexpectedExit.

Inductive outcome (A : Type) : Type :=
| Ret (a : A)
| Exit (status : Z)
| Raise (e : exn).
Arguments Ret {A} a.
Arguments Exit {A} status.
Arguments Raise {A} e.

Definition M (A : Type) : Type := world -> outcome A * world.

Definition ret {A} (a : A) : M A := fun w => (Ret a, w).

Definition bind {A B} (m : M A) (k : A -> M B) : M B :=
  fun w =>
    match m w with
    | (Ret a, w') => k a w'
    | (Exit c, w') => (Exit c, w')
    | (Raise e, w') => (Raise e, w')
    end.

Declare Scope py_scope.
Delimit Scope py_scope with py.
Notation "x <- c ;; k" := (bind c (fun x => k))
  (at level 100, c at next level, right associativity) : py_scope.
Notation "c ;; k" := (bind c (fun _ => k))
  (at level 100, right associativity) : py_scope.
Local Open Scope py_scope.

Definition raise {A} (e : exn) : M A := fun w => (Raise e, w).

(** [exit()]: [SystemExit] without a status, so the process ends with 0. *)
Definition exit {A} : M A := fun w => (Exit 0, w).

(** The status the operating system sees. *)
Definition exit_status {A} (o : outcome A) : Z :=
  match o with
  | Ret _ => 0
  | Exit c => c
  | Raise _ => 1
  end.

(** [if c: body] *)
Definition when (c : bool) (body : M unit) : M unit :=
  if c then body else ret tt.

(** [try: body / except: handler]; a bare [except] also catches
    [SystemExit]. *)
Definition try_except {A} (body handler : M A) : M A :=
  fun w =>
    match body w with
    | (Ret a, w') => (Ret a, w')
    | (_, w') => handler w'
    end.

(** [for x in l: body x] *)
Fixpoint for_in {A} (l : list A) (body : A -> M unit) : M unit :=
  match l with
  | [] => ret tt
  | x :: r => body x ;; for_in r body
  end.

Definition dquote : ascii := "034"%char.
Definition newline : ascii := "010"%char.
Definition nl : string := String newline EmptyString.

(** ** The program *)

Definition VM_INFO : dict (dict string) :=
  [ ("gateway-vm", [("control_addr", "192.168.56.2")]);
    ("servers-vm", [("control_addr", "192.168.56.3")]);
    ("resolvers-vm", [("control_addr", "192.168.56.4")]) ].

Definition CLI_COMMANDS : list string := ["help"; "check_vms"].

Definition HELP_TEXT : string :=
  "Available commands for rt.py are:" ++ nl ++
  "help                 Show this text" ++ nl ++
  "check_vms            Run simple checks on the VMs".

Section Program.

Variable E : Env.

(** *** Primitives *)

(** [time.strftime(fmt)] *)
Definition strftime (fmt : string) : M string :=
  fun w =>
    let t := env_strftime E (history w) fmt in
    (Ret t, mk_world (history w ++ [EvStrftime fmt t])
                     (log_file w) (terminal w) (rt_config w)).

(** [LOG.info(out)]: the handler formats the record as its message alone
    and ends it with a line feed. *)
Definition LOG_info (out : string) : M unit :=
  fun w =>
    (Ret tt, mk_world (history w) (log_file w ++ out ++ nl)
                      (terminal w) (rt_config w)).

(** [print(out)] *)
Definition print (out : string) : M unit :=
  fun w =>
    (Ret tt, mk_world (history w) (log_file w)
                      (terminal w ++ out ++ nl) (rt_config w)).

(** What is needed of a finished [subprocess.Popen]: the value of
    [p.wait()] and what [p.stdout.read()] gives. *)
Record process := mk_process {
  wait : Z;
  stdout_read : list byte
}.

(** [p = subprocess.Popen(cmd, shell=True)] run to its end. *)
Definition Popen (cmd : string) : M process :=
  fun w =>
    let '(rc, out) := env_popen E (history w) cmd in
    (Ret (mk_process rc out),
     mk_world (history w ++ [EvPopen cmd rc out])
              (log_file w) (terminal w) (rt_config w)).

(** [fabric.Connection(host=..., user=...)] *)
Record Connection := mk_connection {
  conn_host : string;
  conn_user : string
}.

(** What the root logger's file handler writes for the records of a
    library: each message alone, ended by a line feed. *)
Fixpoint log_records (records : list string) : string :=
  match records with
  | [] => EmptyString
  | r :: more => r ++ nl ++ log_records more
  end.

(** [fabconn.open()]: it raises when the connection cannot be made; what
    the SSH library logs on the way reaches the log file. *)
Definition fab_open (c : Connection) : M unit :=
  fun w =>
    let ok := env_open E (history w) (conn_host c) (conn_user c) in
    let records := env_ssh_log E (history w) (conn_host c) (conn_user c) in
    (if ok then Ret tt else Raise ConnectError,
     mk_world (history w ++ [EvOpen (conn_host c) (conn_user c) ok])
              (log_file w ++ log_records records) (terminal w) (rt_config w)).

(** [fabconn.run(cmd, hide=..., warn=...)]: unless [warn] is set, a command
    that exits with a non-zero status makes [run] raise [UnexpectedExit]
    instead of returning the result. *)
Definition fab_run (c : Connection) (cmd : string) (hide warn : bool)
  : M run_result :=
  fun w =>
    let r := env_run E (history w) (conn_host c) (conn_user c) cmd hide warn in
    (if negb warn && failed r then Raise UnexpectedExit else Ret r,
     mk_world (history w ++ [EvRun (conn_host c) (conn_user c) cmd hide warn r])
              (log_file w) (terminal w) (rt_config w)).

(** Reading the global [rt_config]; unbound until the main program has
    assigned it. *)
Definition get_rt_config : M local_config :=
  fun w =>
    match rt_config w with
    | Some c => (Ret c, w)
    | None => (Raise NameError, w)
    end.

Definition set_rt_config (c : local_config) : M unit :=
  fun w => (Ret tt, mk_world (history w) (log_file w) (terminal w) (Some c)).

(** [d[k]] *)
Definition subscript {V} (d : dict V) (k : string) : M V :=
  match dict_get d k with
  | Some v => ret v
  | None => raise KeyError
  end.

(** [l[i]] for [i >= 0] *)
Definition index (l : list string) (i : nat) : M string :=
  match nth_error l i with
  | Some v => ret v
  | None => raise IndexError
  end.

(** *** The functions of rt.py *)

Definition log (in_str : string) : M unit :=
  if is_empty in_str then ret tt
  else
    now <- strftime "%H-%M-%S" ;;
    let out := now ++ ": " ++ in_str in
    LOG_info out ;;
    print out.

Definition die {A} (in_str : string) : M A :=
  let err_str := in_str ++ " Exiting." in
  log err_str ;;
  exit.

Definition show_help : M unit := print HELP_TEXT.

(** The name cut out of one line of [VBoxManage list runningvms]:
    [this_line[1:k]] where [k] is the result of [find] for the double
    quote character from index 2. *)
Definition running_vm_name (this_line : string) : string :=
  slice this_line 1 (find this_line dquote 2).

(** The list [running_vms] built from the command's output. *)
Definition running_vms_of (output : list byte) : list string :=
  let running_vms_lines := split newline (strip (decode_latin1 output)) in
  map running_vm_name running_vms_lines.

Definition is_vm_running (vm_name : string) : M unit :=
  p <- Popen "VBoxManage list runningvms" ;;
  let ret_val := wait p in
  when (ret_val >? 0) (die "VBoxManage runningvms failed to run.") ;;
  let running_vms := running_vms_of (stdout_read p) in
  when (negb (mem vm_name running_vms))
    (die (vm_name ++ " is not in the list of running VMs: '"
          ++ join " " running_vms ++ "'.")).

Definition cmd_to_vm (cmd_to_run vm_name : string) : M string :=
  when (negb (dict_mem vm_name VM_INFO))
    (die ("Attempt to run on " ++ vm_name ++ ", which is not a valid VM")) ;;
  is_vm_running vm_name ;;
  cfg <- get_rt_config ;;
  this_vm <- subscript (vm_info cfg) vm_name ;;
  this_control_address <-
    match dict_get this_vm "control_addr" with
    | Some a =>
        if is_empty a then die ("There was no address for " ++ vm_name)
        else ret a
    | None => die ("There was no address for " ++ vm_name)
    end ;;
  let fabconn := mk_connection this_control_address "root" in
  try_except (fab_open fabconn)
    (die ("Could not open an SSH connection to " ++ vm_name ++ ".")) ;;
  ret_hostname <- fab_run fabconn "hostname" true false ;;
  when (failed ret_hostname)
    (die ("Could not run hostname on " ++ vm_name)) ;;
  let ret_text := stdout ret_hostname in
  when (negb (String.eqb (rstrip ret_text) vm_name))
    (die ("The host at " ++ this_control_address ++ " is not " ++ vm_name
          ++ ": '" ++ ret_text ++ "'")) ;;
  ret_main_cmd <- fab_run fabconn cmd_to_run true true ;;
  if failed ret_main_cmd
  then ret ("Error: " ++ strip (stderr ret_main_cmd))
  else ret (strip (stdout ret_main_cmd)).

Definition startup_and_config_general (argv : list string) : M local_config :=
  argv0 <- index argv 0 ;;
  when (negb (String.eqb argv0 "./rt.py"))
    (die "This program must be run as ./rt.py so that all the additional files are found.") ;;
  p <- Popen "VBoxManage --version >/dev/null 2>/dev/null" ;;
  when (wait p >? 0) (die "Could not run VBoxManage during sanity check.") ;;
  for_in (dict_keys VM_INFO) (fun this_vm_name =>
    p <- Popen ("VBoxManage showvminfo " ++ this_vm_name
                ++ " >/dev/null 2>/dev/null") ;;
    when (wait p >? 0)
      (die ("Could not find '" ++ this_vm_name
            ++ "' in the VirtualBox inventory."))) ;;
  let this_local_config := mk_local_config VM_INFO in
  ret this_local_config.

Definition sanity_check_vms : M bool :=
  cfg <- get_rt_config ;;
  for_in (dict_keys (vm_info cfg)) (fun this_vm =>
    log ("Starting sanity check on " ++ this_vm) ;;
    is_vm_running this_vm ;;
    this_ret <- cmd_to_vm "ls ~/Target" this_vm ;;
    when (contains "No such file or directory" this_ret)
      (inner_ret <- cmd_to_vm "mkdir ~/Target" this_vm ;;
       log ("Created ~/Target on " ++ this_vm)) ;;
    this_ret <- cmd_to_vm "ls ~/Source" this_vm ;;
    when (contains "No such file or directory" this_ret)
      (inner_ret <- cmd_to_vm "mkdir ~/Source" this_vm ;;
       log ("Created ~/Source on " ++ this_vm))) ;;
  ret true.

(** The block under [if __name__ == "__main__":], with [sys.argv]. *)
Definition main (argv : list string) : M unit :=
  today <- strftime "%Y-%m-%d" ;;
  log ("## Starting run on date " ++ today) ;;
  when (Nat.ltb (List.length argv) 2)
    (show_help ;;
     die "There were no arguments on the command line.") ;;
  cfg <- startup_and_config_general argv ;;
  set_rt_config cfg ;;
  cmd <- index argv 1 ;;
  let cmd_args := skipn 2 argv in
  log ("Command was " ++ cmd ++ " " ++ join " " cmd_args) ;;
  when (negb (mem cmd CLI_COMMANDS))
    (show_help ;;
     die (cmd ++ " is not valid command.")) ;;
  (if String.eqb cmd "help" then show_help
   else if String.eqb cmd "check_vms" then
     ok <- sanity_check_vms ;;
     when ok (log "VMs are running as expected")
   else ret tt) ;;
  log "## Finished run" ;;
  exit.

End Program.

(** ** Vocabulary of the statements *)

(** The interactions that leave the process: the hypervisor command line
    and everything done over SSH.  Reading the clock is not one. *)
Definition is_external (e : event) : bool :=
  match e with
  | EvStrftime _ _ => false
  | EvPopen _ _ _ | EvOpen _ _ _ | EvRun _ _ _ _ _ _ => true
  end.

Definition external_actions (h : list event) : list event :=
  filter is_external h.

(** The caller's commands run on the virtual machines, in order, each with
    the address it was sent to and its result.  [cmd_to_vm] passes
    [warn=True] for the caller's command only; its own [hostname] check
    runs without it. *)
Fixpoint commands_run (h : list event) : list (string * string * run_result) :=
  match h with
  | [] => []
  | EvRun host _ cmd _ true r :: t => (host, cmd, r) :: commands_run t
  | _ :: t => commands_run t
  end.

(** The results of the runs of [cmd] on [host]. *)
Fixpoint results_of (host cmd : string)
    (l : list (string * string * run_result)) : list run_result :=
  match l with
  | [] => []
  | (h, c, r) :: t =>
      if String.eqb h host && String.eqb c cmd
      then r :: results_of host cmd t else results_of host cmd t
  end.

(** How many times [cmd] was run on [host]. *)
Definition issued (host cmd : string) (h : list event) : nat :=
  List.length (results_of host cmd (commands_run h)).

(** The string [cmd_to_vm] makes of the result of the caller's command. *)
Definition reply_text (r : run_result) : string :=
  if failed r then "Error: " ++ strip (stderr r) else strip (stdout r).

Definition dir_missing (r : run_result) : bool :=
  contains "No such file or directory" (reply_text r).

(** The world once [log] has handled a non-empty message. *)
Definition logged (E : Env) (msg : string) (w : world) : world :=
  let now := env_strftime E (history w) "%H-%M-%S" in
  mk_world (history w ++ [EvStrftime "%H-%M-%S" now])
           (log_file w ++ (now ++ ": " ++ msg) ++ nl)
           (terminal w ++ (now ++ ": " ++ msg) ++ nl)
           (rt_config w).

(** The text [s'] is [s] with more text after it, [x] somewhere in it. *)
Definition gained (x s s' : string) : Prop :=
  exists before after, s' = s ++ before ++ x ++ after.

(** [msg] went to the log file, with some time in front, between [w] and
    [w']. *)
Definition log_gained (msg : string) (w w' : world) : Prop :=
  exists now, gained (now ++ ": " ++ msg ++ nl) (log_file w) (log_file w').

Fixpoint count_char (c : ascii) (s : string) : nat :=
  match s with
  | EmptyString => O
  | String a r => (if Ascii.eqb a c then 1 else 0) + count_char c r
  end.

(** The world once a local command has been run and waited for. *)
Definition popened (cmd : string) (rc : Z) (out : list byte) (w : world)
  : world :=
  mk_world (history w ++ [EvPopen cmd rc out])
           (log_file w) (terminal w) (rt_config w).

(** The world once one more interaction [e] has taken place. *)
Definition happened (e : event) (w : world) : world :=
  mk_world (history w ++ [e]) (log_file w) (terminal w) (rt_config w).

(** The world once the opening of an SSH connection has been tried: the
    attempt is in the history and the records of the SSH library are in the
    log file. *)
Definition opened (E : Env) (addr user : string) (ok : bool) (w : world)
  : world :=
  mk_world (history w ++ [EvOpen addr user ok])
           (log_file w ++ log_records (env_ssh_log E (history w) addr user))
           (terminal w) (rt_config w).

Definition LIST_RUNNING : string := "VBoxManage list runningvms".

(** [c] occurs in [s]. *)
Fixpoint occurs (c : ascii) (s : string) : bool :=
  match s with
  | EmptyString => false
  | String a r => Ascii.eqb a c || occurs c r
  end.

(** A line of [VBoxManage list runningvms]: the name between double
    quotes, then the rest of the line (a space and the identifier). *)
Definition vm_line (name rest : string) : string :=
  String dquote (name ++ String dquote rest).

(** The whole output for the given machines: one line each, every line
    ended by a line feed. *)
Fixpoint vm_listing (vms : list (string * string)) : string :=
  match vms with
  | [] => EmptyString
  | (name, rest) :: more => vm_line name rest ++ nl ++ vm_listing more
  end.

(** What the parser can tell apart: a name that is not empty and has no
    double quote or line feed in it, and a rest without line feed. *)
Definition plain_entry (e : string * string) : Prop :=
  fst e <> "" /\ occurs dquote (fst e) = false
  /\ occurs newline (fst e) = false /\ occurs newline (snd e) = false.

(** From [w], the machine [vm_name] is configured with the address [addr],
    the hypervisor lists it as running and the SSH connection to [addr]
    opens; [w2] is the world at that point. *)
Inductive session_opened (E : Env) (vm_name : string) (w : world)
  : string -> world -> Prop :=
| SessionOpened cfg this_vm addr rc out :
    rt_config w = Some cfg ->
    dict_get (vm_info cfg) vm_name = Some this_vm ->
    dict_get this_vm "control_addr" = Some addr ->
    addr <> "" ->
    env_popen E (history w) "VBoxManage list runningvms" = (rc, out) ->
    rc <= 0 ->
    In vm_name (running_vms_of out) ->
    env_open E (history (popened "VBoxManage list runningvms" rc out w))
             addr "root" = true ->
    session_opened E vm_name w addr
      (opened E addr "root" true
         (popened "VBoxManage list runningvms" rc out w)).

(** The answer to the [hostname] command sent first over the session. *)
Definition identity_reply (E : Env) (addr : string) (w2 : world) : run_result :=
  env_run E (history w2) addr "root" "hostname" true false.

(** *** The sanity checks *)

(** The configuration the main program stores in [rt_config]. *)
Definition startup_config : local_config := mk_local_config VM_INFO.

(** [addr] is the control address configured for [vm]. *)
Definition address_of (vm addr : string) : Prop :=
  exists d, dict_get VM_INFO vm = Some d /\ dict_get d "control_addr" = Some addr.

(** The machines with their addresses, in the order of [VM_INFO]. *)
Definition machines : list (string * string) :=
  [ ("gateway-vm", "192.168.56.2");
    ("servers-vm", "192.168.56.3");
    ("resolvers-vm", "192.168.56.4") ].

Definition command : Type := (string * string * run_result)%type.

Definition ls_cmd (dir : string) : string := "ls ~/" ++ dir.
Definition mkdir_cmd (dir : string) : string := "mkdir ~/" ++ dir.
Definition created_msg (dir vm : string) : string :=
  "Created ~/" ++ dir ++ " on " ++ vm.

(** [w'] continues [w]: the interactions [evs] and the log text [lg] were
    added, the configuration is the same. *)
Definition extends (w w' : world) (evs : list event) (lg : string) : Prop :=
  history w' = (history w ++ evs)%list
  /\ log_file w' = log_file w ++ lg
  /\ rt_config w' = rt_config w.

(** The check of one directory, as [sanity_check_vms] writes it out for
    [~/Target] and again for [~/Source]. *)
Definition check_dir (E : Env) (dir this_vm : string) : M unit :=
  this_ret <- cmd_to_vm E (ls_cmd dir) this_vm ;;
  when (contains "No such file or directory" this_ret)
    (inner_ret <- cmd_to_vm E (mkdir_cmd dir) this_vm ;;
     log E (created_msg dir this_vm)).

(** The body of the loop of [sanity_check_vms]. *)
Definition sanity_body (E : Env) (this_vm : string) : M unit :=
  log E ("Starting sanity check on " ++ this_vm) ;;
  is_vm_running E this_vm ;;
  this_ret <- cmd_to_vm E "ls ~/Target" this_vm ;;
  when (contains "No such file or directory" this_ret)
    (inner_ret <- cmd_to_vm E "mkdir ~/Target" this_vm ;;
     log E ("Created ~/Target on " ++ this_vm)) ;;
  this_ret <- cmd_to_vm E "ls ~/Source" this_vm ;;
  when (contains "No such file or directory" this_ret)
    (inner_ret <- cmd_to_vm E "mkdir ~/Source" this_vm ;;
     log E ("Created ~/Source on " ++ this_vm)).

(** The ways a call can end without returning: through [die], or with the
    exception a failing [hostname] raises. *)
Definition ended {A} (o : outcome A) : Prop :=
  o = Exit 0 \/ o = Raise UnexpectedExit.

(** The outcome goes with the flag of a trace: the value [a] returned when
    the flag is [true], the call ended without returning when it is
    [false]. *)
Definition outcome_is {A} (returned : bool) (a : A) (o : outcome A) : Prop :=
  if returned then o = Ret a else ended o.

(** The caller's commands and the log text one directory check can leave
    behind.  The flag tells whether the check returned ([true]) or the
    process ended in it ([false]). *)
Inductive dir_trace (addr vm dir : string)
  : bool -> list command -> string -> Prop :=
| DirUnreached lg :
    dir_trace addr vm dir false [] lg
| DirPresent r lg :
    dir_missing r = false ->
    dir_trace addr vm dir true [(addr, ls_cmd dir, r)] lg
| DirAborted r lg :
    dir_missing r = true ->
    dir_trace addr vm dir false [(addr, ls_cmd dir, r)] lg
| DirCreated r r' before now :
    dir_missing r = true ->
    dir_trace addr vm dir true
      [(addr, ls_cmd dir, r); (addr, mkdir_cmd dir, r')]
      (before ++ (now ++ ": " ++ created_msg dir vm ++ nl)).

(** The same for the checks of one machine... *)
Inductive vm_trace (addr vm : string)
  : bool -> list command -> string -> Prop :=
| VmAborted l lg0 lg1 :
    dir_trace addr vm "Target" false l lg1 ->
    vm_trace addr vm false l (lg0 ++ lg1)
| VmChecked b l1 l2 lg0 lg1 lg2 :
    dir_trace addr vm "Target" true l1 lg1 ->
    dir_trace addr vm "Source" b l2 lg2 ->
    vm_trace addr vm b (l1 ++ l2) (lg0 ++ lg1 ++ lg2).

(** ... and for the loop over the machines. *)
Inductive run_trace
  : list (string * string) -> bool -> list command -> string -> Prop :=
| RunDone :
    run_trace [] true [] ""
| RunAborted vm addr rest l lg :
    vm_trace addr vm false l lg ->
    run_trace ((vm, addr) :: rest) false l lg
| RunNext vm addr rest b l l' lg lg' :
    vm_trace addr vm true l lg ->
    run_trace rest b l' lg' ->
    run_trace ((vm, addr) :: rest) b (l ++ l') (lg ++ lg').

(** What a trace says about one directory of one machine: at most one
    listing was run and no more creations than listings that reported the
    directory missing; and when the checks returned, exactly one listing,
    one creation if it reported the directory missing and none otherwise,
    and in the first case the creation message in the log text. *)
Definition dir_facts (vm addr dir : string) (returned : bool)
    (cmds : list command) (lg : string) : Prop :=
  let listings := results_of addr (ls_cmd dir) cmds in
  let creations := List.length (results_of addr (mkdir_cmd dir) cmds) in
  (List.length listings <= 1)%nat
  /\ (creations <= List.length (filter dir_missing listings))%nat
  /\ (returned = true ->
      exists r,
        listings = [r]
        /\ creations = (if dir_missing r then 1%nat else 0%nat)
        /\ (dir_missing r = true ->
            exists before now after,
              lg = before ++ (now ++ ": " ++ created_msg dir vm ++ nl) ++ after)).

(** *** The main program *)

(** The world once [print] has written [out]. *)
Definition printed (out : string) (w : world) : world :=
  mk_world (history w) (log_file w) (terminal w ++ out ++ nl) (rt_config w).

(** The help text was printed between [w] and [w']. *)
Definition help_printed (w w' : world) : Prop :=
  gained (HELP_TEXT ++ nl) (terminal w) (terminal w').

(** The interactions of the checks on the machines: the query for the
    running machines, the SSH connections and the remote commands.  The
    commands of the startup validation are not among them. *)
Definition is_vm_check (e : event) : bool :=
  match e with
  | EvStrftime _ _ => false
  | EvPopen cmd _ _ => String.eqb cmd "VBoxManage list runningvms"
  | EvOpen _ _ _ | EvRun _ _ _ _ _ _ => true
  end.

Definition vm_checks (h : list event) : list event := filter is_vm_check h.

(** The world in which the main program calls the startup validation: the
    date has been read and the start line logged. *)
Definition started (E : Env) (w : world) : world :=
  let today := env_strftime E (history w) "%Y-%m-%d" in
  logged E ("## Starting run on date " ++ today)
         (happened (EvStrftime "%Y-%m-%d" today) w).

(** The world in which the main program looks at the command: the
    configuration is stored and the command line logged. *)
Definition dispatching (E : Env) (argv : list string) (cmd : string)
    (cfg : local_config) (w1 : world) : world :=
  logged E ("Command was " ++ cmd ++ " " ++ join " " (skipn 2 argv))
         (mk_world (history w1) (log_file w1) (terminal w1) (Some cfg)).

(** The exit status and the world a local command leaves. *)
Definition popen_rc (E : Env) (cmd : string) (w : world) : Z :=
  fst (env_popen E (history w) cmd).

Definition after_popen (E : Env) (cmd : string) (w : world) : world :=
  popened cmd (fst (env_popen E (history w) cmd))
          (snd (env_popen E (history w) cmd)) w.

Definition VERSION_CMD : string :=
  "VBoxManage --version >/dev/null 2>/dev/null".

Definition showvminfo_cmd (vm : string) : string :=
  "VBoxManage showvminfo " ++ vm ++ " >/dev/null 2>/dev/null".

(** *** Further vocabulary *)

(** The part of [cmd_to_vm] from the creation of the connection on: open
    it, check the host name, run the caller's command. *)
Definition run_over_ssh (E : Env) (cmd_to_run vm_name this_control_address : string)
  : M string :=
  let fabconn := mk_connection this_control_address "root" in
  try_except (fab_open E fabconn)
    (die E ("Could not open an SSH connection to " ++ vm_name ++ ".")) ;;
  ret_hostname <- fab_run E fabconn "hostname" true false ;;
  when (failed ret_hostname)
    (die E ("Could not run hostname on " ++ vm_name)) ;;
  let ret_text := stdout ret_hostname in
  when (negb (String.eqb (rstrip ret_text) vm_name))
    (die E ("The host at " ++ this_control_address ++ " is not " ++ vm_name
            ++ ": '" ++ ret_text ++ "'")) ;;
  ret_main_cmd <- fab_run E fabconn cmd_to_run true true ;;
  if failed ret_main_cmd
  then ret ("Error: " ++ strip (stderr ret_main_cmd))
  else ret (strip (stdout ret_main_cmd)).

(** The SSH interactions of a history. *)
Definition is_ssh (e : event) : bool :=
  match e with
  | EvOpen _ _ _ | EvRun _ _ _ _ _ _ => true
  | _ => false
  end.

Definition ssh_actions (h : list event) : list event := filter is_ssh h.

(** [m] keeps the relation [R] between the world it starts in and the world
    it leaves, however it ends. *)
Definition keeps (R : world -> world -> Prop) {A} (m : M A) : Prop :=
  forall w, R w (snd (m w)).

(** The configuration is left alone. *)
Definition same_config (w w' : world) : Prop := rt_config w' = rt_config w.

(** The log file and the terminal received the same text. *)
Definition mirrored (w w' : world) : Prop :=
  exists x, log_file w' = log_file w ++ x /\ terminal w' = terminal w ++ x.

(** What reaches the log file, piece by piece: a record of [log], which
    goes to the terminal as well, or the records of the SSH library for one
    connection, which do not. *)
Inductive entry : Type :=
| Logged (now msg : string)
| Library (records : list string).

Definition entry_text (e : entry) : string :=
  match e with
  | Logged now msg => (now ++ ": " ++ msg) ++ nl
  | Library records => log_records records
  end.

Fixpoint file_text (es : list entry) : string :=
  match es with
  | [] => EmptyString
  | e :: more => entry_text e ++ file_text more
  end.

Fixpoint terminal_text (es : list entry) : string :=
  match es with
  | [] => EmptyString
  | Logged now msg :: more => entry_text (Logged now msg) ++ terminal_text more
  | Library _ :: more => terminal_text more
  end.

(** The log file received the entries [es], the terminal those of them
    that [log] wrote. *)
Definition woven (w w' : world) : Prop :=
  exists es,
    log_file w' = log_file w ++ file_text es
    /\ terminal w' = terminal w ++ terminal_text es.

(** The messages with which [cmd_to_vm], and [is_vm_running] called from
    it, end the process for the machine [vm]. *)
Inductive complaint (vm : string) : string -> Prop :=
| NotValid :
    complaint vm ("Attempt to run on " ++ vm ++ ", which is not a valid VM")
| QueryFailed :
    complaint vm "VBoxManage runningvms failed to run."
| NotRunning names :
    complaint vm (vm ++ " is not in the list of running VMs: '" ++ names ++ "'.")
| NoAddress :
    complaint vm ("There was no address for " ++ vm)
| NoConnection :
    complaint vm ("Could not open an SSH connection to " ++ vm ++ ".")
| WrongHost addr text :
    complaint vm ("The host at " ++ addr ++ " is not " ++ vm
                  ++ ": '" ++ text ++ "'").

(** The commands of the checks of one machine, in order: the listing of
    [~/Target], its creation if asked for, the listing of [~/Source], its
    creation if asked for. *)
Definition machine_script (addr : string) (mk_target mk_source : bool)
  : list (string * string) :=
  ([(addr, "ls ~/Target")]
   ++ (if mk_target then [(addr, "mkdir ~/Target")] else [])
   ++ [(addr, "ls ~/Source")]
   ++ (if mk_source then [(addr, "mkdir ~/Source")] else []))%list.

(** The query for the running machines, asked in [w], does not fail and
    lists [vm]. *)
Definition listed_running (E : Env) (vm : string) (w : world) : Prop :=
  popen_rc E LIST_RUNNING w <= 0
  /\ In vm (running_vms_of (snd (env_popen E (history w) LIST_RUNNING))).

(** [rt_config] holds the non-empty control address [addr] for [vm]. *)
Definition address_configured (w : world) (vm addr : string) : Prop :=
  exists cfg this_vm,
    rt_config w = Some cfg
    /\ dict_get (vm_info cfg) vm = Some this_vm
    /\ dict_get this_vm "control_addr" = Some addr
    /\ addr <> "".

(** The surroundings in which the checks on the machines always pass:
    whenever asked, the hypervisor lists the three machines as running, the
    SSH connections open and the hosts answer [hostname] with their names.
    Nothing is asked of the answers to the other commands. *)
Definition healthy (E : Env) : Prop :=
  (forall h,
     fst (env_popen E h LIST_RUNNING) <= 0
     /\ forall vm addr, In (vm, addr) machines ->
          In vm (running_vms_of (snd (env_popen E h LIST_RUNNING))))
  /\ (forall h vm addr, In (vm, addr) machines ->
        env_open E h addr "root" = true)
  /\ (forall h vm addr, In (vm, addr) machines ->
        failed (env_run E h addr "root" "hostname" true false) = false
        /\ rstrip (stdout (env_run E h addr "root" "hostname" true false)) = vm).

(** The local commands of a history, in order. *)
Fixpoint popen_commands (h : list event) : list string :=
  match h with
  | [] => []
  | EvPopen cmd _ _ :: t => cmd :: popen_commands t
  | _ :: t => popen_commands t
  end.

(** The commands of the startup validation, in order. *)
Definition startup_commands : list string :=
  [ VERSION_CMD; showvminfo_cmd "gateway-vm"; showvminfo_cmd "servers-vm";
    showvminfo_cmd "resolvers-vm" ].

(** What the startup validation says when its first, second, third or
    fourth command fails. *)
Definition startup_complaints : list string :=
  [ "Could not run VBoxManage during sanity check.";
    "Could not find 'gateway-vm' in the VirtualBox inventory.";
    "Could not find 'servers-vm' in the VirtualBox inventory.";
    "Could not find 'resolvers-vm' in the VirtualBox inventory." ].

(** The world once the local commands [cmds] have been run, one after the
    other. *)
Definition after_commands (E : Env) (cmds : list string) (w : world) : world :=
  fold_left (fun w0 cmd => after_popen E cmd w0) cmds w.

(** The exit status of the [k]-th command of the startup validation, run
    in its turn after the ones before it. *)
Definition startup_status (E : Env) (k : nat) (w : world) : Z :=
  popen_rc E (nth k startup_commands EmptyString)
    (after_commands E (firstn k startup_commands) w).

(** The world once the four commands of the startup validation have been
    run. *)
Definition after_startup (E : Env) (w : world) : world :=
  after_popen E (showvminfo_cmd "resolvers-vm")
    (after_popen E (showvminfo_cmd "servers-vm")
       (after_popen E (showvminfo_cmd "gateway-vm")
          (after_popen E VERSION_CMD w))).

(** The startup validation, called in [w], finds nothing wrong: the
    program was run as [./rt.py] and none of the four commands exits with a
    positive status. *)
Definition startup_checks_pass (E : Env) (argv : list string) (w : world)
  : Prop :=
  let w1 := after_popen E VERSION_CMD w in
  let w2 := after_popen E (showvminfo_cmd "gateway-vm") w1 in
  let w3 := after_popen E (showvminfo_cmd "servers-vm") w2 in
  nth_error argv 0 = Some "./rt.py"
  /\ popen_rc E VERSION_CMD w <= 0
  /\ popen_rc E (showvminfo_cmd "gateway-vm") w1 <= 0
  /\ popen_rc E (showvminfo_cmd "servers-vm") w2 <= 0
  /\ popen_rc E (showvminfo_cmd "resolvers-vm") w3 <= 0.

(** The commands of one directory check: the listing, and the creation if
    asked for. *)
Definition dir_script (addr dir : string) (mk : bool) : list (string * string) :=
  ([(addr, ls_cmd dir)] ++ (if mk then [(addr, mkdir_cmd dir)] else []))%list.

(** The commands of the checks of several machines, one after the other,
    given for each whether its two directories are to be created. *)
Fixpoint run_script (vms : list (string * string)) (choices : list (bool * bool))
  : list (string * string) :=
  match vms, choices with
  | (_, addr) :: vs, (t, s) :: cs =>
      (machine_script addr t s ++ run_script vs cs)%list
  | _, _ => []
  end.

(** ** A simulated testbed

    All three machines run and answer to their names; [~/Target] is missing
    everywhere, [~/Source] exists. *)

Module Sim.

Definition quoted (s : string) : string :=
  String dquote (s ++ String dquote EmptyString).

Definition listing : string :=
  quoted "gateway-vm" ++ " {0a1b}" ++ nl ++
  quoted "servers-vm" ++ " {2c3d}" ++ nl ++
  quoted "resolvers-vm" ++ " {4e5f}" ++ nl.

Definition hostname_at (addr : string) : string :=
  if String.eqb addr "192.168.56.2" then "gateway-vm"
  else if String.eqb addr "192.168.56.3" then "servers-vm"
  else "resolvers-vm".

Definition env : Env :=
  mk_env
    (fun _ fmt => if String.eqb fmt "%H-%M-%S" then "12-30-05" else "2019-03-01")
    (fun _ cmd =>
       if String.eqb cmd "VBoxManage list runningvms"
       then (0, list_byte_of_string listing) else (0, []))
    (fun _ _ _ => true)
    (fun _ addr _ cmd _ _ =>
       if String.eqb cmd "hostname"
       then mk_run_result 0 (hostname_at addr ++ nl) ""
       else if String.eqb cmd "ls ~/Target"
       then mk_run_result 2 ""
              ("ls: cannot access '/root/Target': No such file or directory" ++ nl)
       else mk_run_result 0 "" "")
    (fun _ _ _ =>
       ["Connected (version 2.0, client OpenSSH_7.4p1)";
        "Authentication (publickey) successful!"]).

(** The same testbed with every machine answering to a foreign name. *)
Definition env_wrong_host : Env :=
  mk_env (env_strftime env) (env_popen env) (env_open env)
    (fun _ _ _ _ _ _ => mk_run_result 0 ("somewhere-else" ++ nl) "")
    (env_ssh_log env).

(** The same testbed with every [mkdir] failing. *)
Definition env_mkdir_fails : Env :=
  mk_env (env_strftime env) (env_popen env) (env_open env)
    (fun h addr user cmd hide warn =>
       if String.prefix "mkdir" cmd
       then mk_run_result 1 "" ("mkdir: cannot create directory" ++ nl)
       else env_run env h addr user cmd hide warn)
    (env_ssh_log env).

(** The same testbed with no SSH connection to be had. *)
Definition env_unreachable : Env :=
  mk_env (env_strftime env) (env_popen env) (fun _ _ _ => false) (env_run env)
    (fun _ _ _ => []).

(** The same testbed with nothing running. *)
Definition env_all_stopped : Env :=
  mk_env (env_strftime env) (fun _ _ => (0, [])) (env_open env) (env_run env)
    (env_ssh_log env).

(** The same testbed with [servers-vm] missing from the inventory of the
    hypervisor. *)
Definition env_servers_missing : Env :=
  mk_env (env_strftime env)
    (fun h cmd =>
       if String.eqb cmd "VBoxManage showvminfo servers-vm >/dev/null 2>/dev/null"
       then (1, []) else env_popen env h cmd)
    (env_open env) (env_run env) (env_ssh_log env).

(** The same testbed with [hostname] failing on every machine. *)
Definition env_hostname_fails : Env :=
  mk_env (env_strftime env) (env_popen env) (env_open env)
    (fun h addr user cmd hide warn =>
       if String.eqb cmd "hostname"
       then mk_run_result 127 "" ("bash: hostname: command not found" ++ nl)
       else env_run env h addr user cmd hide warn)
    (env_ssh_log env).

(** The caller's command [cmd] has been run already. *)
Definition was_run (cmd : string) (h : list event) : bool :=
  existsb (fun e => match e with
                    | EvRun _ _ c _ true _ => String.eqb c cmd
                    | _ => false
                    end) h.

(** The same testbed with the machines shut down right after the first
    listing of [~/Target]: from then on the hypervisor lists nothing. *)
Definition env_shut_down : Env :=
  mk_env (env_strftime env)
    (fun h cmd =>
       if was_run "ls ~/Target" h then (0, []) else env_popen env h cmd)
    (env_open env) (env_run env) (env_ssh_log env).

(** A process whose configuration has an entry without address for the
    gateway and no entry for the other machines. *)
Definition unaddressed : world :=
  mk_world [] "" "" (Some (mk_local_config [("gateway-vm", [])])).

(** A fresh process, and one whose main program has stored its
    configuration. *)
Definition fresh : world := mk_world [] "" "" None.
Definition configured : world :=
  mk_world [] "" "" (Some (mk_local_config VM_INFO)).

End Sim.

(** ** Strings *)

Lemma is_empty_app (a b : string) :
  is_empty (a ++ b) = is_empty a && is_empty b.
Proof. destruct a; reflexivity. Qed.

Lemma is_empty_true (s : string) : is_empty s = true -> s = "".
Proof. destruct s; [reflexivity | discriminate]. Qed.

Lemma is_empty_false (s : string) : s <> "" -> is_empty s = false.
Proof. destruct s; [congruence | reflexivity]. Qed.

Lemma app_empty_r (s : string) : s ++ "" = s.
Proof. induction s as [|c s IH]; simpl; [|rewrite IH]; reflexivity. Qed.

Lemma app_assoc (a b c : string) : (a ++ b) ++ c = a ++ b ++ c.
Proof. induction a as [|x a IH]; simpl; [|rewrite IH]; reflexivity. Qed.

Lemma count_char_app (c : ascii) (a b : string) :
  count_char c (a ++ b) = (count_char c a + count_char c b)%nat.
Proof.
  induction a as [|x a IH]; simpl; [reflexivity|].
  rewrite IH. lia.
Qed.

Lemma prefix_refl (s : string) : String.prefix s s = true.
Proof.
  induction s as [|c s IH]; simpl; [reflexivity|].
  destruct (ascii_dec c c); [exact IH | congruence].
Qed.

Lemma prefix_app (s t : string) : String.prefix s (s ++ t) = true.
Proof.
  induction s as [|c s IH]; simpl.
  - destruct t; reflexivity.
  - destruct (ascii_dec c c); [exact IH | congruence].
Qed.

Lemma contains_app_r (x p : string) : contains x (p ++ x) = true.
Proof.
  induction p as [|c p IH]; simpl.
  - destruct x; simpl; [reflexivity|].
    destruct (ascii_dec a a); [|congruence].
    rewrite prefix_refl. reflexivity.
  - rewrite IH. apply orb_true_r.
Qed.

Lemma mem_In (x : string) (l : list string) : mem x l = true <-> In x l.
Proof.
  unfold mem. rewrite existsb_exists. split.
  - intros [y [Hy He]]. apply String.eqb_eq in He. subst. exact Hy.
  - intros H. exists x. split; [exact H | apply String.eqb_refl].
Qed.

(** ** The logging routines *)

Section Logging.

Variable E : Env.

Lemma log_nonempty (msg : string) (w : world) :
  is_empty msg = false -> log E msg w = (Ret tt, logged E msg w).
Proof.
  intros H. unfold log. rewrite H. reflexivity.
Qed.

Lemma log_empty (w : world) : log E "" w = (Ret tt, w).
Proof. reflexivity. Qed.

Lemma die_exits {A} (msg : string) (w : world) :
  @die E A msg w = (Exit 0, logged E (msg ++ " Exiting.") w).
Proof.
  unfold die, bind. rewrite log_nonempty.
  - reflexivity.
  - rewrite is_empty_app. apply andb_false_r.
Qed.

End Logging.

(** ** The log file (C8) *)

(** C8, as stated, fails for the empty message: [log] returns at once, as
    its docstring says, and no line reaches the log file. *)
Lemma log_empty_message_appends_no_line :
  ~ exists line,
      log_file (snd (log Sim.env "" Sim.fresh))
      = log_file Sim.fresh ++ line ++ nl.
Proof.
  intros [line H]. simpl in H. destruct line; discriminate H.
Qed.

(** C8 (amended): for every non-empty message, a call to [log] returns and
    appends to the log file exactly the time in the format [%H-%M-%S], a
    colon and a space, the message, and one line feed, so one line more
    than the line feeds the time and the message carry themselves; nothing
    else of the file changes.  A call with the empty message appends
    nothing. *)
Theorem log_appends_one_record (E : Env) (msg : string) (w : world) :
  msg <> "" ->
  let now := env_strftime E (history w) "%H-%M-%S" in
  let record := now ++ ": " ++ msg ++ nl in
  (exists w', log E msg w = (Ret tt, w')
              /\ log_file w' = log_file w ++ record)
  /\ count_char newline record
     = (count_char newline now + count_char newline msg + 1)%nat
  /\ log E "" w = (Ret tt, w).
Proof.
  intros Hne now record. repeat split.
  - exists (logged E msg w). split.
    + apply log_nonempty, is_empty_false, Hne.
    + unfold logged, record, now. simpl. now rewrite !app_assoc.
  - unfold record. rewrite !count_char_app. simpl. lia.
Qed.

Lemma log_appends_one_record_witness :
  "Starting sanity check on gateway-vm" <> ""
  /\ log_file (snd (log Sim.env "Starting sanity check on gateway-vm" Sim.fresh))
     = "12-30-05: Starting sanity check on gateway-vm" ++ nl.
Proof.
  split; [discriminate|].
  destruct (log_appends_one_record Sim.env
              "Starting sanity check on gateway-vm" Sim.fresh)
    as [[w' [Hrun Hfile]] _]; [discriminate|].
  rewrite Hrun. simpl. rewrite Hfile. reflexivity.
Defined.

(** ** Unknown machines (C2) *)

Lemma external_actions_app (h1 h2 : list event) :
  external_actions (h1 ++ h2)
  = (external_actions h1 ++ external_actions h2)%list.
Proof. apply filter_app. Qed.

Lemma external_actions_logged (E : Env) (msg : string) (w : world) :
  external_actions (history (logged E msg w)) = external_actions (history w).
Proof.
  unfold logged. simpl. rewrite external_actions_app. simpl.
  apply app_nil_r.
Qed.

(** C2: for every command and every name that is not a key of [VM_INFO],
    [cmd_to_vm] ends the process through [die], and up to that point it has
    made no running-VM query, opened no SSH connection and run no remote
    command: the external actions of the history are those it started
    with. *)
Theorem cmd_to_vm_rejects_unknown_vm
    (E : Env) (cmd_to_run vm_name : string) (w : world) :
  dict_mem vm_name VM_INFO = false ->
  exists w',
    cmd_to_vm E cmd_to_run vm_name w = (Exit 0, w')
    /\ w' = logged E ("Attempt to run on " ++ vm_name
                      ++ ", which is not a valid VM" ++ " Exiting.") w
    /\ external_actions (history w') = external_actions (history w).
Proof.
  intros Hnot. eexists. split; [|split; [reflexivity|]].
  - unfold cmd_to_vm. rewrite Hnot. unfold bind at 1. cbn [negb when].
    rewrite die_exits. rewrite !app_assoc. reflexivity.
  - apply external_actions_logged.
Qed.

Lemma cmd_to_vm_rejects_unknown_vm_witness :
  dict_mem "mail-vm" VM_INFO = false
  /\ fst (cmd_to_vm Sim.env "ls ~/Target" "mail-vm" Sim.configured) = Exit 0
  /\ history (snd (cmd_to_vm Sim.env "ls ~/Target" "mail-vm" Sim.configured))
     = [EvStrftime "%H-%M-%S" "12-30-05"].
Proof.
  split; [reflexivity|].
  destruct (cmd_to_vm_rejects_unknown_vm Sim.env "ls ~/Target" "mail-vm"
              Sim.configured) as [w' [Hrun [Hw _]]]; [reflexivity|].
  rewrite Hrun. simpl. split; [reflexivity|].
  rewrite Hw. reflexivity.
Defined.

(** ** Is the machine running? (C4) *)

Section Running.

Variable E : Env.

(** [is_vm_running], branch by branch. *)
Lemma is_vm_running_eq (vm_name : string) (w : world) :
  is_vm_running E vm_name w =
  let rc := fst (env_popen E (history w) LIST_RUNNING) in
  let out := snd (env_popen E (history w) LIST_RUNNING) in
  let w1 := popened LIST_RUNNING rc out w in
  if rc >? 0
  then (Exit 0, logged E ("VBoxManage runningvms failed to run." ++ " Exiting.") w1)
  else if mem vm_name (running_vms_of out)
  then (Ret tt, w1)
  else (Exit 0,
        logged E ((vm_name ++ " is not in the list of running VMs: '"
                   ++ join " " (running_vms_of out) ++ "'.") ++ " Exiting.") w1).
Proof.
  unfold is_vm_running, LIST_RUNNING, bind at 1, Popen.
  destruct (env_popen E (history w) "VBoxManage list runningvms") as [rc out].
  cbn [fst snd wait stdout_read]. fold (popened "VBoxManage list runningvms" rc out w).
  unfold bind at 1, when.
  destruct (rc >? 0).
  - rewrite die_exits. reflexivity.
  - cbn [ret]. destruct (mem vm_name (running_vms_of out)); cbn [negb ret].
    + reflexivity.
    + rewrite die_exits. reflexivity.
Qed.

End Running.

(** C4: whenever the command that lists the running machines exits with
    status zero, [is_vm_running] returns normally if the name is in the list
    parsed from the output, and ends the process through [die] if it is
    not. *)
Theorem is_vm_running_decides
    (E : Env) (vm_name : string) (w : world) (out : list byte) :
  env_popen E (history w) "VBoxManage list runningvms" = (0, out) ->
  (In vm_name (running_vms_of out) ->
   is_vm_running E vm_name w
   = (Ret tt, popened "VBoxManage list runningvms" 0 out w))
  /\ (~ In vm_name (running_vms_of out) ->
      exists w', is_vm_running E vm_name w = (Exit 0, w')).
Proof.
  intros Hlist. split; intros Hin.
  - rewrite is_vm_running_eq. unfold LIST_RUNNING. rewrite Hlist. cbn [fst snd].
    apply mem_In in Hin. rewrite Hin. reflexivity.
  - rewrite is_vm_running_eq. unfold LIST_RUNNING. rewrite Hlist. cbn [fst snd].
    destruct (mem vm_name (running_vms_of out)) eqn:Hm.
    + apply mem_In in Hm. contradiction.
    + eexists. reflexivity.
Qed.

Lemma is_vm_running_decides_witness :
  env_popen Sim.env (history Sim.fresh) "VBoxManage list runningvms"
  = (0, list_byte_of_string Sim.listing)
  /\ fst (is_vm_running Sim.env "servers-vm" Sim.fresh) = Ret tt
  /\ fst (is_vm_running Sim.env "mail-vm" Sim.fresh) = Exit 0.
Proof.
  split; [reflexivity|].
  destruct (is_vm_running_decides Sim.env "servers-vm" Sim.fresh
              (list_byte_of_string Sim.listing) eq_refl) as [Hyes _].
  destruct (is_vm_running_decides Sim.env "mail-vm" Sim.fresh
              (list_byte_of_string Sim.listing) eq_refl) as [_ Hno].
  split.
  - rewrite Hyes; [reflexivity|]. vm_compute. tauto.
  - destruct Hno as [w' Hw'].
    + vm_compute. intros [H|[H|[H|[]]]]; discriminate H.
    + rewrite Hw'. reflexivity.
Defined.

(** ** Parsing the list of running machines (C9) *)

Lemma length_app (a b : string) :
  String.length (a ++ b) = (String.length a + String.length b)%nat.
Proof. induction a as [|c a IH]; simpl; [|rewrite IH]; reflexivity. Qed.

Lemma take_app (a b : string) : take (String.length a) (a ++ b) = a.
Proof. induction a as [|c a IH]; simpl; [destruct b|rewrite IH]; reflexivity. Qed.

Lemma find_from_app (c : ascii) (a b : string) (i : Z) :
  occurs c a = false ->
  find_from c (a ++ String c b) i = i + len a.
Proof.
  revert i. induction a as [|x a IH]; intros i Hno; simpl.
  - rewrite Ascii.eqb_refl. unfold len. simpl. lia.
  - simpl in Hno. apply orb_false_iff in Hno. destruct Hno as [Hx Ha].
    rewrite Hx. rewrite IH by exact Ha. unfold len. cbn [String.length]. lia.
Qed.

(** One well-formed line gives its name. *)
Lemma running_vm_name_line (name rest : string) :
  name <> "" -> occurs dquote name = false ->
  running_vm_name (vm_line name rest) = name.
Proof.
  intros Hne Hq. destruct name as [|c n]; [congruence|].
  simpl in Hq. apply orb_false_iff in Hq. destruct Hq as [_ Hn].
  unfold running_vm_name, vm_line, find, slice, clamp.
  set (l := String dquote (String c n ++ String dquote rest)).
  assert (Hlen : len l = 3 + len n + len rest).
  { unfold l, len. cbn [append String.length]. rewrite length_app.
    cbn [String.length]. lia. }
  assert (Hn0 : 0 <= len n) by (unfold len; lia).
  assert (Hr0 : 0 <= len rest) by (unfold len; lia).
  replace (2 <? 0) with false by reflexivity.
  replace (1 <? 0) with false by reflexivity.
  replace (2 >? len l) with false
    by (symmetry; rewrite Z.gtb_ltb; apply Z.ltb_ge; lia).
  replace (Z.min 2 (len l)) with 2 by lia.
  replace (Z.min 1 (len l)) with 1 by lia.
  change (drop (Z.to_nat 2) l) with (n ++ String dquote rest).
  change (drop (Z.to_nat 1) l) with (String c n ++ String dquote rest).
  rewrite find_from_app by exact Hn.
  replace (2 + len n <? 0) with false by (symmetry; apply Z.ltb_ge; lia).
  replace (Z.min (2 + len n) (len l)) with (2 + len n) by lia.
  replace (Z.to_nat (2 + len n - 1)) with (String.length (String c n))
    by (unfold len; cbn [String.length]; lia).
  apply take_app.
Qed.

Lemma rstrip_app_keep (a b : string) :
  rstrip b <> "" -> rstrip (a ++ b) = a ++ rstrip b.
Proof.
  intros Hb. induction a as [|c a IH]; simpl; [reflexivity|].
  rewrite IH, is_empty_app, (is_empty_false (rstrip b) Hb).
  rewrite andb_false_r. reflexivity.
Qed.

Lemma rstrip_app_blank (a b : string) :
  rstrip b = "" -> rstrip (a ++ b) = rstrip a.
Proof.
  intros Hb. induction a as [|c a IH]; simpl; [exact Hb|].
  rewrite IH. reflexivity.
Qed.

Lemma rstrip_dquote (s : string) :
  rstrip (String dquote s) = String dquote (rstrip s).
Proof.
  simpl. replace (isspace dquote) with false by reflexivity.
  rewrite andb_false_r. reflexivity.
Qed.

Lemma rstrip_vm_line (name rest : string) :
  rstrip (vm_line name rest) = vm_line name (rstrip rest).
Proof.
  unfold vm_line. rewrite rstrip_dquote. f_equal.
  rewrite rstrip_app_keep; rewrite rstrip_dquote; [reflexivity | discriminate].
Qed.

Lemma occurs_app (c : ascii) (a b : string) :
  occurs c (a ++ b) = occurs c a || occurs c b.
Proof.
  induction a as [|x a IH]; simpl; [reflexivity|].
  rewrite IH. apply orb_assoc.
Qed.

Lemma occurs_rstrip (c : ascii) (s : string) :
  occurs c s = false -> occurs c (rstrip s) = false.
Proof.
  induction s as [|x s IH]; simpl; [reflexivity|].
  intros H. apply orb_false_iff in H. destruct H as [Hx Hs].
  destruct (is_empty (rstrip s) && isspace x); simpl; [reflexivity|].
  rewrite Hx, (IH Hs). reflexivity.
Qed.

Lemma occurs_vm_line (name rest : string) :
  occurs newline name = false -> occurs newline rest = false ->
  occurs newline (vm_line name rest) = false.
Proof.
  intros Hn Hr. unfold vm_line. simpl. rewrite occurs_app. simpl.
  rewrite Hn, Hr. reflexivity.
Qed.

Lemma split_line (a b : string) :
  occurs newline a = false ->
  split newline (a ++ nl ++ b) = a :: split newline b.
Proof.
  induction a as [|c a IH]; intros Hno.
  - reflexivity.
  - simpl in Hno. apply orb_false_iff in Hno. destruct Hno as [Hc Ha].
    change (split newline (String c a ++ nl ++ b))
      with (if Ascii.eqb c newline then "" :: split newline (a ++ nl ++ b)
            else match split newline (a ++ nl ++ b) with
                 | [] => [String c ""]
                 | h :: t => String c h :: t
                 end).
    rewrite Hc, (IH Ha). reflexivity.
Qed.

Lemma split_last_line (a : string) :
  occurs newline a = false -> split newline a = [a].
Proof.
  induction a as [|c a IH]; intros Hno; [reflexivity|].
  simpl in Hno. apply orb_false_iff in Hno. destruct Hno as [Hc Ha].
  simpl. rewrite Hc, (IH Ha). reflexivity.
Qed.

(** The text left by [rstrip] still begins with the first double quote,
    and cutting it into lines and names gives the names. *)
Lemma names_of_rstripped_listing (vms : list (string * string)) :
  vms <> [] -> Forall plain_entry vms ->
  (exists t, rstrip (vm_listing vms) = String dquote t)
  /\ map running_vm_name (split newline (rstrip (vm_listing vms)))
     = map fst vms.
Proof.
  induction vms as [|[name rest] more IH]; intros Hne Hall; [congruence|].
  inversion Hall as [|e l Hplain Hmore]; subst.
  destruct Hplain as [Hname [Hq [Hnl Hrest]]]. cbn [fst snd] in *.
  destruct more as [|next more'].
  - cbn [vm_listing].
    rewrite (rstrip_app_blank (vm_line name rest) (nl ++ "")) by reflexivity.
    rewrite rstrip_vm_line. split.
    + eexists. reflexivity.
    + rewrite split_last_line
        by (apply occurs_vm_line; [exact Hnl | apply occurs_rstrip, Hrest]).
      cbn [map fst]. rewrite running_vm_name_line by assumption. reflexivity.
  - destruct (IH ltac:(discriminate) Hmore) as [[t Ht] Hnames].
    change (vm_listing ((name, rest) :: next :: more'))
      with (vm_line name rest ++ nl ++ vm_listing (next :: more')).
    rewrite <- app_assoc.
    rewrite (rstrip_app_keep (vm_line name rest ++ nl))
      by (rewrite Ht; discriminate).
    rewrite app_assoc. split.
    + eexists. reflexivity.
    + rewrite split_line by (apply occurs_vm_line; assumption).
      cbn [map fst]. rewrite running_vm_name_line by assumption.
      f_equal. exact Hnames.
Qed.

(** C9, as stated, fails for a line whose quoted name is empty: the search
    for the closing quote starts at index 2, one past it, finds nothing and
    the slice runs to the character before the last. *)
Lemma running_vm_name_empty_name :
  running_vm_name (vm_line "" " {0a1b}") <> "".
Proof. vm_compute. discriminate. Qed.

(** C9 (amended): for output made of one line per machine, each a name
    between double quotes followed by the rest of the line, where the names
    are not empty and hold no double quote, the list the parser builds is
    the list of the names, one per line and in order; in particular the
    token taken from a single such line is its name. *)
Theorem running_vms_of_listing (vms : list (string * string)) :
  vms <> [] -> Forall plain_entry vms ->
  running_vms_of (list_byte_of_string (vm_listing vms)) = map fst vms
  /\ forall name rest, In (name, rest) vms ->
       running_vm_name (vm_line name rest) = name.
Proof.
  intros Hne Hall. split.
  - unfold running_vms_of, decode_latin1, strip.
    rewrite string_of_list_byte_of_string.
    destruct (names_of_rstripped_listing vms Hne Hall) as [[t Ht] Hnames].
    rewrite Ht in *. exact Hnames.
  - intros name rest Hin.
    rewrite Forall_forall in Hall. destruct (Hall _ Hin) as [Hn [Hq _]].
    apply running_vm_name_line; assumption.
Qed.

Lemma running_vms_of_listing_witness :
  running_vms_of
    (list_byte_of_string
       (vm_listing [("gateway-vm", " {0a1b}"); ("servers-vm", " {2c3d}  ")]))
  = ["gateway-vm"; "servers-vm"].
Proof.
  apply (running_vms_of_listing
           [("gateway-vm", " {0a1b}"); ("servers-vm", " {2c3d}  ")]).
  - discriminate.
  - repeat constructor; simpl; discriminate.
Defined.

(** ** Running a command on a machine (C1, C3) *)

Section RemoteExecution.

Variable E : Env.

(** [cmd_to_vm] for a machine of [VM_INFO] whose address the configuration
    holds, branch by branch. *)
Lemma cmd_to_vm_eq (cmd_to_run vm_name : string) (w : world)
    (cfg : local_config) (this_vm : dict string) (addr : string) :
  dict_mem vm_name VM_INFO = true ->
  rt_config w = Some cfg ->
  dict_get (vm_info cfg) vm_name = Some this_vm ->
  dict_get this_vm "control_addr" = Some addr ->
  is_empty addr = false ->
  cmd_to_vm E cmd_to_run vm_name w =
  let rc := fst (env_popen E (history w) LIST_RUNNING) in
  let out := snd (env_popen E (history w) LIST_RUNNING) in
  let w1 := popened LIST_RUNNING rc out w in
  if rc >? 0
  then (Exit 0, logged E ("VBoxManage runningvms failed to run." ++ " Exiting.") w1)
  else if negb (mem vm_name (running_vms_of out))
  then (Exit 0,
        logged E ((vm_name ++ " is not in the list of running VMs: '"
                   ++ join " " (running_vms_of out) ++ "'.") ++ " Exiting.") w1)
  else
  let ok := env_open E (history w1) addr "root" in
  let w2 := opened E addr "root" ok w1 in
  if negb ok
  then (Exit 0,
        logged E (("Could not open an SSH connection to " ++ vm_name ++ ".")
                  ++ " Exiting.") w2)
  else
  let rh := env_run E (history w2) addr "root" "hostname" true false in
  let w3 := happened (EvRun addr "root" "hostname" true false rh) w2 in
  if failed rh
  then (Raise UnexpectedExit, w3)
  else if negb (String.eqb (rstrip (stdout rh)) vm_name)
  then (Exit 0,
        logged E (("The host at " ++ addr ++ " is not " ++ vm_name
                   ++ ": '" ++ stdout rh ++ "'") ++ " Exiting.") w3)
  else
  let r := env_run E (history w3) addr "root" cmd_to_run true true in
  (Ret (reply_text r), happened (EvRun addr "root" cmd_to_run true true r) w3).
Proof.
  intros Hvm Hcfg Hthis Haddr Hne.
  unfold cmd_to_vm. rewrite Hvm. unfold bind at 1. cbn [negb when ret].
  unfold bind at 1. rewrite is_vm_running_eq. cbv zeta.
  destruct (fst (env_popen E (history w) LIST_RUNNING) >? 0); [reflexivity|].
  destruct (mem vm_name (running_vms_of (snd (env_popen E (history w) LIST_RUNNING))));
    [|reflexivity].
  cbn [negb].
  set (w1 := popened LIST_RUNNING _ _ w).
  assert (Hcfg1 : rt_config w1 = Some cfg) by exact Hcfg.
  unfold bind at 1, get_rt_config. rewrite Hcfg1.
  unfold bind at 1, subscript. rewrite Hthis. cbn [ret].
  unfold bind at 1. rewrite Haddr, Hne. cbn [ret].
  unfold bind at 1, try_except, fab_open. cbn [conn_host conn_user].
  fold (opened E addr "root" (env_open E (history w1) addr "root") w1).
  destruct (env_open E (history w1) addr "root"); cbn [negb].
  2: { rewrite die_exits. reflexivity. }
  set (w2 := opened E addr "root" true w1).
  unfold bind at 1, fab_run at 1. cbn [conn_host conn_user negb andb].
  fold (happened (EvRun addr "root" "hostname" true false
                    (env_run E (history w2) addr "root" "hostname" true false)) w2).
  set (rh := env_run E (history w2) addr "root" "hostname" true false).
  set (w3 := happened _ w2).
  destruct (failed rh) eqn:Hf; [reflexivity|].
  unfold bind at 1, when. rewrite Hf. cbn [ret]. unfold bind at 1.
  destruct (String.eqb (rstrip (stdout rh)) vm_name); cbn [negb].
  2: { rewrite die_exits. reflexivity. }
  cbn [ret]. unfold bind at 1, fab_run. cbn [conn_host conn_user negb andb].
  fold (happened (EvRun addr "root" cmd_to_run true true
                    (env_run E (history w3) addr "root" cmd_to_run true true)) w3).
  unfold reply_text.
  destruct (failed (env_run E (history w3) addr "root" cmd_to_run true true));
    reflexivity.
Qed.

(** What [cmd_to_vm] does once the session is open. *)
Lemma cmd_to_vm_in_session (cmd_to_run vm_name addr : string) (w w2 : world) :
  dict_mem vm_name VM_INFO = true ->
  session_opened E vm_name w addr w2 ->
  cmd_to_vm E cmd_to_run vm_name w =
  let rh := identity_reply E addr w2 in
  let w3 := happened (EvRun addr "root" "hostname" true false rh) w2 in
  if failed rh
  then (Raise UnexpectedExit, w3)
  else if negb (String.eqb (rstrip (stdout rh)) vm_name)
  then (Exit 0,
        logged E (("The host at " ++ addr ++ " is not " ++ vm_name
                   ++ ": '" ++ stdout rh ++ "'") ++ " Exiting.") w3)
  else
  let r := env_run E (history w3) addr "root" cmd_to_run true true in
  (Ret (reply_text r), happened (EvRun addr "root" cmd_to_run true true r) w3).
Proof.
  intros Hvm Hs.
  destruct Hs as [cfg this_vm addr rc out Hcfg Hthis Haddr Hne Hlist Hrc Hin Hopen].
  rewrite (cmd_to_vm_eq cmd_to_run vm_name w cfg this_vm addr)
    by (try assumption; apply is_empty_false; assumption).
  unfold LIST_RUNNING. rewrite Hlist. cbn [fst snd]. cbv zeta.
  replace (rc >? 0) with false
    by (symmetry; rewrite Z.gtb_ltb; apply Z.ltb_ge; exact Hrc).
  apply mem_In in Hin. rewrite Hin. cbn [negb].
  rewrite Hopen. cbn [negb]. reflexivity.
Qed.

Lemma commands_run_app (h1 h2 : list event) :
  commands_run (h1 ++ h2) = (commands_run h1 ++ commands_run h2)%list.
Proof.
  induction h1 as [|e h1 IH]; [reflexivity|].
  destruct e as [| | |host user cmd hide warn r]; simpl; try exact IH.
  destruct warn; simpl; [rewrite IH|]; auto.
Qed.

End RemoteExecution.

(** C1: once the machine is known, running, reached over SSH and has
    answered the identity check with its own name, [cmd_to_vm] runs the
    caller's command and returns without ending the process.  If the
    command exits non-zero the string returned is "Error: " followed by the
    stripped standard error text, which it therefore contains; if the
    command exits with zero it is the stripped standard output text, with
    nothing put in front. *)
Theorem cmd_to_vm_reply
    (E : Env) (cmd_to_run vm_name addr : string) (w w2 : world) :
  dict_mem vm_name VM_INFO = true ->
  session_opened E vm_name w addr w2 ->
  let rh := identity_reply E addr w2 in
  failed rh = false ->
  rstrip (stdout rh) = vm_name ->
  let w3 := happened (EvRun addr "root" "hostname" true false rh) w2 in
  let r := env_run E (history w3) addr "root" cmd_to_run true true in
  let w4 := happened (EvRun addr "root" cmd_to_run true true r) w3 in
  (exited r <> 0 ->
   cmd_to_vm E cmd_to_run vm_name w = (Ret ("Error: " ++ strip (stderr r)), w4)
   /\ contains (strip (stderr r)) ("Error: " ++ strip (stderr r)) = true)
  /\ (exited r = 0 ->
      cmd_to_vm E cmd_to_run vm_name w = (Ret (strip (stdout r)), w4)).
Proof.
  intros Hvm Hs rh Hok Hname w3 r w4.
  pose proof (cmd_to_vm_in_session E cmd_to_run vm_name addr w w2 Hvm Hs) as Heq.
  cbv zeta in Heq. fold rh in Heq. rewrite Hok, Hname, String.eqb_refl in Heq.
  cbn [negb] in Heq. fold w3 in Heq. fold r in Heq. fold w4 in Heq.
  unfold reply_text, failed in Heq. split; intros Hx.
  - apply Z.eqb_neq in Hx. rewrite Hx in Heq. split; [exact Heq|].
    apply contains_app_r.
  - apply Z.eqb_eq in Hx. rewrite Hx in Heq. exact Heq.
Qed.

Lemma sim_session_opened (E : Env) (vm addr : string) :
  env_popen E [] "VBoxManage list runningvms"
  = (0, list_byte_of_string Sim.listing) ->
  env_open E [EvPopen "VBoxManage list runningvms" 0
                (list_byte_of_string Sim.listing)] addr "root" = true ->
  In (vm, [("control_addr", addr)]) VM_INFO ->
  session_opened E vm Sim.configured addr
    (opened E addr "root" true
       (popened "VBoxManage list runningvms" 0
          (list_byte_of_string Sim.listing) Sim.configured)).
Proof.
  intros Hlist Hopen Hin.
  assert (Hget : dict_get VM_INFO vm = Some [("control_addr", addr)]
                 /\ addr <> ""
                 /\ In vm (running_vms_of (list_byte_of_string Sim.listing))).
  { destruct Hin as [H|[H|[H|[]]]]; inversion H; subst;
      (split; [reflexivity | split; [discriminate | vm_compute; tauto]]). }
  destruct Hget as [Hget [Hne Hrun]].
  apply (SessionOpened E vm Sim.configured (mk_local_config VM_INFO)
           [("control_addr", addr)] addr 0 (list_byte_of_string Sim.listing));
    try assumption; try reflexivity; lia.
Qed.

Lemma cmd_to_vm_reply_witness :
  fst (cmd_to_vm Sim.env "ls ~/Target" "gateway-vm" Sim.configured)
  = Ret "Error: ls: cannot access '/root/Target': No such file or directory"
  /\ fst (cmd_to_vm Sim.env "ls ~/Source" "gateway-vm" Sim.configured) = Ret "".
Proof.
  assert (Hs := sim_session_opened Sim.env "gateway-vm" "192.168.56.2"
                  eq_refl eq_refl (or_introl eq_refl)).
  split.
  - destruct (cmd_to_vm_reply Sim.env "ls ~/Target" "gateway-vm" "192.168.56.2"
                _ _ eq_refl Hs eq_refl eq_refl) as [[Hfail _] _].
    + vm_compute. discriminate.
    + rewrite Hfail. reflexivity.
  - destruct (cmd_to_vm_reply Sim.env "ls ~/Source" "gateway-vm" "192.168.56.2"
                _ _ eq_refl Hs eq_refl eq_refl) as [_ Hok].
    rewrite Hok; reflexivity.
Defined.

(** C3: for every command and every machine of [VM_INFO] to which the SSH
    session has just been opened, if the [hostname] command sent for the
    identity check fails, or if the name it returns (its output without
    trailing white space) is not [vm_name], then [cmd_to_vm] does not
    return and the caller's command is never run over the session.  When
    the name differs the process ends through [die], the clock read of the
    log line being the only interaction after the check.  When the command
    fails, [run], called without [warn], raises [UnexpectedExit] right
    there; nothing in rt.py catches it, so the process ends with it. *)
Theorem cmd_to_vm_identity_check
    (E : Env) (cmd_to_run vm_name addr : string) (w w2 : world) :
  dict_mem vm_name VM_INFO = true ->
  session_opened E vm_name w addr w2 ->
  let rh := identity_reply E addr w2 in
  let w3 := happened (EvRun addr "root" "hostname" true false rh) w2 in
  (failed rh = true ->
   cmd_to_vm E cmd_to_run vm_name w = (Raise UnexpectedExit, w3))
  /\ (failed rh = false -> rstrip (stdout rh) <> vm_name ->
      exists w' now,
        cmd_to_vm E cmd_to_run vm_name w = (Exit 0, w')
        /\ w' = logged E ("The host at " ++ addr ++ " is not " ++ vm_name
                          ++ ": '" ++ stdout rh ++ "'" ++ " Exiting.") w3
        /\ history w'
           = (history w2 ++ [EvRun addr "root" "hostname" true false rh;
                             EvStrftime "%H-%M-%S" now])%list)
  /\ (failed rh = true \/ rstrip (stdout rh) <> vm_name ->
      (forall s, fst (cmd_to_vm E cmd_to_run vm_name w) <> Ret s)
      /\ commands_run (history (snd (cmd_to_vm E cmd_to_run vm_name w)))
         = commands_run (history w)).
Proof.
  intros Hvm Hs rh w3.
  pose proof (cmd_to_vm_in_session E cmd_to_run vm_name addr w w2 Hvm Hs) as Heq.
  cbv zeta in Heq. fold rh in Heq. fold w3 in Heq.
  assert (Hw3 : commands_run (history w3) = commands_run (history w)).
  { destruct Hs. unfold w3, happened, opened, popened. cbn [history].
    rewrite !commands_run_app. simpl. now rewrite !app_nil_r. }
  assert (Hdie : forall msg,
            commands_run (history (logged E msg w3))
            = commands_run (history w)).
  { intros msg. unfold logged. cbn [history].
    rewrite commands_run_app. simpl. rewrite app_nil_r. exact Hw3. }
  split; [|split].
  - intros Hf. rewrite Hf in Heq. exact Heq.
  - intros Hf Hbad. rewrite Hf in Heq.
    apply String.eqb_neq in Hbad. rewrite Hbad in Heq. cbn [negb] in Heq.
    do 2 eexists. split; [exact Heq|]. split.
    + rewrite !app_assoc. reflexivity.
    + unfold logged, w3, happened. cbn [history].
      rewrite <- List.app_assoc. reflexivity.
  - intros Hbad. destruct (failed rh) eqn:Hf.
    + rewrite Heq. cbn [fst snd]. split; [discriminate | exact Hw3].
    + destruct Hbad as [Hbad|Hbad]; [discriminate|].
      apply String.eqb_neq in Hbad. rewrite Hbad in Heq. cbn [negb] in Heq.
      rewrite Heq. cbn [fst snd]. split; [discriminate | apply Hdie].
Qed.

Lemma cmd_to_vm_identity_check_witness :
  rstrip (stdout (env_run Sim.env_wrong_host [] "192.168.56.3" "root"
                    "hostname" true false)) <> "servers-vm"
  /\ fst (cmd_to_vm Sim.env_wrong_host "mkdir ~/Target" "servers-vm"
            Sim.configured) = Exit 0
  /\ fst (cmd_to_vm Sim.env_hostname_fails "mkdir ~/Target" "servers-vm"
            Sim.configured) = Raise UnexpectedExit
  /\ commands_run
       (history (snd (cmd_to_vm Sim.env_hostname_fails "mkdir ~/Target"
                        "servers-vm" Sim.configured))) = [].
Proof.
  split; [vm_compute; discriminate|].
  assert (Hs := sim_session_opened Sim.env_wrong_host "servers-vm"
                  "192.168.56.3" eq_refl eq_refl
                  (or_intror (or_introl eq_refl))).
  assert (Hs' := sim_session_opened Sim.env_hostname_fails "servers-vm"
                   "192.168.56.3" eq_refl eq_refl
                   (or_intror (or_introl eq_refl))).
  destruct (cmd_to_vm_identity_check Sim.env_wrong_host "mkdir ~/Target"
              "servers-vm" "192.168.56.3" _ _ eq_refl Hs)
    as [_ [Hname _]].
  destruct (cmd_to_vm_identity_check Sim.env_hostname_fails "mkdir ~/Target"
              "servers-vm" "192.168.56.3" _ _ eq_refl Hs')
    as [Hfail [_ Hnot]].
  destruct Hname as [w' [now [Hrun _]]];
    [reflexivity | vm_compute; discriminate |].
  rewrite Hrun, (Hfail eq_refl). split; [reflexivity|].
  split; [reflexivity|].
  destruct (Hnot (or_introl eq_refl)) as [_ Hcmds].
  rewrite (Hfail eq_refl) in Hcmds. exact Hcmds.
Defined.

(** ** The sanity checks (C5) *)

Lemma extends_refl (w : world) : extends w w [] "".
Proof.
  unfold extends. rewrite app_nil_r, app_empty_r. auto.
Qed.

Lemma extends_trans (w w1 w2 : world) (e1 e2 : list event) (l1 l2 : string) :
  extends w w1 e1 l1 -> extends w1 w2 e2 l2 ->
  extends w w2 (e1 ++ e2) (l1 ++ l2).
Proof.
  intros [Hh1 [Hl1 Hc1]] [Hh2 [Hl2 Hc2]]. unfold extends.
  rewrite Hh2, Hh1, Hl2, Hl1, Hc2, Hc1, List.app_assoc, app_assoc. auto.
Qed.

Lemma extends_logged (E : Env) (msg : string) (w : world) :
  extends w (logged E msg w)
    [EvStrftime "%H-%M-%S" (env_strftime E (history w) "%H-%M-%S")]
    ((env_strftime E (history w) "%H-%M-%S" ++ ": " ++ msg) ++ nl).
Proof. unfold extends, logged. cbn. auto. Qed.

Lemma extends_happened (e : event) (w : world) :
  extends w (happened e w) [e] "".
Proof. unfold extends, happened. cbn. rewrite app_empty_r. auto. Qed.

Lemma extends_popened (cmd : string) (rc : Z) (out : list byte) (w : world) :
  extends w (popened cmd rc out w) [EvPopen cmd rc out] "".
Proof. exact (extends_happened (EvPopen cmd rc out) w). Qed.

Lemma address_of_machines (vm addr : string) :
  address_of vm addr <-> In (vm, addr) machines.
Proof.
  split.
  - intros [d [Hd Ha]]. unfold VM_INFO in Hd. cbn [dict_get] in Hd.
    repeat match type of Hd with
           | (if String.eqb vm ?k then _ else _) = _ =>
               let Hk := fresh "Hk" in
               destruct (String.eqb vm k) eqn:Hk;
               [apply String.eqb_eq in Hk; inversion Hd; subst;
                inversion Ha; subst; simpl; auto |]
           end.
    discriminate Hd.
  - intros [H|[H|[H|[]]]]; inversion H; subst; eexists; split; reflexivity.
Qed.

Lemma machine_configured (vm addr : string) :
  In (vm, addr) machines ->
  dict_mem vm VM_INFO = true
  /\ dict_get (vm_info startup_config) vm = Some [("control_addr", addr)]
  /\ is_empty addr = false.
Proof.
  intros [H|[H|[H|[]]]]; inversion H; subst; repeat split; reflexivity.
Qed.

Lemma extends_opened (E : Env) (addr user : string) (ok : bool) (w : world) :
  extends w (opened E addr user ok w) [EvOpen addr user ok]
    (log_records (env_ssh_log E (history w) addr user)).
Proof. unfold extends, opened. cbn. auto. Qed.

Lemma bind_ended {A B} (m : M A) (k : A -> M B) (w w1 : world) (o : outcome A) :
  m w = (o, w1) -> ended o ->
  exists o', bind m k w = (o', w1) /\ ended o'.
Proof.
  intros Hm [-> | ->]; unfold bind; rewrite Hm; eexists;
    (split; [reflexivity|]); [left | right]; reflexivity.
Qed.

Lemma bind_returned {A B} (m : M A) (k : A -> M B) (w w1 : world) (a : A) :
  m w = (Ret a, w1) -> bind m k w = k a w1.
Proof. intros Hm. unfold bind. rewrite Hm. reflexivity. Qed.

Section SanityChecks.

Variable E : Env.

(** Whatever [log] is given, it returns, and adds clock reads and log text
    only. *)
Lemma log_effect (msg : string) (w : world) :
  exists w' evs lg,
    extends w w' evs lg /\ log E msg w = (Ret tt, w') /\ commands_run evs = [].
Proof.
  destruct (is_empty msg) eqn:Hm.
  - apply is_empty_true in Hm. subst.
    exists w, [], "". split; [apply extends_refl | split; reflexivity].
  - do 3 eexists. split; [apply extends_logged|].
    split; [apply log_nonempty, Hm | reflexivity].
Qed.

Lemma log_effect_nonempty (msg : string) (w : world) :
  is_empty msg = false ->
  exists w' evs now,
    extends w w' evs (now ++ ": " ++ msg ++ nl)
    /\ log E msg w = (Ret tt, w') /\ commands_run evs = [].
Proof.
  intros Hm. exists (logged E msg w). do 2 eexists.
  pose proof (extends_logged E msg w) as H. rewrite !app_assoc in H.
  split; [exact H|]. split; [apply log_nonempty, Hm | reflexivity].
Qed.

(** [is_vm_running] returns or ends the process; it runs no command on a
    machine. *)
Lemma is_vm_running_effect (vm : string) (w : world) :
  exists (b : bool) o w' evs lg,
    extends w w' evs lg
    /\ is_vm_running E vm w = (o, w')
    /\ outcome_is b tt o
    /\ commands_run evs = [].
Proof.
  rewrite is_vm_running_eq. cbv zeta.
  set (rc := fst _). set (out := snd _).
  pose proof (extends_popened LIST_RUNNING rc out w) as Hp.
  destruct (rc >? 0).
  - exists false. do 4 eexists. split; [|split; [reflexivity|]].
    + eapply extends_trans; [exact Hp | apply extends_logged].
    + split; [left; reflexivity | reflexivity].
  - destruct (mem vm (running_vms_of out)).
    + exists true. do 4 eexists. split; [|split; [reflexivity|]].
      * exact Hp.
      * split; reflexivity.
    + exists false. do 4 eexists. split; [|split; [reflexivity|]].
      * eapply extends_trans; [exact Hp | apply extends_logged].
      * split; [left; reflexivity | reflexivity].
Qed.

(** [cmd_to_vm] on a configured machine either ends without having run the
    caller's command, or runs it once, on the address of the machine, and
    returns its reply. *)
Lemma cmd_to_vm_effect (cmd vm addr : string) (w : world) :
  In (vm, addr) machines ->
  rt_config w = Some startup_config ->
  exists o w' evs lg,
    extends w w' evs lg
    /\ cmd_to_vm E cmd vm w = (o, w')
    /\ ((ended o /\ commands_run evs = [])
        \/ (exists r, o = Ret (reply_text r)
                      /\ commands_run evs = [(addr, cmd, r)])).
Proof.
  intros Hin Hcfg.
  destruct (machine_configured vm addr Hin) as [Hmem [Hget Hne]].
  rewrite (cmd_to_vm_eq E cmd vm w startup_config [("control_addr", addr)] addr)
    by (assumption || reflexivity).
  cbv zeta.
  set (rc := fst _). set (out := snd _).
  pose proof (extends_popened LIST_RUNNING rc out w) as H1.
  set (w1 := popened LIST_RUNNING rc out w) in *.
  assert (Hdie : forall w0 evs0 lg0 msg,
            extends w w0 evs0 lg0 -> commands_run evs0 = [] ->
            exists o w' evs lg,
              extends w w' evs lg
              /\ (@Exit string 0, logged E msg w0) = (o, w')
              /\ ((ended o /\ commands_run evs = [])
                  \/ (exists r, o = Ret (reply_text r)
                                /\ commands_run evs = [(addr, cmd, r)]))).
  { intros w0 evs0 lg0 msg H0 Hc0. do 4 eexists.
    split; [|split; [reflexivity|]].
    - eapply extends_trans; [exact H0 | apply extends_logged].
    - left. split; [left; reflexivity|].
      rewrite commands_run_app, Hc0. reflexivity. }
  destruct (rc >? 0); [apply (Hdie _ _ _ _ H1); reflexivity|].
  destruct (negb (mem vm (running_vms_of out)));
    [apply (Hdie _ _ _ _ H1); reflexivity|].
  set (ok := env_open E (history w1) addr "root").
  pose proof (extends_trans _ _ _ _ _ _ _ H1
                (extends_opened E addr "root" ok w1)) as H2.
  set (w2 := opened E addr "root" ok w1) in *.
  destruct (negb ok); [apply (Hdie _ _ _ _ H2); reflexivity|].
  set (rh := env_run E (history w2) addr "root" "hostname" true false).
  pose proof (extends_trans _ _ _ _ _ _ _ H2
                (extends_happened (EvRun addr "root" "hostname" true false rh) w2))
    as H3.
  set (w3 := happened (EvRun addr "root" "hostname" true false rh) w2) in *.
  destruct (failed rh).
  { do 4 eexists. split; [exact H3|]. split; [reflexivity|].
    left. split; [right; reflexivity | reflexivity]. }
  destruct (negb (String.eqb (rstrip (stdout rh)) vm));
    [apply (Hdie _ _ _ _ H3); reflexivity|].
  set (r := env_run E (history w3) addr "root" cmd true true).
  pose proof (extends_trans _ _ _ _ _ _ _ H3
                (extends_happened (EvRun addr "root" cmd true true r) w3)) as H4.
  do 4 eexists. split; [exact H4|]. split; [reflexivity|].
  right. exists r. split; reflexivity.
Qed.

Lemma extends_config (w w' : world) (evs : list event) (lg : string)
    (c : local_config) :
  extends w w' evs lg -> rt_config w = Some c -> rt_config w' = Some c.
Proof. intros [_ [_ Hc]] H. congruence. Qed.

(** One directory check leaves one of the traces of [dir_trace]. *)
Lemma check_dir_trace (dir vm addr : string) (w : world) :
  In (vm, addr) machines ->
  rt_config w = Some startup_config ->
  exists (b : bool) o w' evs lg,
    extends w w' evs lg
    /\ check_dir E dir vm w = (o, w')
    /\ outcome_is b tt o
    /\ dir_trace addr vm dir b (commands_run evs) lg.
Proof.
  intros Hin Hcfg. unfold check_dir.
  destruct (cmd_to_vm_effect (ls_cmd dir) vm addr w Hin Hcfg)
    as [o1 [w1 [e1 [l1 [H1 [Hrun [[Hend Hc1] | [r [-> Hc1]]]]]]]]].
  - destruct (bind_ended _ (fun this_ret =>
                when (contains "No such file or directory" this_ret)
                  (inner_ret <- cmd_to_vm E (mkdir_cmd dir) vm ;;
                   log E (created_msg dir vm))) _ _ _ Hrun Hend)
      as [o' [Hb He]].
    exists false, o', w1, e1, l1. split; [exact H1|]. split; [exact Hb|].
    split; [exact He|]. rewrite Hc1. constructor.
  - rewrite (bind_returned _ _ _ _ _ Hrun).
    fold (dir_missing r). destruct (dir_missing r) eqn:Hmiss.
    + cbn [when].
      pose proof (extends_config _ _ _ _ _ H1 Hcfg) as Hcfg1.
      destruct (cmd_to_vm_effect (mkdir_cmd dir) vm addr w1 Hin Hcfg1)
        as [o2 [w2 [e2 [l2 [H2 [Hrun2 [[Hend2 Hc2] | [r' [-> Hc2]]]]]]]]].
      * destruct (bind_ended _ (fun _ => log E (created_msg dir vm))
                    _ _ _ Hrun2 Hend2) as [o' [Hb He]].
        exists false, o'. do 3 eexists.
        split; [exact (extends_trans _ _ _ _ _ _ _ H1 H2)|].
        split; [exact Hb|]. split; [exact He|].
        rewrite commands_run_app, Hc1, Hc2. apply DirAborted, Hmiss.
      * rewrite (bind_returned _ _ _ _ _ Hrun2).
        destruct (log_effect_nonempty (created_msg dir vm) w2 eq_refl)
          as [w3 [e3 [now [H3 [Hlog Hc3]]]]].
        rewrite Hlog. exists true, (Ret tt). do 3 eexists.
        split; [exact (extends_trans _ _ _ _ _ _ _
                         (extends_trans _ _ _ _ _ _ _ H1 H2) H3)|].
        split; [reflexivity|]. split; [reflexivity|].
        rewrite !commands_run_app, Hc1, Hc2, Hc3.
        apply (DirCreated addr vm dir r r' (l1 ++ l2) now Hmiss).
    + cbn [when ret]. exists true, (Ret tt), w1, e1, l1.
      split; [exact H1|]. split; [reflexivity|]. split; [reflexivity|].
      rewrite Hc1. apply DirPresent, Hmiss.
Qed.

(** The loop body is the start message, the running check and the two
    directory checks. *)
Lemma sanity_body_eq (vm : string) (w : world) :
  sanity_body E vm w
  = (log E ("Starting sanity check on " ++ vm) ;;
     is_vm_running E vm ;;
     check_dir E "Target" vm ;;
     check_dir E "Source" vm) w.
Proof.
  unfold sanity_body, check_dir, ls_cmd, mkdir_cmd, created_msg.
  change ("ls ~/" ++ "Target") with "ls ~/Target".
  change ("ls ~/" ++ "Source") with "ls ~/Source".
  change ("mkdir ~/" ++ "Target") with "mkdir ~/Target".
  change ("mkdir ~/" ++ "Source") with "mkdir ~/Source".
  change ("Created ~/" ++ "Target" ++ " on " ++ vm)
    with ("Created ~/Target on " ++ vm).
  change ("Created ~/" ++ "Source" ++ " on " ++ vm)
    with ("Created ~/Source on " ++ vm).
  unfold bind.
  destruct (log E ("Starting sanity check on " ++ vm) w) as [[[]|c|e] w1];
    try reflexivity.
  destruct (is_vm_running E vm w1) as [[[]|c|e] w2]; try reflexivity.
  destruct (cmd_to_vm E "ls ~/Target" vm w2) as [[r|c|e] w3]; reflexivity.
Qed.

(** The checks of one machine leave one of the traces of [vm_trace]. *)
Lemma sanity_body_trace (vm addr : string) (w : world) :
  In (vm, addr) machines ->
  rt_config w = Some startup_config ->
  exists (b : bool) o w' evs lg,
    extends w w' evs lg
    /\ sanity_body E vm w = (o, w')
    /\ outcome_is b tt o
    /\ vm_trace addr vm b (commands_run evs) lg.
Proof.
  intros Hin Hcfg. rewrite sanity_body_eq.
  destruct (log_effect ("Starting sanity check on " ++ vm) w)
    as [w1 [e1 [l1 [H1 [Hlog Hc1]]]]].
  rewrite (bind_returned _ _ _ _ _ Hlog).
  destruct (is_vm_running_effect vm w1)
    as [b2 [o2 [w2 [e2 [l2 [H2 [Hrun [Ho2 Hc2]]]]]]]].
  pose proof (extends_trans _ _ _ _ _ _ _ H1 H2) as H12.
  destruct b2; cbn [outcome_is] in Ho2.
  2: { destruct (bind_ended _ (fun _ => check_dir E "Target" vm ;;
                                       check_dir E "Source" vm)
                   _ _ _ Hrun Ho2) as [o' [Hb He]].
       exists false, o'. do 3 eexists. split; [exact H12|].
       split; [exact Hb|]. split; [exact He|].
       rewrite commands_run_app, Hc1, Hc2.
       rewrite <- (app_empty_r (l1 ++ l2)).
       apply VmAborted. constructor. }
  subst o2. rewrite (bind_returned _ _ _ _ _ Hrun).
  pose proof (extends_config _ _ _ _ _ H12 Hcfg) as Hcfg2.
  destruct (check_dir_trace "Target" vm addr w2 Hin Hcfg2)
    as [b3 [o3 [w3 [e3 [l3 [H3 [Hrun3 [Ho3 Ht3]]]]]]]].
  pose proof (extends_trans _ _ _ _ _ _ _ H12 H3) as H123.
  destruct b3; cbn [outcome_is] in Ho3.
  2: { destruct (bind_ended _ (fun _ => check_dir E "Source" vm)
                   _ _ _ Hrun3 Ho3) as [o' [Hb He]].
       exists false, o'. do 3 eexists. split; [exact H123|].
       split; [exact Hb|]. split; [exact He|].
       rewrite !commands_run_app, Hc1, Hc2.
       apply VmAborted. exact Ht3. }
  subst o3. rewrite (bind_returned _ _ _ _ _ Hrun3).
  pose proof (extends_config _ _ _ _ _ H123 Hcfg) as Hcfg3.
  destruct (check_dir_trace "Source" vm addr w3 Hin Hcfg3)
    as [b4 [o4 [w4 [e4 [l4 [H4 [Hrun4 [Ho4 Ht4]]]]]]]].
  exists b4, o4. do 3 eexists.
  split; [exact (extends_trans _ _ _ _ _ _ _ H123 H4)|].
  split; [exact Hrun4|]. split; [exact Ho4|].
  rewrite !commands_run_app, Hc1, Hc2. rewrite app_assoc.
  apply (VmChecked addr vm b4 _ _ (l1 ++ l2) l3 l4 Ht3 Ht4).
Qed.

(** The loop over the machines leaves one of the traces of [run_trace]. *)
Lemma for_in_trace (vms : list (string * string)) :
  (forall vm addr, In (vm, addr) vms -> In (vm, addr) machines) ->
  forall w,
    rt_config w = Some startup_config ->
    exists (b : bool) o w' evs lg,
      extends w w' evs lg
      /\ for_in (map fst vms) (sanity_body E) w = (o, w')
      /\ outcome_is b tt o
      /\ run_trace vms b (commands_run evs) lg.
Proof.
  induction vms as [|[vm addr] rest IH]; intros Hsub w Hcfg.
  - exists true, (Ret tt), w, [], "". split; [apply extends_refl|].
    split; [reflexivity|]. split; [reflexivity | constructor].
  - cbn [map fst for_in].
    destruct (sanity_body_trace vm addr w (Hsub _ _ (or_introl eq_refl)) Hcfg)
      as [b1 [o1 [w1 [e1 [l1 [H1 [Hrun1 [Ho1 Ht1]]]]]]]].
    destruct b1; cbn [outcome_is] in Ho1.
    + subst o1. rewrite (bind_returned _ _ _ _ _ Hrun1).
      destruct (IH (fun v a H => Hsub v a (or_intror H)) w1
                  (extends_config _ _ _ _ _ H1 Hcfg))
        as [b2 [o2 [w2 [e2 [l2 [H2 [Hrun2 [Ho2 Ht2]]]]]]]].
      exists b2, o2. do 3 eexists.
      split; [exact (extends_trans _ _ _ _ _ _ _ H1 H2)|].
      split; [exact Hrun2|]. split; [exact Ho2|].
      rewrite commands_run_app. apply RunNext; assumption.
    + destruct (bind_ended _ (fun _ => for_in (map fst rest) (sanity_body E))
                  _ _ _ Hrun1 Ho1) as [o' [Hb He]].
      exists false, o', w1, e1, l1. split; [exact H1|].
      split; [exact Hb|]. split; [exact He|].
      apply RunAborted, Ht1.
Qed.

(** [sanity_check_vms] with the configuration of the main program. *)
Lemma sanity_check_vms_trace (w : world) :
  rt_config w = Some startup_config ->
  exists (b : bool) o w' evs lg,
    extends w w' evs lg
    /\ sanity_check_vms E w = (o, w')
    /\ outcome_is b true o
    /\ run_trace machines b (commands_run evs) lg.
Proof.
  intros Hcfg.
  destruct (for_in_trace machines (fun _ _ H => H) w Hcfg)
    as [b [o [w' [evs [lg [Hext [Hrun [Ho Ht]]]]]]]].
  assert (Heq : sanity_check_vms E w
                = bind (for_in (map fst machines) (sanity_body E))
                       (fun _ => ret true) w).
  { unfold sanity_check_vms, bind at 1, get_rt_config. rewrite Hcfg.
    reflexivity. }
  rewrite Heq. destruct b; cbn [outcome_is] in Ho.
  - subst o. exists true, (Ret true), w', evs, lg.
    split; [exact Hext|]. split; [|split; [reflexivity | exact Ht]].
    rewrite (bind_returned _ _ _ _ _ Hrun). reflexivity.
  - destruct (bind_ended _ (fun _ => ret true) _ _ _ Hrun Ho) as [o' [Hb He]].
    exists false, o', w', evs, lg.
    split; [exact Hext|]. split; [exact Hb|]. split; [exact He | exact Ht].
Qed.

End SanityChecks.

(** *** From traces to counts *)

Lemma results_of_app (addr cmd : string) (l1 l2 : list command) :
  results_of addr cmd (l1 ++ l2)
  = (results_of addr cmd l1 ++ results_of addr cmd l2)%list.
Proof.
  induction l1 as [|[[h c] r] l1 IH]; [reflexivity|].
  simpl. destruct (String.eqb h addr && String.eqb c cmd); simpl;
    rewrite IH; reflexivity.
Qed.

Lemma results_of_elsewhere (addr cmd : string) (hosts : list string)
    (l : list command) :
  Forall (fun e : command => In (fst (fst e)) hosts) l ->
  ~ In addr hosts ->
  results_of addr cmd l = [].
Proof.
  intros Hall Hnot. induction Hall as [|[[h c] r] l Hh _ IH]; [reflexivity|].
  simpl in *. destruct (String.eqb h addr) eqn:He.
  - apply String.eqb_eq in He. subst. contradiction.
  - exact IH.
Qed.

Lemma dir_trace_hosts (addr vm dir : string) (b : bool) (l : list command)
    (lg : string) :
  dir_trace addr vm dir b l lg -> Forall (fun e : command => fst (fst e) = addr) l.
Proof. intros H. destruct H; repeat constructor. Qed.

Lemma vm_trace_hosts (addr vm : string) (b : bool) (l : list command)
    (lg : string) :
  vm_trace addr vm b l lg -> Forall (fun e : command => fst (fst e) = addr) l.
Proof.
  intros H. destruct H as [l lg0 lg1 H1 | b l1 l2 lg0 lg1 lg2 H1 H2].
  - exact (dir_trace_hosts _ _ _ _ _ _ H1).
  - apply Forall_app. split; eapply dir_trace_hosts; eassumption.
Qed.

Lemma run_trace_hosts (vms : list (string * string)) (b : bool)
    (l : list command) (lg : string) :
  run_trace vms b l lg ->
  Forall (fun e : command => In (fst (fst e)) (map snd vms)) l.
Proof.
  intros H. induction H as [|vm addr rest l lg Hvm
                             |vm addr rest b l l' lg lg' Hvm Hrest IH].
  - constructor.
  - apply vm_trace_hosts in Hvm.
    eapply Forall_impl; [|exact Hvm]. intros e He. left. symmetry. exact He.
  - apply Forall_app. split.
    + apply vm_trace_hosts in Hvm.
      eapply Forall_impl; [|exact Hvm]. intros e He. left. symmetry. exact He.
    + eapply Forall_impl; [|exact IH]. intros e He. right. exact He.
Qed.

(** Nothing was run on the machine: the facts of a run that did not
    return. *)
Lemma dir_facts_none (vm addr dir : string) (l : list command) (lg : string) :
  results_of addr (ls_cmd dir) l = [] ->
  results_of addr (mkdir_cmd dir) l = [] ->
  dir_facts vm addr dir false l lg.
Proof.
  intros Hls Hmk. unfold dir_facts. rewrite Hls, Hmk. simpl.
  split; [lia|]. split; [lia|]. intros H. discriminate H.
Qed.

(** Commands run afterwards on other machines change nothing. *)
Lemma dir_facts_app_l (vm addr dir : string) (b : bool)
    (l l' : list command) (lg lg' : string) :
  results_of addr (ls_cmd dir) l' = [] ->
  results_of addr (mkdir_cmd dir) l' = [] ->
  dir_facts vm addr dir true l lg ->
  dir_facts vm addr dir b (l ++ l') (lg ++ lg').
Proof.
  intros Hls Hmk [H1 [H2 H3]]. unfold dir_facts.
  rewrite !results_of_app, Hls, Hmk, !app_nil_r.
  split; [exact H1|]. split; [exact H2|]. intros _.
  destruct (H3 eq_refl) as [r [Hr [Hc Hlog]]].
  exists r. split; [exact Hr|]. split; [exact Hc|].
  intros Hm. destruct (Hlog Hm) as [before [now [after Heq]]].
  exists before, now, (after ++ lg'). rewrite Heq, !app_assoc. reflexivity.
Qed.

(** Nor do commands run before on other machines. *)
Lemma dir_facts_app_r (vm addr dir : string) (b : bool)
    (l l' : list command) (lg lg' : string) :
  results_of addr (ls_cmd dir) l = [] ->
  results_of addr (mkdir_cmd dir) l = [] ->
  dir_facts vm addr dir b l' lg' ->
  dir_facts vm addr dir b (l ++ l') (lg ++ lg').
Proof.
  intros Hls Hmk [H1 [H2 H3]]. unfold dir_facts.
  rewrite !results_of_app, Hls, Hmk. cbn [List.app].
  split; [exact H1|]. split; [exact H2|]. intros Hb.
  destruct (H3 Hb) as [r [Hr [Hc Hlog]]].
  exists r. split; [exact Hr|]. split; [exact Hc|].
  intros Hm. destruct (Hlog Hm) as [before [now [after Heq]]].
  exists (lg ++ before), now, after. rewrite Heq, !app_assoc. reflexivity.
Qed.

Lemma dir_facts_weaken (vm addr dir : string) (b : bool)
    (l : list command) (lg : string) :
  dir_facts vm addr dir true l lg -> dir_facts vm addr dir b l lg.
Proof.
  intros [H1 [H2 H3]]. split; [exact H1|]. split; [exact H2|].
  intros _. exact (H3 eq_refl).
Qed.

Lemma gained_at_end (a now msg : string) :
  exists before now' after,
    a ++ (now ++ ": " ++ msg ++ nl)
    = before ++ (now' ++ ": " ++ msg ++ nl) ++ after.
Proof.
  exists a, now, "". rewrite app_empty_r. reflexivity.
Qed.

Lemma gained_inside (a b c now msg : string) :
  exists before now' after,
    a ++ (b ++ (now ++ ": " ++ msg ++ nl)) ++ c
    = before ++ (now' ++ ": " ++ msg ++ nl) ++ after.
Proof.
  exists (a ++ b), now, c. rewrite !app_assoc. reflexivity.
Qed.

Lemma gained_last (a b c now msg : string) :
  exists before now' after,
    a ++ b ++ (c ++ (now ++ ": " ++ msg ++ nl))
    = before ++ (now' ++ ": " ++ msg ++ nl) ++ after.
Proof.
  exists (a ++ b ++ c), now, "". rewrite app_empty_r, !app_assoc. reflexivity.
Qed.

(** The facts hold of the trace of the checks of one machine. *)
Lemma vm_trace_facts (addr vm dir : string) (b : bool) (l : list command)
    (lg : string) :
  vm_trace addr vm b l lg ->
  In dir ["Target"; "Source"] ->
  dir_facts vm addr dir b l lg.
Proof.
  intros Hvm Hdir.
  destruct Hdir as [<-|[<-|[]]];
    destruct Hvm as [l lg0 lg1 H1 | b l1 l2 lg0 lg1 lg2 H1 H2];
    inversion H1; subst; try inversion H2; subst;
    unfold dir_facts;
    change (ls_cmd "Target") with "ls ~/Target";
    change (ls_cmd "Source") with "ls ~/Source";
    change (mkdir_cmd "Target") with "mkdir ~/Target";
    change (mkdir_cmd "Source") with "mkdir ~/Source";
    cbn [results_of List.app];
    rewrite ?String.eqb_refl;
    cbn [andb String.eqb Ascii.eqb Bool.eqb results_of filter List.length];
    repeat match goal with
           | H : dir_missing _ = _ |- _ => rewrite H
           end; cbn [List.length];
    (split; [lia|]; split; [lia|]; intros Hb; try discriminate Hb).
  all: eexists; split; [reflexivity|]; split;
    [match goal with H : dir_missing _ = _ |- _ => rewrite H; reflexivity end|];
    intros Hm;
    first [ congruence
          | apply gained_inside
          | apply gained_last ].
Qed.

(** The facts hold of the trace of the whole loop, for machines with
    distinct addresses. *)
Lemma run_trace_facts (vms : list (string * string)) (b : bool)
    (l : list command) (lg : string) :
  NoDup (map snd vms) ->
  run_trace vms b l lg ->
  forall vm addr dir,
    In (vm, addr) vms -> In dir ["Target"; "Source"] ->
    dir_facts vm addr dir b l lg.
Proof.
  intros Hnd Hrun.
  induction Hrun as [|vm0 addr0 rest l lg Hvm
                     |vm0 addr0 rest b l l' lg lg' Hvm Hrest IH];
    intros vm addr dir Hin Hdir.
  - destruct Hin.
  - cbn [map snd] in Hnd. inversion Hnd as [|a r Hnot Hnd']; subst.
    destruct Hin as [Heq|Hin].
    + inversion Heq; subst. apply vm_trace_facts; assumption.
    + assert (Hne : ~ In addr [addr0]).
      { intros [He|[]]. subst. apply Hnot.
        apply (in_map snd) in Hin. exact Hin. }
      apply vm_trace_hosts in Hvm.
      apply dir_facts_none;
        apply (results_of_elsewhere _ _ [addr0]); try exact Hne;
        (eapply Forall_impl; [|exact Hvm]; intros e He; left; symmetry; exact He).
  - cbn [map snd] in Hnd. inversion Hnd as [|a r Hnot Hnd']; subst.
    pose proof (run_trace_hosts _ _ _ _ Hrest) as Hhosts.
    destruct Hin as [Heq|Hin].
    + inversion Heq; subst.
      apply dir_facts_app_l;
        try (apply (results_of_elsewhere _ _ (map snd rest)); assumption).
      apply vm_trace_facts; assumption.
    + assert (Hne : ~ In addr [addr0]).
      { intros [He|[]]. subst. apply Hnot.
        apply (in_map snd) in Hin. exact Hin. }
      apply vm_trace_hosts in Hvm.
      apply dir_facts_app_r;
        try (apply (results_of_elsewhere _ _ [addr0]); try exact Hne;
             (eapply Forall_impl; [|exact Hvm];
              intros e He; left; symmetry; exact He)).
      apply IH; assumption.
Qed.

Lemma machines_distinct : NoDup (map snd machines).
Proof.
  repeat constructor; simpl; intros H;
    repeat (destruct H as [H|H]; [discriminate H|]); exact H.
Qed.

(** *** Progress in healthy surroundings *)

Lemma not_positive (z : Z) : z <= 0 -> (z >? 0) = false.
Proof. intros H. rewrite Z.gtb_ltb. apply Z.ltb_ge. exact H. Qed.

Lemma positive_or_not (z : Z) : (z >? 0) = false -> z <= 0.
Proof. intros H. rewrite Z.gtb_ltb in H. apply Z.ltb_ge in H. exact H. Qed.

Section Progress.

Variable E : Env.
Hypothesis E_healthy : healthy E.

Lemma cmd_to_vm_healthy (cmd vm addr : string) (w : world) :
  In (vm, addr) machines ->
  rt_config w = Some startup_config ->
  exists r w',
    cmd_to_vm E cmd vm w = (Ret (reply_text r), w')
    /\ rt_config w' = Some startup_config.
Proof.
  intros Hin Hcfg. destruct E_healthy as [Hlist [Hopen Hhost]].
  destruct (machine_configured vm addr Hin) as [Hmem [Hget Hne]].
  rewrite (cmd_to_vm_eq E cmd vm w startup_config [("control_addr", addr)] addr)
    by (assumption || reflexivity).
  cbv zeta. destruct (Hlist (history w)) as [Hrc Hall].
  rewrite (not_positive _ Hrc).
  replace (mem vm (running_vms_of (snd (env_popen E (history w) LIST_RUNNING))))
    with true by (symmetry; apply mem_In, (Hall vm addr Hin)).
  cbn [negb]. rewrite (Hopen _ vm addr Hin). cbn [negb].
  match goal with
  | |- context [failed ?rh] =>
      destruct (Hhost (history (opened E addr "root" true
                                  (popened LIST_RUNNING
                                     (fst (env_popen E (history w) LIST_RUNNING))
                                     (snd (env_popen E (history w) LIST_RUNNING))
                                     w))) vm addr Hin) as [Hf Hn]
  end.
  rewrite Hf, Hn, String.eqb_refl. cbn [negb].
  do 2 eexists. split; [reflexivity | exact Hcfg].
Qed.

Lemma is_vm_running_healthy (vm addr : string) (w : world) :
  In (vm, addr) machines ->
  is_vm_running E vm w = (Ret tt, after_popen E LIST_RUNNING w).
Proof.
  intros Hin. destruct E_healthy as [Hlist _].
  rewrite is_vm_running_eq. cbv zeta.
  destruct (Hlist (history w)) as [Hrc Hall].
  rewrite (not_positive _ Hrc).
  replace (mem vm (running_vms_of (snd (env_popen E (history w) LIST_RUNNING))))
    with true by (symmetry; apply mem_In, (Hall vm addr Hin)).
  reflexivity.
Qed.

Lemma check_dir_healthy (dir vm addr : string) (w : world) :
  In (vm, addr) machines ->
  rt_config w = Some startup_config ->
  exists w',
    check_dir E dir vm w = (Ret tt, w')
    /\ rt_config w' = Some startup_config.
Proof.
  intros Hin Hcfg. unfold check_dir, bind at 1.
  destruct (cmd_to_vm_healthy (ls_cmd dir) vm addr w Hin Hcfg)
    as [r [w1 [Hrun Hcfg1]]].
  rewrite Hrun. destruct (contains "No such file or directory" (reply_text r)).
  - cbn [when]. unfold bind at 1.
    destruct (cmd_to_vm_healthy (mkdir_cmd dir) vm addr w1 Hin Hcfg1)
      as [r' [w2 [Hrun2 Hcfg2]]].
    rewrite Hrun2. rewrite log_nonempty by reflexivity.
    eexists. split; [reflexivity | exact Hcfg2].
  - cbn [when ret]. eexists. split; [reflexivity | exact Hcfg1].
Qed.

Lemma sanity_body_healthy (vm addr : string) (w : world) :
  In (vm, addr) machines ->
  rt_config w = Some startup_config ->
  exists w',
    sanity_body E vm w = (Ret tt, w')
    /\ rt_config w' = Some startup_config.
Proof.
  intros Hin Hcfg. rewrite sanity_body_eq. unfold bind at 1.
  rewrite log_nonempty by reflexivity. unfold bind at 1.
  rewrite (is_vm_running_healthy vm addr _ Hin). unfold bind at 1.
  destruct (check_dir_healthy "Target" vm addr
              (after_popen E LIST_RUNNING
                 (logged E ("Starting sanity check on " ++ vm) w)) Hin Hcfg)
    as [w1 [Hrun1 Hcfg1]].
  rewrite Hrun1.
  exact (check_dir_healthy "Source" vm addr w1 Hin Hcfg1).
Qed.

Lemma for_in_healthy (vms : list (string * string)) :
  (forall vm addr, In (vm, addr) vms -> In (vm, addr) machines) ->
  forall w,
    rt_config w = Some startup_config ->
    exists w', for_in (map fst vms) (sanity_body E) w = (Ret tt, w').
Proof.
  induction vms as [|[vm addr] rest IH]; intros Hsub w Hcfg.
  - eexists. reflexivity.
  - cbn [map fst for_in]. unfold bind at 1.
    destruct (sanity_body_healthy vm addr w (Hsub _ _ (or_introl eq_refl)) Hcfg)
      as [w1 [Hrun Hcfg1]].
    rewrite Hrun. apply IH; [|exact Hcfg1].
    intros v a H. apply Hsub. right. exact H.
Qed.

Lemma sanity_check_vms_healthy (w : world) :
  rt_config w = Some startup_config ->
  exists w', sanity_check_vms E w = (Ret true, w').
Proof.
  intros Hcfg.
  destruct (for_in_healthy machines (fun _ _ Hin => Hin) w Hcfg) as [w' Hrun].
  exists w'.
  unfold sanity_check_vms, bind at 1, get_rt_config. rewrite Hcfg.
  unfold bind at 1.
  change (dict_keys (vm_info startup_config)) with (map fst machines).
  change (for_in (map fst machines) _ w) with
    (for_in (map fst machines) (sanity_body E) w).
  rewrite Hrun. reflexivity.
Qed.

End Progress.

Lemma sim_healthy (run : list event -> string -> string -> string -> bool -> bool
                        -> run_result) :
  (forall h addr,
     run h addr "root" "hostname" true false
     = mk_run_result 0 (Sim.hostname_at addr ++ nl) "") ->
  healthy (mk_env (env_strftime Sim.env) (env_popen Sim.env)
                  (env_open Sim.env) run (env_ssh_log Sim.env)).
Proof.
  intros Hrun. split; [|split].
  - intros h. split; [vm_compute; discriminate|].
    intros vm addr [H|[H|[H|[]]]]; inversion H; subst; vm_compute; tauto.
  - intros h vm addr _. reflexivity.
  - intros h vm addr Hin. cbn [env_run]. rewrite Hrun.
    destruct Hin as [H|[H|[H|[]]]]; inversion H; subst; split; reflexivity.
Qed.

(** C5, as the claim has it, fails: the machines are shut down right after
    the first listing of [~/Target] on the gateway, which came back with
    "No such file or directory".  The check that precedes the creation
    command finds nothing running and ends the process: no creation command
    is run, no creation message is logged, and [sanity_check_vms] does not
    return. *)
Lemma sanity_check_vms_missing_dir_not_created :
  let run := sanity_check_vms Sim.env_shut_down Sim.configured in
  map dir_missing
    (results_of "192.168.56.2" "ls ~/Target" (commands_run (history (snd run))))
  = [true]
  /\ issued "192.168.56.2" "mkdir ~/Target" (history (snd run)) = 0%nat
  /\ contains "Created ~/Target on gateway-vm" (log_file (snd run)) = false
  /\ fst run = Exit 0
  /\ fst run <> Ret true.
Proof.
  cbv zeta. repeat split; try (vm_compute; reflexivity).
  vm_compute. discriminate.
Qed.

(** C5, amended: with the configuration of the main program in place,
    [sanity_check_vms] returns nothing but [True], and it does return
    whenever the surroundings are healthy, that is the hypervisor keeps
    listing the three machines as running, the SSH connections open and the
    hosts answer [hostname] with their names; otherwise a check of
    [is_vm_running] or [cmd_to_vm] may end the run where it stands.  For
    every configured machine
    and each of the two directories: the listing command is run at most
    once, and the creation command at most as often as a listing came back
    with "No such file or directory", so never when the listing came back
    without it.  When [sanity_check_vms] returns, so in healthy surroundings
    always, the listing was run exactly once, the creation command exactly
    once if the listing came back with that text and not at all otherwise,
    and in the first case the creation message is in the log. *)
Theorem sanity_check_vms_creates_missing_dirs (E : Env) (w : world) :
  rt_config w = Some startup_config ->
  exists o w' evs,
    sanity_check_vms E w = (o, w')
    /\ history w' = (history w ++ evs)%list
    /\ (forall v, o = Ret v -> v = true)
    /\ (healthy E -> o = Ret true)
    /\ forall vm addr dir,
         address_of vm addr -> In dir ["Target"; "Source"] ->
         let listings := results_of addr ("ls ~/" ++ dir) (commands_run evs) in
         let creations := issued addr ("mkdir ~/" ++ dir) evs in
         (List.length listings <= 1)%nat
         /\ (creations <= List.length (filter dir_missing listings))%nat
         /\ (o = Ret true ->
             exists r,
               listings = [r]
               /\ creations = (if dir_missing r then 1%nat else 0%nat)
               /\ (dir_missing r = true ->
                   log_gained ("Created ~/" ++ dir ++ " on " ++ vm) w w')).
Proof.
  intros Hcfg.
  destruct (sanity_check_vms_trace E w Hcfg)
    as [b [o [w' [evs [lg [[Hh [Hl _]] [Hrun [Ho Ht]]]]]]]].
  exists o, w', evs. split; [exact Hrun|]. split; [exact Hh|]. split.
  { intros v Hv. subst o.
    destruct b; cbn [outcome_is] in Ho;
      [inversion Ho; reflexivity | destruct Ho as [Ho | Ho]; discriminate Ho]. }
  split.
  { intros Hhealthy.
    destruct (sanity_check_vms_healthy E Hhealthy w Hcfg) as [w'' Hret].
    rewrite Hrun in Hret. inversion Hret. reflexivity. }
  intros vm addr dir Haddr Hdir listings creations.
  apply address_of_machines in Haddr.
  destruct (run_trace_facts machines b _ lg machines_distinct Ht
              vm addr dir Haddr Hdir) as [H1 [H2 H3]].
  split; [exact H1|]. split; [exact H2|].
  intros Hret. subst o.
  destruct b; cbn [outcome_is] in Ho;
    [|destruct Ho as [Ho | Ho]; discriminate Ho].
  destruct (H3 eq_refl) as [r [Hr [Hc Hlog]]].
  exists r. split; [exact Hr|]. split; [exact Hc|].
  intros Hm. destruct (Hlog Hm) as [before [now [after Heq]]].
  exists now, before, after. rewrite Hl, Heq. reflexivity.
Qed.

Lemma sanity_check_vms_creates_missing_dirs_witness :
  rt_config Sim.configured = Some startup_config
  /\ healthy Sim.env
  /\ fst (sanity_check_vms Sim.env Sim.configured) = Ret true
  /\ issued "192.168.56.2" "mkdir ~/Target"
       (history (snd (sanity_check_vms Sim.env Sim.configured))) = 1%nat
  /\ issued "192.168.56.2" "mkdir ~/Source"
       (history (snd (sanity_check_vms Sim.env Sim.configured))) = 0%nat.
Proof.
  split; [reflexivity|].
  assert (Hh : healthy Sim.env) by (apply (sim_healthy (env_run Sim.env)); reflexivity).
  split; [exact Hh|].
  destruct (sanity_check_vms_creates_missing_dirs Sim.env Sim.configured eq_refl)
    as [o [w' [evs [Hrun [_ [_ [Hret _]]]]]]].
  rewrite Hrun. cbn [fst snd]. split; [exact (Hret Hh)|].
  assert (Hw : w' = snd (sanity_check_vms Sim.env Sim.configured))
    by (rewrite Hrun; reflexivity).
  rewrite Hw. split; vm_compute; reflexivity.
Defined.

(** ** The main program (C6, C7, C10) *)

Section MainProgram.

Variable E : Env.

Lemma Popen_eq (cmd : string) (w : world) :
  Popen E cmd w
  = (Ret (mk_process (popen_rc E cmd w) (snd (env_popen E (history w) cmd))),
     after_popen E cmd w).
Proof.
  unfold Popen, popen_rc, after_popen, popened.
  destruct (env_popen E (history w) cmd); reflexivity.
Qed.

(** The startup validation, branch by branch. *)
Lemma startup_eq (argv0 : string) (rest : list string) (w : world) :
  startup_and_config_general E (argv0 :: rest) w =
  if negb (String.eqb argv0 "./rt.py")
  then (Exit 0,
        logged E ("This program must be run as ./rt.py so that all the additional files are found."
                  ++ " Exiting.") w)
  else
  let w1 := after_popen E VERSION_CMD w in
  if popen_rc E VERSION_CMD w >? 0
  then (Exit 0,
        logged E ("Could not run VBoxManage during sanity check." ++ " Exiting.") w1)
  else
  let w2 := after_popen E (showvminfo_cmd "gateway-vm") w1 in
  if popen_rc E (showvminfo_cmd "gateway-vm") w1 >? 0
  then (Exit 0,
        logged E ("Could not find 'gateway-vm' in the VirtualBox inventory."
                  ++ " Exiting.") w2)
  else
  let w3 := after_popen E (showvminfo_cmd "servers-vm") w2 in
  if popen_rc E (showvminfo_cmd "servers-vm") w2 >? 0
  then (Exit 0,
        logged E ("Could not find 'servers-vm' in the VirtualBox inventory."
                  ++ " Exiting.") w3)
  else
  let w4 := after_popen E (showvminfo_cmd "resolvers-vm") w3 in
  if popen_rc E (showvminfo_cmd "resolvers-vm") w3 >? 0
  then (Exit 0,
        logged E ("Could not find 'resolvers-vm' in the VirtualBox inventory."
                  ++ " Exiting.") w4)
  else (Ret startup_config, w4).
Proof.
  unfold startup_and_config_general, index. cbn [nth_error].
  unfold bind at 1. cbn [ret]. unfold bind at 1, when.
  destruct (String.eqb argv0 "./rt.py"); cbn [negb].
  2: { rewrite die_exits. reflexivity. }
  cbn [ret]. unfold bind at 1. fold VERSION_CMD. rewrite Popen_eq. cbn [wait].
  cbv zeta. unfold bind at 1.
  destruct (popen_rc E VERSION_CMD w >? 0).
  { rewrite die_exits. reflexivity. }
  cbn [ret]. unfold bind at 1. cbn [dict_keys VM_INFO map fst for_in].
  unfold bind at 1. unfold bind at 1.
  fold (showvminfo_cmd "gateway-vm"). rewrite Popen_eq. cbn [wait].
  destruct (popen_rc E (showvminfo_cmd "gateway-vm") _ >? 0).
  { rewrite die_exits. reflexivity. }
  cbn [ret]. unfold bind at 1. unfold bind at 1.
  fold (showvminfo_cmd "servers-vm"). rewrite Popen_eq. cbn [wait].
  destruct (popen_rc E (showvminfo_cmd "servers-vm") _ >? 0).
  { rewrite die_exits. reflexivity. }
  cbn [ret]. unfold bind at 1. unfold bind at 1.
  fold (showvminfo_cmd "resolvers-vm"). rewrite Popen_eq. cbn [wait].
  destruct (popen_rc E (showvminfo_cmd "resolvers-vm") _ >? 0).
  { rewrite die_exits. reflexivity. }
  reflexivity.
Qed.

Lemma vm_checks_app (h1 h2 : list event) :
  vm_checks (h1 ++ h2) = (vm_checks h1 ++ vm_checks h2)%list.
Proof. apply filter_app. Qed.

Lemma vm_checks_logged (msg : string) (w : world) :
  vm_checks (history (logged E msg w)) = vm_checks (history w).
Proof.
  unfold logged. cbn [history]. rewrite vm_checks_app. apply app_nil_r.
Qed.

Lemma vm_checks_started (w : world) :
  vm_checks (history (started E w)) = vm_checks (history w).
Proof.
  unfold started. rewrite vm_checks_logged. unfold happened. cbn [history].
  rewrite vm_checks_app. apply app_nil_r.
Qed.

Lemma vm_checks_after_startup_popen (cmd : string) (w : world) :
  String.eqb cmd "VBoxManage list runningvms" = false ->
  vm_checks (history (after_popen E cmd w)) = vm_checks (history w).
Proof.
  intros Hc. unfold after_popen, popened. cbn [history].
  rewrite vm_checks_app. unfold vm_checks at 2. cbn [filter is_vm_check].
  rewrite Hc. apply app_nil_r.
Qed.

(** The startup validation ends the process or returns the configuration
    built from [VM_INFO]. *)
Lemma startup_outcome (argv0 : string) (rest : list string) (w : world) :
  exists w1,
    startup_and_config_general E (argv0 :: rest) w = (Exit 0, w1)
    \/ startup_and_config_general E (argv0 :: rest) w = (Ret startup_config, w1).
Proof.
  rewrite startup_eq. cbv zeta.
  repeat match goal with
         | |- context [if ?c then _ else _] =>
             destruct c; [eexists; left; reflexivity|]
         end.
  eexists. right. reflexivity.
Qed.

(** When it returns it has logged and printed nothing, and has run none of
    the checks on the machines. *)
Lemma startup_returns (argv : list string) (w w1 : world) (cfg : local_config) :
  startup_and_config_general E argv w = (Ret cfg, w1) ->
  cfg = startup_config
  /\ nth_error argv 0 = Some "./rt.py"
  /\ terminal w1 = terminal w
  /\ log_file w1 = log_file w
  /\ vm_checks (history w1) = vm_checks (history w).
Proof.
  destruct argv as [|argv0 rest]; [discriminate|].
  rewrite startup_eq. cbv zeta.
  destruct (String.eqb argv0 "./rt.py") eqn:H0; cbn [negb]; [|discriminate].
  apply String.eqb_eq in H0. subst argv0.
  repeat match goal with
         | |- context [if ?c then _ else _] => destruct c; [discriminate|]
         end.
  intros H. inversion H; subst. repeat split.
  rewrite !vm_checks_after_startup_popen by reflexivity. reflexivity.
Qed.

Lemma gained_here (x s : string) : gained x s (s ++ x).
Proof. exists "", "". rewrite app_empty_r. reflexivity. Qed.

Lemma gained_later (x s s' y : string) : gained x s s' -> gained x s (s' ++ y).
Proof.
  intros [b [a H]]. exists b, (a ++ y). rewrite H, !app_assoc. reflexivity.
Qed.

Lemma gained_skip (x s y s' : string) : gained x (s ++ y) s' -> gained x s s'.
Proof.
  intros [b [a H]]. exists (y ++ b), a. rewrite H, !app_assoc. reflexivity.
Qed.

(** The main program without a command. *)
Lemma main_no_arguments (argv : list string) (w : world) :
  (List.length argv < 2)%nat ->
  main E argv w
  = (Exit 0,
     logged E ("There were no arguments on the command line." ++ " Exiting.")
       (printed HELP_TEXT (started E w))).
Proof.
  intros Hlen. unfold main, bind at 1, strftime.
  fold (happened (EvStrftime "%Y-%m-%d" (env_strftime E (history w) "%Y-%m-%d")) w).
  unfold bind at 1. rewrite log_nonempty by reflexivity.
  fold (started E w).
  apply Nat.ltb_lt in Hlen. rewrite Hlen. unfold bind at 1, when.
  unfold bind at 1, show_help, print. fold (printed HELP_TEXT (started E w)).
  rewrite die_exits. reflexivity.
Qed.

(** The main program with a command, once the startup validation has
    returned. *)
Lemma main_dispatch (argv : list string) (w w1 : world) (cmd : string)
    (cfg : local_config) :
  nth_error argv 1 = Some cmd ->
  startup_and_config_general E argv (started E w) = (Ret cfg, w1) ->
  main E argv w =
  let wd := dispatching E argv cmd cfg w1 in
  if negb (mem cmd CLI_COMMANDS)
  then (Exit 0,
        logged E ((cmd ++ " is not valid command.") ++ " Exiting.")
          (printed HELP_TEXT wd))
  else if String.eqb cmd "help"
  then (Exit 0, logged E "## Finished run" (printed HELP_TEXT wd))
  else
    ((if String.eqb cmd "check_vms"
      then ok <- sanity_check_vms E ;;
           when ok (log E "VMs are running as expected")
      else ret tt) ;;
     log E "## Finished run" ;;
     exit) wd.
Proof.
  intros Hcmd Hstart. unfold main, bind at 1, strftime.
  fold (happened (EvStrftime "%Y-%m-%d" (env_strftime E (history w) "%Y-%m-%d")) w).
  unfold bind at 1. rewrite log_nonempty by reflexivity.
  fold (started E w).
  assert (Hlen : Nat.ltb (List.length argv) 2 = false).
  { apply Nat.ltb_ge. destruct argv as [|a [|b t]]; try discriminate.
    simpl. lia. }
  rewrite Hlen. unfold bind at 1, when. cbn [ret].
  unfold bind at 1. rewrite Hstart.
  unfold bind at 1, set_rt_config.
  unfold bind at 1, index. rewrite Hcmd. cbn [ret].
  unfold bind at 1. rewrite log_nonempty by reflexivity.
  fold (dispatching E argv cmd cfg w1). cbv zeta.
  unfold bind at 1, when.
  destruct (mem cmd CLI_COMMANDS); cbn [negb].
  - cbn [ret]. destruct (String.eqb cmd "help").
    + unfold bind at 1, show_help, print.
      fold (printed HELP_TEXT (dispatching E argv cmd cfg w1)).
      unfold bind at 1. rewrite log_nonempty by reflexivity. reflexivity.
    + reflexivity.
  - unfold bind at 1, show_help, print.
    fold (printed HELP_TEXT (dispatching E argv cmd cfg w1)).
    rewrite die_exits. reflexivity.
Qed.

(** The main program when the startup validation ends the process. *)
Lemma main_startup_exit (argv : list string) (w w1 : world) (c : Z) :
  (2 <= List.length argv)%nat ->
  startup_and_config_general E argv (started E w) = (Exit c, w1) ->
  main E argv w = (Exit c, w1).
Proof.
  intros Hlen Hstart. unfold main, bind at 1, strftime.
  fold (happened (EvStrftime "%Y-%m-%d" (env_strftime E (history w) "%Y-%m-%d")) w).
  unfold bind at 1. rewrite log_nonempty by reflexivity.
  fold (started E w).
  apply Nat.ltb_ge in Hlen. rewrite Hlen. unfold bind at 1, when. cbn [ret].
  unfold bind at 1. rewrite Hstart. reflexivity.
Qed.

(** Every run of the main program ends in [exit()], or with the exception
    of a failing [hostname], and that only under the command [check_vms]. *)
Lemma main_ends (argv : list string) (w : world) :
  exists o w',
    main E argv w = (o, w')
    /\ ended o
    /\ (nth_error argv 1 <> Some "check_vms" -> o = Exit 0).
Proof.
  assert (Hexit : forall w' : world, exists o w'',
            (@Exit unit 0, w') = (o, w'') /\ ended o
            /\ (nth_error argv 1 <> Some "check_vms" -> o = Exit 0)).
  { intros w'. exists (Exit 0), w'.
    split; [reflexivity|]. split; [left; reflexivity | reflexivity]. }
  destruct (Nat.ltb (List.length argv) 2) eqn:Hlen.
  { apply Nat.ltb_lt in Hlen. rewrite main_no_arguments by exact Hlen.
    apply Hexit. }
  apply Nat.ltb_ge in Hlen.
  destruct argv as [|argv0 [|cmd rest]]; simpl in Hlen; try lia.
  destruct (startup_outcome argv0 (cmd :: rest) (started E w))
    as [w1 [Hstart|Hstart]].
  { rewrite (main_startup_exit (argv0 :: cmd :: rest) w w1 0);
      [apply Hexit | simpl; lia | exact Hstart]. }
  rewrite (main_dispatch (argv0 :: cmd :: rest) w w1 cmd startup_config
             eq_refl Hstart).
  cbv zeta.
  set (wd := dispatching E (argv0 :: cmd :: rest) cmd startup_config w1).
  destruct (negb (mem cmd CLI_COMMANDS)); [apply Hexit|].
  destruct (String.eqb cmd "help"); [apply Hexit|].
  destruct (String.eqb cmd "check_vms") eqn:Hcmd.
  - unfold bind at 1. unfold bind at 1.
    destruct (sanity_check_vms_trace E wd eq_refl)
      as [b [o [w2 [evs [lg [_ [Hrun [Ho _]]]]]]]].
    rewrite Hrun. destruct b; cbn [outcome_is] in Ho.
    + subst o. cbn [when]. rewrite log_nonempty by reflexivity.
      unfold bind at 1. rewrite log_nonempty by reflexivity.
      apply Hexit.
    + destruct Ho as [-> | ->].
      * apply Hexit.
      * do 2 eexists. split; [reflexivity|]. split; [right; reflexivity|].
        intros Hne. exfalso. apply Hne. apply String.eqb_eq in Hcmd.
        subst cmd. reflexivity.
  - unfold bind at 1. cbn [ret]. unfold bind at 1.
    rewrite log_nonempty by reflexivity. apply Hexit.
Qed.

End MainProgram.

(** C6 fails on the code: [./rt.py check_vms] run against a testbed whose
    gateway answers [hostname] with a non-zero status.  The [hostname] run
    of [cmd_to_vm] is made without [warn], so the failure is raised as
    [UnexpectedExit]; nothing catches it, the check of the result that
    would have called [die] is never reached, and the process ends with
    status 1, with no line of [die] in the log.  The last thing the process
    did is that [hostname] run; [die] itself, called in the same state,
    would have left with status 0. *)
Theorem check_vms_failing_hostname_exits_one :
  let run := main Sim.env_hostname_fails ["./rt.py"; "check_vms"] Sim.fresh in
  fst run = Raise UnexpectedExit
  /\ exit_status (fst run) = 1
  /\ last (history (snd run)) (EvStrftime "" "")
     = EvRun "192.168.56.2" "root" "hostname" true false
         (mk_run_result 127 "" ("bash: hostname: command not found" ++ nl))
  /\ contains "Exiting." (log_file (snd run)) = false
  /\ exit_status
       (fst (@die Sim.env_hostname_fails unit
               "Could not run hostname on gateway-vm" (snd run))) = 0.
Proof.
  cbv zeta. repeat split; vm_compute; reflexivity.
Qed.

(** C10: with fewer than two command-line arguments the main program
    prints the help text and ends the process before the startup
    validation is called: its only interactions are three clock reads, so
    no hypervisor command is run, and the log gets the start line and the
    line about the missing arguments and nothing from the startup
    checks. *)
Theorem main_without_command_skips_startup
    (E : Env) (argv : list string) (w : world) :
  (List.length argv < 2)%nat ->
  exists w' today t1 t2,
    main E argv w = (Exit 0, w')
    /\ history w'
       = (history w ++ [EvStrftime "%Y-%m-%d" today;
                        EvStrftime "%H-%M-%S" t1;
                        EvStrftime "%H-%M-%S" t2])%list
    /\ external_actions (history w') = external_actions (history w)
    /\ log_file w'
       = log_file w
         ++ (t1 ++ ": ## Starting run on date " ++ today ++ nl)
         ++ (t2 ++ ": There were no arguments on the command line. Exiting." ++ nl)
    /\ help_printed w w'.
Proof.
  intros Hlen. rewrite main_no_arguments by exact Hlen.
  do 4 eexists. split; [reflexivity|].
  assert (Hh : forall t0 tA tB h,
            (((h ++ [EvStrftime "%Y-%m-%d" t0]) ++ [EvStrftime "%H-%M-%S" tA])
               ++ [EvStrftime "%H-%M-%S" tB])%list
            = (h ++ [EvStrftime "%Y-%m-%d" t0; EvStrftime "%H-%M-%S" tA;
                     EvStrftime "%H-%M-%S" tB])%list).
  { intros. rewrite <- !List.app_assoc. reflexivity. }
  split; [|split; [|split]].
  - unfold logged, printed, started, logged, happened. cbn [history].
    apply Hh.
  - unfold logged, printed, started, logged, happened. cbn [history].
    rewrite Hh, external_actions_app. apply app_nil_r.
  - unfold logged, printed, started, logged, happened.
    cbn [history log_file]. rewrite !app_assoc. reflexivity.
  - unfold help_printed, logged at 1, printed. cbn [terminal].
    apply gained_later. unfold started, logged, happened. cbn [terminal].
    eapply gained_skip. apply gained_here.
Qed.

Lemma main_without_command_skips_startup_witness :
  (List.length ["rt.py"] < 2)%nat
  /\ fst (main Sim.env ["rt.py"] Sim.fresh) = Exit 0
  /\ external_actions (history (snd (main Sim.env ["rt.py"] Sim.fresh))) = [].
Proof.
  split; [simpl; lia|].
  destruct (main_without_command_skips_startup Sim.env ["rt.py"] Sim.fresh)
    as [w' [today [t1 [t2 [Hrun [_ [Hext _]]]]]]]; [simpl; lia|].
  rewrite Hrun. split; [reflexivity | exact Hext].
Defined.

(** ** The dispatcher (C7) *)

Lemma log_gained_logged (E : Env) (msg : string) (w w0 : world) :
  (exists y, log_file w0 = log_file w ++ y) ->
  log_gained msg w (logged E msg w0).
Proof.
  intros [y Hy]. exists (env_strftime E (history w0) "%H-%M-%S"), y, "".
  unfold logged. cbn [log_file]. rewrite Hy, !app_assoc, app_empty_r.
  reflexivity.
Qed.

Lemma help_printed_printed (w w0 : world) :
  (exists y, terminal w0 = terminal w ++ y) ->
  help_printed w (printed HELP_TEXT w0).
Proof.
  intros [y Hy]. exists y, "".
  unfold printed. cbn [terminal]. rewrite Hy, !app_assoc, app_empty_r.
  reflexivity.
Qed.

Lemma help_printed_logged (E : Env) (msg : string) (w w0 : world) :
  help_printed w w0 -> help_printed w (logged E msg w0).
Proof. intros H. unfold logged. cbn [terminal]. apply gained_later, H. Qed.

Lemma started_texts (E : Env) (w : world) :
  (exists y, log_file (started E w) = log_file w ++ y)
  /\ (exists y, terminal (started E w) = terminal w ++ y).
Proof. split; eexists; reflexivity. Qed.

Lemma dispatching_texts (E : Env) (argv : list string) (cmd : string)
    (cfg : local_config) (w w1 : world) :
  log_file w1 = log_file (started E w) ->
  terminal w1 = terminal (started E w) ->
  (exists y, log_file (dispatching E argv cmd cfg w1) = log_file w ++ y)
  /\ (exists y, terminal (dispatching E argv cmd cfg w1) = terminal w ++ y).
Proof.
  intros Hl Ht. destruct (started_texts E w) as [[yl Hyl] [yt Hyt]].
  unfold dispatching, logged. cbn [log_file terminal history].
  rewrite Hl, Ht, Hyl, Hyt. split; eexists; rewrite app_assoc; reflexivity.
Qed.

(** C7, as stated, fails when the startup validation does not pass: run as
    [rt.py badcmd] instead of [./rt.py badcmd], the program ends in the
    startup validation, before it looks at the command, and neither prints
    the help text nor logs that the command is not valid. *)
Lemma main_bad_command_wrong_path :
  ~ (help_printed Sim.fresh (snd (main Sim.env ["rt.py"; "badcmd"] Sim.fresh))
     /\ log_gained "badcmd is not valid command. Exiting." Sim.fresh
          (snd (main Sim.env ["rt.py"; "badcmd"] Sim.fresh))).
Proof.
  intros [[before [after Hhelp]] _].
  assert (Hc : contains (HELP_TEXT ++ nl)
                 (terminal (snd (main Sim.env ["rt.py"; "badcmd"] Sim.fresh)))
               = false) by (vm_compute; reflexivity).
  rewrite Hhelp in Hc. cbn [Sim.fresh terminal] in Hc.
  change ("" ++ before ++ (HELP_TEXT ++ nl) ++ after)
    with (before ++ (HELP_TEXT ++ nl) ++ after) in Hc.
  assert (Ht : contains (HELP_TEXT ++ nl) (before ++ (HELP_TEXT ++ nl) ++ after)
               = true).
  { clear. induction before as [|c b IH].
    - change ("" ++ (HELP_TEXT ++ nl) ++ after)
        with ((HELP_TEXT ++ nl) ++ after).
      pose proof (prefix_app (HELP_TEXT ++ nl) after) as Hp.
      destruct ((HELP_TEXT ++ nl) ++ after); simpl; simpl in Hp;
        rewrite Hp; reflexivity.
    - change (contains (HELP_TEXT ++ nl)
                (String c b ++ (HELP_TEXT ++ nl) ++ after))
        with (String.prefix (HELP_TEXT ++ nl)
                (String c (b ++ (HELP_TEXT ++ nl) ++ after))
              || contains (HELP_TEXT ++ nl) (b ++ (HELP_TEXT ++ nl) ++ after)).
      rewrite IH. apply orb_true_r. }
  congruence.
Qed.

(** C7 (amended): without a command the main program prints the help text
    and ends the process with the logged message that there were no
    arguments.  With a command, and provided the startup validation, which
    runs first, has returned: if the command is not one of [CLI_COMMANDS],
    the program prints the help text and ends the process with the logged
    message that the command is not valid; if the command is [help], it
    prints the help text, logs the final line and ends normally, and none of
    the checks on the machines has run (no query for the running machines,
    no SSH connection, no remote command). *)
Theorem dispatcher_after_startup (E : Env) (argv : list string) (w : world) :
  ((List.length argv < 2)%nat ->
   exists w',
     main E argv w = (Exit 0, w')
     /\ help_printed w w'
     /\ log_gained "There were no arguments on the command line. Exiting." w w')
  /\ (forall cmd cfg w1,
        nth_error argv 1 = Some cmd ->
        startup_and_config_general E argv (started E w) = (Ret cfg, w1) ->
        let wd := dispatching E argv cmd cfg w1 in
        (mem cmd CLI_COMMANDS = false ->
         exists w',
           main E argv w = (Exit 0, w')
           /\ w' = logged E (cmd ++ " is not valid command. Exiting.")
                     (printed HELP_TEXT wd)
           /\ help_printed w w'
           /\ log_gained (cmd ++ " is not valid command. Exiting.") w w')
        /\ (cmd = "help" ->
            exists w',
              main E argv w = (Exit 0, w')
              /\ w' = logged E "## Finished run" (printed HELP_TEXT wd)
              /\ help_printed w w'
              /\ log_gained "## Finished run" w w'
              /\ vm_checks (history w') = vm_checks (history w))).
Proof.
  split.
  - intros Hlen. rewrite main_no_arguments by exact Hlen.
    destruct (started_texts E w) as [Hl Ht].
    eexists. split; [reflexivity|]. split.
    + apply help_printed_logged, help_printed_printed, Ht.
    + apply log_gained_logged. exact Hl.
  - intros cmd cfg w1 Hcmd Hstart wd.
    destruct (startup_returns E argv _ w1 cfg Hstart)
      as [Hcfg [_ [Ht [Hl Hv]]]].
    destruct (dispatching_texts E argv cmd cfg w w1 Hl Ht) as [Hdl Hdt].
    fold wd in Hdl, Hdt.
    rewrite (main_dispatch E argv w w1 cmd cfg Hcmd Hstart). cbv zeta.
    fold wd. split.
    + intros Hnot. rewrite Hnot. cbn [negb]. rewrite app_assoc.
      eexists. split; [reflexivity|]. split; [reflexivity|]. split.
      * apply help_printed_logged, help_printed_printed, Hdt.
      * apply log_gained_logged. exact Hdl.
    + intros ->. cbn [mem CLI_COMMANDS existsb String.eqb Ascii.eqb Bool.eqb
                      orb negb].
      eexists. split; [reflexivity|]. split; [reflexivity|]. split; [|split].
      * apply help_printed_logged, help_printed_printed, Hdt.
      * apply log_gained_logged. exact Hdl.
      * rewrite vm_checks_logged. unfold printed. cbn [history].
        unfold wd, dispatching. rewrite vm_checks_logged. cbn [history].
        rewrite Hv. apply vm_checks_started.
Qed.

Lemma dispatcher_after_startup_witness :
  fst (startup_and_config_general Sim.env ["./rt.py"; "help"]
         (started Sim.env Sim.fresh)) = Ret startup_config
  /\ fst (main Sim.env ["./rt.py"; "help"] Sim.fresh) = Exit 0
  /\ vm_checks (history (snd (main Sim.env ["./rt.py"; "help"] Sim.fresh))) = [].
Proof.
  split; [reflexivity|].
  destruct (dispatcher_after_startup Sim.env ["./rt.py"; "help"] Sim.fresh)
    as [_ Hcmd].
  destruct (Hcmd "help" startup_config
              (snd (startup_and_config_general Sim.env ["./rt.py"; "help"]
                      (started Sim.env Sim.fresh)))
              eq_refl eq_refl) as [_ Hhelp].
  destruct (Hhelp eq_refl) as [w' [Hrun [_ [_ [_ Hv]]]]].
  rewrite Hrun. split; [reflexivity | exact Hv].
Defined.

(** * Further properties *)

(** ** [is_vm_running], whatever the exit status *)

Lemma listed_running_dec (E : Env) (vm : string) (w : world) :
  listed_running E vm w
  \/ (popen_rc E LIST_RUNNING w > 0
      \/ ~ In vm (running_vms_of (snd (env_popen E (history w) LIST_RUNNING)))).
Proof.
  unfold listed_running.
  destruct (Z_le_gt_dec (popen_rc E LIST_RUNNING w) 0) as [Hle|Hgt]; [|auto].
  destruct (mem vm (running_vms_of (snd (env_popen E (history w) LIST_RUNNING))))
    eqn:Hm.
  - left. split; [exact Hle | apply mem_In, Hm].
  - right. right. intros Hin. apply mem_In in Hin. congruence.
Qed.

(** X1: [is_vm_running] returns exactly when the status of the query is not
    positive and the name is in the parsed list; a positive status ends the
    process whatever the output says, a negative one (the command killed by
    a signal) is not taken for a failure.  In no case is anything done over
    SSH. *)
Theorem is_vm_running_returns_iff (E : Env) (vm_name : string) (w : world) :
  (listed_running E vm_name w ->
   is_vm_running E vm_name w = (Ret tt, after_popen E LIST_RUNNING w))
  /\ (~ listed_running E vm_name w ->
      exists w', is_vm_running E vm_name w = (Exit 0, w'))
  /\ ssh_actions (history (snd (is_vm_running E vm_name w)))
     = ssh_actions (history w).
Proof.
  rewrite is_vm_running_eq. cbv zeta. unfold listed_running, popen_rc.
  set (rc := fst _). set (out := snd _).
  fold (after_popen E LIST_RUNNING w).
  assert (Hssh : forall msg,
            ssh_actions (history (logged E msg (popened LIST_RUNNING rc out w)))
            = ssh_actions (history w)).
  { intros msg. unfold logged, popened, ssh_actions. cbn [history].
    rewrite !filter_app. cbn. now rewrite !app_nil_r. }
  assert (Hssh1 : ssh_actions (history (popened LIST_RUNNING rc out w))
                  = ssh_actions (history w)).
  { unfold popened, ssh_actions. cbn [history].
    rewrite filter_app. cbn. now rewrite app_nil_r. }
  destruct (rc >? 0) eqn:Hrc.
  - apply Z.gtb_lt in Hrc. split; [intros [Hle _]; lia|].
    split; [intros _; eexists; reflexivity | apply Hssh].
  - assert (Hle : rc <= 0).
    { rewrite Z.gtb_ltb in Hrc. apply Z.ltb_ge in Hrc. exact Hrc. }
    destruct (mem vm_name (running_vms_of out)) eqn:Hm.
    + split; [intros _; reflexivity|]. split; [|exact Hssh1].
      intros Hnot. exfalso. apply Hnot. split; [exact Hle | apply mem_In, Hm].
    + split; [|split; [intros _; eexists; reflexivity | apply Hssh]].
      intros [_ Hin]. apply mem_In in Hin. congruence.
Qed.

Lemma is_vm_running_returns_iff_witness :
  listed_running Sim.env "resolvers-vm" Sim.fresh
  /\ fst (is_vm_running Sim.env "resolvers-vm" Sim.fresh) = Ret tt
  /\ ~ listed_running Sim.env_all_stopped "resolvers-vm" Sim.fresh
  /\ fst (is_vm_running Sim.env_all_stopped "resolvers-vm" Sim.fresh) = Exit 0.
Proof.
  assert (H1 : listed_running Sim.env "resolvers-vm" Sim.fresh).
  { split; [vm_compute; discriminate | vm_compute; tauto]. }
  assert (H2 : ~ listed_running Sim.env_all_stopped "resolvers-vm" Sim.fresh).
  { intros [_ Hin]. vm_compute in Hin. destruct Hin as [Hin|[]].
    discriminate Hin. }
  destruct (is_vm_running_returns_iff Sim.env "resolvers-vm" Sim.fresh)
    as [Hyes _].
  destruct (is_vm_running_returns_iff Sim.env_all_stopped "resolvers-vm"
              Sim.fresh) as [_ [Hno _]].
  destruct (Hno H2) as [w' Hw'].
  split; [exact H1|]. split; [rewrite (Hyes H1); reflexivity|].
  split; [exact H2|]. rewrite Hw'. reflexivity.
Defined.

(** ** [cmd_to_vm], every way it can end *)

Section RemoteExecutionCases.

Variable E : Env.

(** The part over SSH, branch by branch. *)
Lemma run_over_ssh_eq (cmd_to_run vm_name addr : string) (w1 : world) :
  run_over_ssh E cmd_to_run vm_name addr w1 =
  let ok := env_open E (history w1) addr "root" in
  let w2 := opened E addr "root" ok w1 in
  if negb ok
  then (Exit 0,
        logged E (("Could not open an SSH connection to " ++ vm_name ++ ".")
                  ++ " Exiting.") w2)
  else
  let rh := env_run E (history w2) addr "root" "hostname" true false in
  let w3 := happened (EvRun addr "root" "hostname" true false rh) w2 in
  if failed rh
  then (Raise UnexpectedExit, w3)
  else if negb (String.eqb (rstrip (stdout rh)) vm_name)
  then (Exit 0,
        logged E (("The host at " ++ addr ++ " is not " ++ vm_name
                   ++ ": '" ++ stdout rh ++ "'") ++ " Exiting.") w3)
  else
  let r := env_run E (history w3) addr "root" cmd_to_run true true in
  (Ret (reply_text r), happened (EvRun addr "root" cmd_to_run true true r) w3).
Proof.
  unfold run_over_ssh. cbv zeta.
  unfold bind at 1, try_except, fab_open. cbn [conn_host conn_user].
  fold (opened E addr "root" (env_open E (history w1) addr "root") w1).
  destruct (env_open E (history w1) addr "root"); cbn [negb].
  2: { rewrite die_exits. reflexivity. }
  set (w2 := opened E addr "root" true w1).
  unfold bind at 1, fab_run at 1. cbn [conn_host conn_user negb andb].
  fold (happened (EvRun addr "root" "hostname" true false
                    (env_run E (history w2) addr "root" "hostname" true false)) w2).
  set (rh := env_run E (history w2) addr "root" "hostname" true false).
  set (w3 := happened _ w2).
  destruct (failed rh) eqn:Hf; [reflexivity|].
  unfold bind at 1, when. rewrite Hf. cbn [ret]. unfold bind at 1.
  destruct (String.eqb (rstrip (stdout rh)) vm_name); cbn [negb].
  2: { rewrite die_exits. reflexivity. }
  cbn [ret]. unfold bind at 1, fab_run. cbn [conn_host conn_user negb andb].
  fold (happened (EvRun addr "root" cmd_to_run true true
                    (env_run E (history w3) addr "root" cmd_to_run true true)) w3).
  unfold reply_text.
  destruct (failed (env_run E (history w3) addr "root" cmd_to_run true true));
    reflexivity.
Qed.

(** [cmd_to_vm] up to the connection, branch by branch. *)
Lemma cmd_to_vm_cases (cmd_to_run vm_name : string) (w : world) :
  cmd_to_vm E cmd_to_run vm_name w =
  if negb (dict_mem vm_name VM_INFO)
  then (Exit 0,
        logged E (("Attempt to run on " ++ vm_name ++ ", which is not a valid VM")
                  ++ " Exiting.") w)
  else
  let out := snd (env_popen E (history w) LIST_RUNNING) in
  let w1 := after_popen E LIST_RUNNING w in
  if popen_rc E LIST_RUNNING w >? 0
  then (Exit 0, logged E ("VBoxManage runningvms failed to run." ++ " Exiting.") w1)
  else if negb (mem vm_name (running_vms_of out))
  then (Exit 0,
        logged E ((vm_name ++ " is not in the list of running VMs: '"
                   ++ join " " (running_vms_of out) ++ "'.") ++ " Exiting.") w1)
  else
  match rt_config w with
  | None => (Raise NameError, w1)
  | Some cfg =>
      match dict_get (vm_info cfg) vm_name with
      | None => (Raise KeyError, w1)
      | Some this_vm =>
          match dict_get this_vm "control_addr" with
          | Some addr =>
              if is_empty addr
              then (Exit 0,
                    logged E (("There was no address for " ++ vm_name)
                              ++ " Exiting.") w1)
              else run_over_ssh E cmd_to_run vm_name addr w1
          | None =>
              (Exit 0,
               logged E (("There was no address for " ++ vm_name)
                         ++ " Exiting.") w1)
          end
      end
  end.
Proof.
  change (cmd_to_vm E cmd_to_run vm_name)
    with (when (negb (dict_mem vm_name VM_INFO))
            (die E ("Attempt to run on " ++ vm_name ++ ", which is not a valid VM")) ;;
          is_vm_running E vm_name ;;
          cfg <- get_rt_config ;;
          this_vm <- subscript (vm_info cfg) vm_name ;;
          this_control_address <-
            match dict_get this_vm "control_addr" with
            | Some a =>
                if is_empty a then die E ("There was no address for " ++ vm_name)
                else ret a
            | None => die E ("There was no address for " ++ vm_name)
            end ;;
          run_over_ssh E cmd_to_run vm_name this_control_address).
  unfold bind at 1, when.
  destruct (dict_mem vm_name VM_INFO); cbn [negb].
  2: { rewrite die_exits. reflexivity. }
  cbn [ret]. unfold bind at 1. rewrite is_vm_running_eq. cbv zeta.
  unfold popen_rc, after_popen.
  destruct (fst (env_popen E (history w) LIST_RUNNING) >? 0); [reflexivity|].
  destruct (mem vm_name (running_vms_of (snd (env_popen E (history w) LIST_RUNNING))));
    [|reflexivity].
  cbn [negb]. set (w1 := popened LIST_RUNNING _ _ w).
  assert (Hcfg1 : rt_config w1 = rt_config w) by reflexivity.
  unfold bind at 1, get_rt_config. rewrite Hcfg1.
  destruct (rt_config w) as [cfg|]; [|reflexivity].
  unfold bind at 1, subscript.
  destruct (dict_get (vm_info cfg) vm_name) as [this_vm|]; [|reflexivity].
  cbn [ret]. unfold bind at 1.
  destruct (dict_get this_vm "control_addr") as [addr|].
  - destruct (is_empty addr).
    + rewrite die_exits. reflexivity.
    + reflexivity.
  - rewrite die_exits. reflexivity.
Qed.

Lemma ssh_actions_app (h1 h2 : list event) :
  ssh_actions (h1 ++ h2) = (ssh_actions h1 ++ ssh_actions h2)%list.
Proof. apply filter_app. Qed.

Lemma ssh_actions_logged (msg : string) (w : world) :
  ssh_actions (history (logged E msg w)) = ssh_actions (history w).
Proof.
  unfold logged. cbn [history]. rewrite ssh_actions_app. apply app_nil_r.
Qed.

Lemma ssh_actions_after_popen (cmd : string) (w : world) :
  ssh_actions (history (after_popen E cmd w)) = ssh_actions (history w).
Proof.
  unfold after_popen, popened. cbn [history]. rewrite ssh_actions_app.
  apply app_nil_r.
Qed.

End RemoteExecutionCases.

Lemma lstrip_idem (s : string) : lstrip (lstrip s) = lstrip s.
Proof.
  induction s as [|c r IH]; [reflexivity|].
  simpl. destruct (isspace c) eqn:Hc; [exact IH|].
  simpl. rewrite Hc. reflexivity.
Qed.

Lemma rstrip_idem (s : string) : rstrip (rstrip s) = rstrip s.
Proof.
  induction s as [|c r IH]; [reflexivity|].
  simpl. destruct (is_empty (rstrip r) && isspace c) eqn:Hc; [reflexivity|].
  simpl. rewrite IH, Hc. reflexivity.
Qed.

Lemma rstrip_lstrip (s : string) : rstrip (lstrip s) = lstrip (rstrip s).
Proof.
  induction s as [|c r IH]; [reflexivity|].
  simpl. destruct (isspace c) eqn:Hc.
  - rewrite andb_true_r. destruct (rstrip r) as [|x y] eqn:Hr.
    + simpl. rewrite IH. reflexivity.
    + simpl. rewrite Hc. rewrite IH. reflexivity.
  - rewrite andb_false_r. simpl. rewrite Hc, andb_false_r. reflexivity.
Qed.

Lemma strip_idem (s : string) : strip (strip s) = strip s.
Proof.
  unfold strip. rewrite rstrip_lstrip, rstrip_idem, lstrip_idem. reflexivity.
Qed.

(** X2: [cmd_to_vm] returns a value only when every check has passed: the
    name is a key of [VM_INFO], the machine is configured with a non-empty
    address and listed as running, the SSH connection opened, and the host
    answered the [hostname] command successfully with the name of the
    machine.  The value is then the reply to the caller's command, which
    was the last interaction. *)
Theorem cmd_to_vm_returns_only_after_checks
    (E : Env) (cmd_to_run vm_name s : string) (w w' : world) :
  cmd_to_vm E cmd_to_run vm_name w = (Ret s, w') ->
  dict_mem vm_name VM_INFO = true
  /\ exists addr w2,
       session_opened E vm_name w addr w2
       /\ failed (identity_reply E addr w2) = false
       /\ rstrip (stdout (identity_reply E addr w2)) = vm_name
       /\ let w3 := happened (EvRun addr "root" "hostname" true false
                                (identity_reply E addr w2)) w2 in
          let r := env_run E (history w3) addr "root" cmd_to_run true true in
          s = reply_text r
          /\ w' = happened (EvRun addr "root" cmd_to_run true true r) w3.
Proof.
  rewrite cmd_to_vm_cases. cbv zeta.
  destruct (dict_mem vm_name VM_INFO); cbn [negb]; [|discriminate].
  unfold popen_rc, after_popen.
  destruct (env_popen E (history w) LIST_RUNNING) as [rc out] eqn:Hlist.
  cbn [fst snd].
  destruct (rc >? 0) eqn:Hrc; [discriminate|].
  destruct (mem vm_name (running_vms_of out)) eqn:Hm; cbn [negb]; [|discriminate].
  destruct (rt_config w) as [cfg|] eqn:Hcfg; [|discriminate].
  destruct (dict_get (vm_info cfg) vm_name) as [this_vm|] eqn:Hthis;
    [|discriminate].
  destruct (dict_get this_vm "control_addr") as [addr|] eqn:Haddr;
    [|discriminate].
  destruct (is_empty addr) eqn:Hne; [discriminate|].
  rewrite run_over_ssh_eq. cbv zeta.
  destruct (env_open E (history (popened LIST_RUNNING rc out w)) addr "root")
    eqn:Hopen; cbn [negb]; [|discriminate].
  fold (identity_reply E addr
          (opened E addr "root" true (popened LIST_RUNNING rc out w))).
  set (w2 := opened E addr "root" true (popened LIST_RUNNING rc out w)).
  destruct (failed (identity_reply E addr w2)) eqn:Hf; [discriminate|].
  destruct (String.eqb (rstrip (stdout (identity_reply E addr w2))) vm_name)
    eqn:Hn; cbn [negb]; [|discriminate].
  intros H. inversion H; subst. split; [reflexivity|].
  exists addr, w2. split.
  { apply (SessionOpened E vm_name w cfg this_vm addr rc out); try assumption.
    - intros ->. discriminate Hne.
    - rewrite Z.gtb_ltb in Hrc. apply Z.ltb_ge in Hrc. exact Hrc.
    - apply mem_In, Hm. }
  split; [exact Hf|]. split; [apply String.eqb_eq, Hn|].
  split; reflexivity.
Qed.

Lemma cmd_to_vm_returns_only_after_checks_witness :
  fst (cmd_to_vm Sim.env "ls ~/Source" "servers-vm" Sim.configured) = Ret ""
  /\ exists addr w2,
       session_opened Sim.env "servers-vm" Sim.configured addr w2
       /\ rstrip (stdout (identity_reply Sim.env addr w2)) = "servers-vm".
Proof.
  split; [reflexivity|].
  destruct (cmd_to_vm_returns_only_after_checks Sim.env "ls ~/Source"
              "servers-vm" ""
              Sim.configured
              (snd (cmd_to_vm Sim.env "ls ~/Source" "servers-vm" Sim.configured))
              eq_refl)
    as [_ [addr [w2 [Hs [_ [Hname _]]]]]].
  exists addr, w2. split; assumption.
Defined.

(** X3: a machine that is not listed as running (or a query that failed) is
    never contacted: [cmd_to_vm] ends the process and nothing has been done
    over SSH. *)
Theorem cmd_to_vm_not_running_no_ssh
    (E : Env) (cmd_to_run vm_name : string) (w : world) :
  ~ listed_running E vm_name w ->
  exists w',
    cmd_to_vm E cmd_to_run vm_name w = (Exit 0, w')
    /\ ssh_actions (history w') = ssh_actions (history w).
Proof.
  intros Hnot. rewrite cmd_to_vm_cases. cbv zeta.
  destruct (dict_mem vm_name VM_INFO); cbn [negb].
  2: { eexists. split; [reflexivity | apply ssh_actions_logged]. }
  destruct (popen_rc E LIST_RUNNING w >? 0) eqn:Hrc.
  { eexists. split; [reflexivity|].
    rewrite ssh_actions_logged. apply ssh_actions_after_popen. }
  destruct (mem vm_name (running_vms_of (snd (env_popen E (history w) LIST_RUNNING))))
    eqn:Hm; cbn [negb].
  - exfalso. apply Hnot. split.
    + rewrite Z.gtb_ltb in Hrc. apply Z.ltb_ge in Hrc. exact Hrc.
    + apply mem_In, Hm.
  - eexists. split; [reflexivity|].
    rewrite ssh_actions_logged. apply ssh_actions_after_popen.
Qed.

Lemma cmd_to_vm_not_running_no_ssh_witness :
  ~ listed_running Sim.env_all_stopped "gateway-vm" Sim.configured
  /\ fst (cmd_to_vm Sim.env_all_stopped "ls ~/Target" "gateway-vm" Sim.configured)
     = Exit 0
  /\ ssh_actions
       (history (snd (cmd_to_vm Sim.env_all_stopped "ls ~/Target" "gateway-vm"
                        Sim.configured))) = [].
Proof.
  assert (H : ~ listed_running Sim.env_all_stopped "gateway-vm" Sim.configured).
  { intros [_ Hin]. vm_compute in Hin. destruct Hin as [Hin|[]].
    discriminate Hin. }
  split; [exact H|].
  destruct (cmd_to_vm_not_running_no_ssh Sim.env_all_stopped "ls ~/Target"
              "gateway-vm" Sim.configured H) as [w' [Hrun Hssh]].
  rewrite Hrun. split; [reflexivity | exact Hssh].
Defined.

Lemma listed_running_conditions (E : Env) (vm : string) (w : world) :
  listed_running E vm w ->
  (popen_rc E LIST_RUNNING w >? 0) = false
  /\ mem vm (running_vms_of (snd (env_popen E (history w) LIST_RUNNING))) = true.
Proof.
  intros [Hrc Hin]. split.
  - rewrite Z.gtb_ltb. apply Z.ltb_ge. exact Hrc.
  - apply mem_In, Hin.
Qed.

(** X4: when the SSH connection to a configured, running machine cannot be
    opened, [cmd_to_vm] ends the process with the message that it could
    not; the failed attempt and the clock read of the log line are its last
    interactions, so nothing is run on the machine, not even the
    [hostname] check. *)
Theorem cmd_to_vm_connection_refused
    (E : Env) (cmd_to_run vm_name addr : string) (w : world) :
  dict_mem vm_name VM_INFO = true ->
  listed_running E vm_name w ->
  address_configured w vm_name addr ->
  env_open E (history (after_popen E LIST_RUNNING w)) addr "root" = false ->
  exists w' now,
    cmd_to_vm E cmd_to_run vm_name w = (Exit 0, w')
    /\ history w'
       = (history (after_popen E LIST_RUNNING w)
          ++ [EvOpen addr "root" false; EvStrftime "%H-%M-%S" now])%list
    /\ log_gained ("Could not open an SSH connection to " ++ vm_name
                   ++ ". Exiting.") w w'.
Proof.
  intros Hvm Hrun [cfg [this_vm [Hcfg [Hthis [Haddr Hne]]]]] Hopen.
  destruct (listed_running_conditions E vm_name w Hrun) as [Hrc Hm].
  rewrite cmd_to_vm_cases. cbv zeta.
  rewrite Hvm, Hrc, Hm, Hcfg, Hthis, Haddr, (is_empty_false addr Hne).
  cbn [negb]. rewrite run_over_ssh_eq. cbv zeta. rewrite Hopen. cbn [negb].
  do 2 eexists. split; [reflexivity|]. split.
  - unfold logged, opened. cbn [history].
    rewrite <- List.app_assoc. reflexivity.
  - rewrite !app_assoc. apply log_gained_logged.
    eexists. unfold opened, after_popen, popened. cbn [log_file].
    reflexivity.
Qed.

Lemma sim_address_configured (vm addr : string) :
  In (vm, addr) machines -> address_configured Sim.configured vm addr.
Proof.
  intros Hin. exists startup_config, [("control_addr", addr)].
  destruct Hin as [H|[H|[H|[]]]]; inversion H; subst;
    repeat split; try reflexivity; discriminate.
Qed.

Lemma cmd_to_vm_connection_refused_witness :
  listed_running Sim.env_unreachable "gateway-vm" Sim.configured
  /\ fst (cmd_to_vm Sim.env_unreachable "ls ~/Target" "gateway-vm" Sim.configured)
     = Exit 0
  /\ commands_run
       (history (snd (cmd_to_vm Sim.env_unreachable "ls ~/Target" "gateway-vm"
                        Sim.configured))) = [].
Proof.
  assert (H : listed_running Sim.env_unreachable "gateway-vm" Sim.configured).
  { split; [vm_compute; discriminate | vm_compute; tauto]. }
  split; [exact H|].
  destruct (cmd_to_vm_connection_refused Sim.env_unreachable "ls ~/Target"
              "gateway-vm" "192.168.56.2" Sim.configured eq_refl H
              (sim_address_configured _ _ (or_introl eq_refl)) eq_refl)
    as [w' [now [Hrun [Hh _]]]].
  rewrite Hrun. cbn [fst snd]. split; [reflexivity|].
  rewrite Hh, commands_run_app. reflexivity.
Defined.

(** X5: when the configuration entry of a running machine of [VM_INFO] has
    no control address, or an empty one, [cmd_to_vm] ends the process with
    the message that there was no address, and nothing has been done over
    SSH. *)
Theorem cmd_to_vm_no_address
    (E : Env) (cmd_to_run vm_name : string) (w : world)
    (cfg : local_config) (this_vm : dict string) :
  dict_mem vm_name VM_INFO = true ->
  listed_running E vm_name w ->
  rt_config w = Some cfg ->
  dict_get (vm_info cfg) vm_name = Some this_vm ->
  dict_get this_vm "control_addr" = None
  \/ dict_get this_vm "control_addr" = Some "" ->
  exists w',
    cmd_to_vm E cmd_to_run vm_name w = (Exit 0, w')
    /\ log_gained ("There was no address for " ++ vm_name ++ " Exiting.") w w'
    /\ ssh_actions (history w') = ssh_actions (history w).
Proof.
  intros Hvm Hrun Hcfg Hthis Haddr.
  destruct (listed_running_conditions E vm_name w Hrun) as [Hrc Hm].
  rewrite cmd_to_vm_cases. cbv zeta.
  rewrite Hvm, Hrc, Hm, Hcfg, Hthis. cbn [negb].
  assert (Hend :
    exists w',
      (Exit 0,
       logged E (("There was no address for " ++ vm_name) ++ " Exiting.")
         (after_popen E LIST_RUNNING w)) = (@Exit string 0, w')
      /\ log_gained ("There was no address for " ++ vm_name ++ " Exiting.") w w'
      /\ ssh_actions (history w') = ssh_actions (history w)).
  { eexists. split; [reflexivity|]. split.
    - rewrite app_assoc. apply log_gained_logged.
      exists "". unfold after_popen, popened. cbn [log_file].
      now rewrite app_empty_r.
    - rewrite ssh_actions_logged. apply ssh_actions_after_popen. }
  destruct Haddr as [Haddr|Haddr]; rewrite Haddr; exact Hend.
Qed.

Lemma cmd_to_vm_no_address_witness :
  listed_running Sim.env "gateway-vm" Sim.unaddressed
  /\ fst (cmd_to_vm Sim.env "ls ~/Target" "gateway-vm" Sim.unaddressed) = Exit 0
  /\ ssh_actions
       (history (snd (cmd_to_vm Sim.env "ls ~/Target" "gateway-vm"
                        Sim.unaddressed))) = [].
Proof.
  assert (H : listed_running Sim.env "gateway-vm" Sim.unaddressed).
  { split; [vm_compute; discriminate | vm_compute; tauto]. }
  split; [exact H|].
  destruct (cmd_to_vm_no_address Sim.env "ls ~/Target" "gateway-vm"
              Sim.unaddressed (mk_local_config [("gateway-vm", [])]) []
              eq_refl H eq_refl eq_refl (or_introl eq_refl))
    as [w' [Hrun [_ Hssh]]].
  rewrite Hrun. split; [reflexivity | exact Hssh].
Defined.

(** X6: called for a running machine of [VM_INFO] before the main program
    has stored [rt_config], [cmd_to_vm] raises [NameError]; with a
    configuration that has no entry for the machine it raises [KeyError].
    In both cases the exception comes after the query for the running
    machines, nothing is logged, and left uncaught it ends the process with
    status 1. *)
Theorem cmd_to_vm_unconfigured
    (E : Env) (cmd_to_run vm_name : string) (w : world) :
  dict_mem vm_name VM_INFO = true ->
  listed_running E vm_name w ->
  (rt_config w = None ->
   cmd_to_vm E cmd_to_run vm_name w
   = (Raise NameError, after_popen E LIST_RUNNING w))
  /\ (forall cfg,
        rt_config w = Some cfg ->
        dict_get (vm_info cfg) vm_name = None ->
        cmd_to_vm E cmd_to_run vm_name w
        = (Raise KeyError, after_popen E LIST_RUNNING w))
  /\ (rt_config w = None
      \/ (exists cfg, rt_config w = Some cfg
                      /\ dict_get (vm_info cfg) vm_name = None) ->
      exit_status (fst (cmd_to_vm E cmd_to_run vm_name w)) = 1).
Proof.
  intros Hvm Hrun.
  destruct (listed_running_conditions E vm_name w Hrun) as [Hrc Hm].
  rewrite cmd_to_vm_cases. cbv zeta. rewrite Hvm, Hrc, Hm. cbn [negb].
  split; [|split].
  - intros Hcfg. rewrite Hcfg. reflexivity.
  - intros cfg Hcfg Hnone. rewrite Hcfg, Hnone. reflexivity.
  - intros [Hcfg | [cfg [Hcfg Hnone]]].
    + rewrite Hcfg. reflexivity.
    + rewrite Hcfg, Hnone. reflexivity.
Qed.

Lemma cmd_to_vm_unconfigured_witness :
  listed_running Sim.env "servers-vm" Sim.fresh
  /\ fst (cmd_to_vm Sim.env "ls ~/Target" "servers-vm" Sim.fresh)
     = Raise NameError
  /\ fst (cmd_to_vm Sim.env "ls ~/Target" "servers-vm" Sim.unaddressed)
     = Raise KeyError.
Proof.
  assert (H : forall w, history w = [] -> listed_running Sim.env "servers-vm" w).
  { intros w Hw. unfold listed_running, popen_rc. rewrite Hw.
    split; [vm_compute; discriminate | vm_compute; tauto]. }
  split; [apply H; reflexivity|].
  destruct (cmd_to_vm_unconfigured Sim.env "ls ~/Target" "servers-vm" Sim.fresh
              eq_refl (H Sim.fresh eq_refl)) as [Hname _].
  destruct (cmd_to_vm_unconfigured Sim.env "ls ~/Target" "servers-vm"
              Sim.unaddressed eq_refl (H Sim.unaddressed eq_refl))
    as [_ [Hkey _]].
  rewrite (Hname eq_refl), (Hkey _ eq_refl eq_refl). split; reflexivity.
Defined.

(** X7: whatever [cmd_to_vm] returns either begins with the marker
    "Error: " or is free of white space at both ends (stripping it again
    changes nothing); in the first case what follows the marker is
    stripped in the same way. *)
Theorem cmd_to_vm_result_shape
    (E : Env) (cmd_to_run vm_name s : string) (w w' : world) :
  cmd_to_vm E cmd_to_run vm_name w = (Ret s, w') ->
  (exists rest, s = "Error: " ++ rest /\ strip rest = rest)
  \/ strip s = s.
Proof.
  intros Hrun.
  assert (Hs : exists r, s = reply_text r).
  { revert Hrun. rewrite cmd_to_vm_cases. cbv zeta.
    repeat match goal with
           | |- context [if ?c then _ else _] => destruct c; try discriminate
           | |- context [match ?x with Some _ => _ | None => _ end] =>
               destruct x; try discriminate
           end.
    rewrite run_over_ssh_eq. cbv zeta.
    repeat match goal with
           | |- context [if ?c then _ else _] => destruct c; try discriminate
           end.
    intros H. injection H as H _. eexists. symmetry. exact H. }
  destruct Hs as [r ->]. unfold reply_text. destruct (failed r).
  - left. exists (strip (stderr r)). split; [reflexivity | apply strip_idem].
  - right. apply strip_idem.
Qed.

Lemma cmd_to_vm_result_shape_witness :
  fst (cmd_to_vm Sim.env "ls ~/Target" "resolvers-vm" Sim.configured)
  = Ret "Error: ls: cannot access '/root/Target': No such file or directory"
  /\ ((exists rest,
         "Error: ls: cannot access '/root/Target': No such file or directory"
         = "Error: " ++ rest /\ strip rest = rest)
      \/ strip "Error: ls: cannot access '/root/Target': No such file or directory"
         = "Error: ls: cannot access '/root/Target': No such file or directory").
Proof.
  split; [reflexivity|].
  exact (cmd_to_vm_result_shape Sim.env "ls ~/Target" "resolvers-vm" _
           Sim.configured
           (snd (cmd_to_vm Sim.env "ls ~/Target" "resolvers-vm" Sim.configured))
           eq_refl).
Defined.

(** ** The parser, on any output *)

Lemma split_length (c : ascii) (s : string) :
  List.length (split c s) = S (count_char c s).
Proof.
  induction s as [|a r IH]; [reflexivity|].
  simpl. destruct (Ascii.eqb a c).
  - simpl. rewrite IH. reflexivity.
  - destruct (split c r) as [|h t]; simpl in *; lia.
Qed.

(** X9: the parser gives one token for each line of the stripped output,
    so one more than the line feeds left in it, and never an empty list. *)
Theorem running_vms_of_one_per_line (output : list byte) :
  List.length (running_vms_of output)
  = S (count_char newline (strip (decode_latin1 output)))
  /\ running_vms_of output <> [].
Proof.
  unfold running_vms_of. rewrite length_map, split_length.
  split; [reflexivity|].
  intros H. apply (f_equal (@List.length string)) in H.
  rewrite length_map, split_length in H. discriminate H.
Qed.

(** X10: when the output is blank (nothing but white space, as when no
    machine runs), the parsed list is the single empty name, so that no
    name but the empty one is taken for running: [is_vm_running] ends the
    process for every other name. *)
Theorem blank_listing_lists_nothing
    (E : Env) (vm_name : string) (w : world) :
  strip (decode_latin1 (snd (env_popen E (history w) LIST_RUNNING))) = "" ->
  vm_name <> "" ->
  running_vms_of (snd (env_popen E (history w) LIST_RUNNING)) = [""]
  /\ exists w', is_vm_running E vm_name w = (Exit 0, w').
Proof.
  intros Hblank Hne.
  assert (Hlist : running_vms_of (snd (env_popen E (history w) LIST_RUNNING))
                  = [""]).
  { unfold running_vms_of. rewrite Hblank. reflexivity. }
  split; [exact Hlist|].
  rewrite is_vm_running_eq. cbv zeta. rewrite Hlist.
  destruct (fst (env_popen E (history w) LIST_RUNNING) >? 0);
    [eexists; reflexivity|].
  replace (mem vm_name [""]) with false; [eexists; reflexivity|].
  unfold mem. simpl. destruct vm_name; [congruence | reflexivity].
Qed.

Lemma blank_listing_lists_nothing_witness :
  running_vms_of (snd (env_popen Sim.env_all_stopped [] LIST_RUNNING)) = [""]
  /\ fst (is_vm_running Sim.env_all_stopped "gateway-vm" Sim.fresh) = Exit 0.
Proof.
  destruct (blank_listing_lists_nothing Sim.env_all_stopped "gateway-vm"
              Sim.fresh eq_refl) as [Hlist [w' Hrun]]; [discriminate|].
  split; [exact Hlist|]. rewrite Hrun. reflexivity.
Defined.

Lemma length_take (n : nat) (s : string) :
  String.length (take n s) = Nat.min n (String.length s).
Proof.
  revert s. induction n as [|n IH]; intros [|c r]; simpl; auto.
Qed.

Lemma occurs_take (c : ascii) (n : nat) (s : string) :
  occurs c s = false -> occurs c (take n s) = false.
Proof.
  revert s. induction n as [|n IH]; intros [|a r]; simpl; auto.
  intros H. apply orb_false_iff in H. destruct H as [Ha Hr].
  rewrite Ha, (IH r Hr). reflexivity.
Qed.

(** Where [find_from] stops: nowhere, and then the character does not
    occur, or at its first occurrence. *)
Lemma find_from_spec (c : ascii) (s : string) (i : Z) :
  (find_from c s i = -1 /\ occurs c s = false)
  \/ (exists n, (n < String.length s)%nat
                /\ find_from c s i = i + Z.of_nat n
                /\ occurs c (take n s) = false).
Proof.
  revert i. induction s as [|a r IH]; intros i; simpl.
  - left. auto.
  - destruct (Ascii.eqb a c) eqn:Ha.
    + right. exists 0%nat. repeat split; [lia | lia].
    + destruct (IH (i + 1)) as [[Hf Ho] | [n [Hn [Hf Ho]]]].
      * left. auto.
      * right. exists (S n). split; [lia|]. split; [lia|].
        simpl. rewrite Ha, Ho. reflexivity.
Qed.

(** X11: whatever the line, the token cut out of it holds no double quote
    after its first character, and is at least two characters shorter than
    the line (empty when the line has fewer than three characters). *)
Theorem running_vm_name_shape (this_line : string) :
  occurs dquote (drop 1 (running_vm_name this_line)) = false
  /\ (String.length (running_vm_name this_line)
      <= String.length this_line - 2)%nat.
Proof.
  destruct this_line as [|a [|b rest]]; [split; reflexivity | split; reflexivity|].
  unfold running_vm_name, find, slice, clamp.
  set (l := String a (String b rest)).
  assert (Hlen : len l = 2 + Z.of_nat (String.length rest)).
  { unfold l, len. cbn [String.length]. lia. }
  replace (2 <? 0) with false by reflexivity.
  replace (1 <? 0) with false by reflexivity.
  replace (2 >? len l) with false
    by (symmetry; rewrite Z.gtb_ltb; apply Z.ltb_ge; lia).
  replace (Z.min 2 (len l)) with 2 by lia.
  replace (Z.min 1 (len l)) with 1 by lia.
  change (drop (Z.to_nat 2) l) with rest.
  change (drop (Z.to_nat 1) l) with (String b rest).
  destruct (find_from_spec dquote rest 2) as [[Hf Ho] | [n [Hn [Hf Ho]]]];
    rewrite Hf.
  - replace (-1 <? 0) with true by reflexivity.
    replace (Z.to_nat (Z.max (-1 + len l) 0 - 1)) with (String.length rest)
      by lia.
    destruct rest as [|c rest']; [split; reflexivity|].
    cbn [String.length take drop]. split.
    + apply occurs_take, Ho.
    + unfold l. cbn [String.length]. rewrite length_take.
      cbn [String.length]. lia.
  - replace (2 + Z.of_nat n <? 0) with false by (symmetry; apply Z.ltb_ge; lia).
    replace (Z.to_nat (Z.min (2 + Z.of_nat n) (len l) - 1)) with (S n) by lia.
    cbn [take drop]. split; [exact Ho|].
    unfold l. cbn [String.length]. rewrite length_take. lia.
Qed.

(** ** What every function keeps *)

Section Invariants.

Variable E : Env.
Variable R : world -> world -> Prop.
Hypothesis R_refl : forall w, R w w.
Hypothesis R_trans : forall w1 w2 w3, R w1 w2 -> R w2 w3 -> R w1 w3.
Hypothesis R_happened : forall e w, R w (happened e w).
Hypothesis R_logged : forall msg w, R w (logged E msg w).
Hypothesis R_opened : forall addr user ok w, R w (opened E addr user ok w).

Lemma keeps_ret {A} (a : A) : keeps R (ret a).
Proof. intros w. apply R_refl. Qed.

Lemma keeps_raise {A} (e : exn) : keeps R (@raise A e).
Proof. intros w. apply R_refl. Qed.

Lemma keeps_exit {A} : keeps R (@exit A).
Proof. intros w. apply R_refl. Qed.

Lemma keeps_bind {A B} (m : M A) (k : A -> M B) :
  keeps R m -> (forall a, keeps R (k a)) -> keeps R (bind m k).
Proof.
  intros Hm Hk w. unfold bind. pose proof (Hm w) as H.
  destruct (m w) as [[a|c|e] w1]; cbn [snd] in *; try exact H.
  eapply R_trans; [exact H | apply Hk].
Qed.

Lemma keeps_when (c : bool) (body : M unit) :
  keeps R body -> keeps R (when c body).
Proof. intros H. destruct c; [exact H | apply keeps_ret]. Qed.

Lemma keeps_try_except {A} (body handler : M A) :
  keeps R body -> keeps R handler -> keeps R (try_except body handler).
Proof.
  intros Hb Hh w. unfold try_except. pose proof (Hb w) as H.
  destruct (body w) as [[a|c|e] w1]; cbn [snd] in *; try exact H;
    (eapply R_trans; [exact H | apply Hh]).
Qed.

Lemma keeps_for_in {A} (l : list A) (body : A -> M unit) :
  (forall x, keeps R (body x)) -> keeps R (for_in l body).
Proof.
  intros Hb. induction l as [|x r IH]; [apply keeps_ret|].
  apply keeps_bind; [apply Hb | intros _; exact IH].
Qed.

Lemma keeps_Popen (cmd : string) : keeps R (Popen E cmd).
Proof.
  intros w. rewrite Popen_eq. apply (R_happened (EvPopen cmd _ _) w).
Qed.

Lemma keeps_fab_open (c : Connection) : keeps R (fab_open E c).
Proof. intros w. apply (R_opened (conn_host c) (conn_user c) _ w). Qed.

Lemma keeps_fab_run (c : Connection) (cmd : string) (hide warn : bool) :
  keeps R (fab_run E c cmd hide warn).
Proof. intros w. apply (R_happened (EvRun _ _ _ _ _ _) w). Qed.

Lemma keeps_get_rt_config : keeps R get_rt_config.
Proof. intros w. unfold get_rt_config. destruct (rt_config w); apply R_refl. Qed.

Lemma keeps_subscript {V} (d : dict V) (k : string) : keeps R (subscript d k).
Proof.
  unfold subscript. destruct (dict_get d k); [apply keeps_ret | apply keeps_raise].
Qed.

Lemma keeps_index (l : list string) (i : nat) : keeps R (index l i).
Proof.
  unfold index. destruct (nth_error l i); [apply keeps_ret | apply keeps_raise].
Qed.

Lemma keeps_log (msg : string) : keeps R (log E msg).
Proof.
  intros w. destruct (is_empty msg) eqn:Hm.
  - apply is_empty_true in Hm. subst. apply R_refl.
  - rewrite log_nonempty by exact Hm. apply R_logged.
Qed.

Lemma keeps_die {A} (msg : string) : keeps R (@die E A msg).
Proof. intros w. rewrite die_exits. apply R_logged. Qed.

Lemma keeps_is_vm_running (vm_name : string) : keeps R (is_vm_running E vm_name).
Proof.
  unfold is_vm_running.
  apply keeps_bind; [apply keeps_Popen | intros p].
  apply keeps_bind; [apply keeps_when, keeps_die | intros _].
  apply keeps_when, keeps_die.
Qed.

Lemma keeps_cmd_to_vm (cmd_to_run vm_name : string) :
  keeps R (cmd_to_vm E cmd_to_run vm_name).
Proof.
  unfold cmd_to_vm.
  apply keeps_bind; [apply keeps_when, keeps_die | intros _].
  apply keeps_bind; [apply keeps_is_vm_running | intros _].
  apply keeps_bind; [apply keeps_get_rt_config | intros cfg].
  apply keeps_bind; [apply keeps_subscript | intros this_vm].
  apply keeps_bind.
  { destruct (dict_get this_vm "control_addr") as [a|]; [|apply keeps_die].
    destruct (is_empty a); [apply keeps_die | apply keeps_ret]. }
  intros addr.
  apply keeps_bind;
    [apply keeps_try_except; [apply keeps_fab_open | apply keeps_die] | intros _].
  apply keeps_bind; [apply keeps_fab_run | intros rh].
  apply keeps_bind; [apply keeps_when, keeps_die | intros _].
  apply keeps_bind; [apply keeps_when, keeps_die | intros _].
  apply keeps_bind; [apply keeps_fab_run | intros r].
  destruct (failed r); apply keeps_ret.
Qed.

Lemma keeps_startup (argv : list string) :
  keeps R (startup_and_config_general E argv).
Proof.
  unfold startup_and_config_general.
  apply keeps_bind; [apply keeps_index | intros argv0].
  apply keeps_bind; [apply keeps_when, keeps_die | intros _].
  apply keeps_bind; [apply keeps_Popen | intros p].
  apply keeps_bind; [apply keeps_when, keeps_die | intros _].
  apply keeps_bind; [|intros _; apply keeps_ret].
  apply keeps_for_in. intros vm.
  apply keeps_bind; [apply keeps_Popen | intros p'].
  apply keeps_when, keeps_die.
Qed.

Lemma keeps_sanity_check_vms : keeps R (sanity_check_vms E).
Proof.
  unfold sanity_check_vms.
  apply keeps_bind; [apply keeps_get_rt_config | intros cfg].
  apply keeps_bind; [|intros _; apply keeps_ret].
  apply keeps_for_in. intros vm.
  apply keeps_bind; [apply keeps_log | intros _].
  apply keeps_bind; [apply keeps_is_vm_running | intros _].
  apply keeps_bind; [apply keeps_cmd_to_vm | intros r1].
  apply keeps_bind.
  { apply keeps_when, keeps_bind; [apply keeps_cmd_to_vm | intros _].
    apply keeps_log. }
  intros _.
  apply keeps_bind; [apply keeps_cmd_to_vm | intros r2].
  apply keeps_when, keeps_bind; [apply keeps_cmd_to_vm | intros _].
  apply keeps_log.
Qed.

End Invariants.

Lemma same_config_trans (w1 w2 w3 : world) :
  same_config w1 w2 -> same_config w2 w3 -> same_config w1 w3.
Proof. unfold same_config. congruence. Qed.

Lemma mirrored_refl (w : world) : mirrored w w.
Proof. exists "". rewrite !app_empty_r. auto. Qed.

Lemma mirrored_trans (w1 w2 w3 : world) :
  mirrored w1 w2 -> mirrored w2 w3 -> mirrored w1 w3.
Proof.
  intros [x [Hl1 Ht1]] [y [Hl2 Ht2]]. exists (x ++ y).
  rewrite Hl2, Hl1, Ht2, Ht1, !app_assoc. auto.
Qed.

Lemma mirrored_happened (e : event) (w : world) : mirrored w (happened e w).
Proof. exists "". unfold happened. cbn. rewrite !app_empty_r. auto. Qed.

Lemma mirrored_logged (E : Env) (msg : string) (w : world) :
  mirrored w (logged E msg w).
Proof. eexists. unfold logged. cbn. auto. Qed.

Ltac same_config_side :=
  first [ exact same_config_trans | intros; reflexivity ].

Lemma file_text_app (es es' : list entry) :
  file_text (es ++ es') = file_text es ++ file_text es'.
Proof.
  induction es as [|e r IH]; [reflexivity|].
  cbn [List.app file_text]. rewrite IH, app_assoc. reflexivity.
Qed.

Lemma terminal_text_app (es es' : list entry) :
  terminal_text (es ++ es') = terminal_text es ++ terminal_text es'.
Proof.
  induction es as [|[now msg|records] r IH]; [reflexivity| |exact IH].
  cbn [List.app terminal_text]. rewrite IH, app_assoc. reflexivity.
Qed.

Lemma woven_refl (w : world) : woven w w.
Proof. exists []. cbn. rewrite !app_empty_r. auto. Qed.

Lemma woven_trans (w1 w2 w3 : world) : woven w1 w2 -> woven w2 w3 -> woven w1 w3.
Proof.
  intros [x [Hl1 Ht1]] [y [Hl2 Ht2]]. exists (x ++ y)%list.
  rewrite Hl2, Hl1, Ht2, Ht1, file_text_app, terminal_text_app, !app_assoc.
  auto.
Qed.

Lemma woven_happened (e : event) (w : world) : woven w (happened e w).
Proof. exists []. unfold happened. cbn. rewrite !app_empty_r. auto. Qed.

Lemma woven_logged (E : Env) (msg : string) (w : world) :
  woven w (logged E msg w).
Proof.
  exists [Logged (env_strftime E (history w) "%H-%M-%S") msg].
  unfold logged. cbn [log_file terminal file_text terminal_text entry_text].
  rewrite !app_empty_r. auto.
Qed.

Lemma woven_opened (E : Env) (addr user : string) (ok : bool) (w : world) :
  woven w (opened E addr user ok w).
Proof.
  exists [Library (env_ssh_log E (history w) addr user)].
  unfold opened. cbn [log_file terminal file_text terminal_text entry_text].
  rewrite !app_empty_r. auto.
Qed.

Ltac mirrored_side E :=
  first [ exact mirrored_refl | exact mirrored_trans | exact mirrored_happened
        | exact (mirrored_logged E) ].

Ltac woven_side E :=
  first [ exact woven_refl | exact woven_trans | exact woven_happened
        | exact (woven_logged E) | exact (woven_opened E) ].

(** X18: whatever [log] records goes to the terminal and to the log file
    alike, and the functions below print nothing themselves.  Over any call
    of the startup validation, [is_vm_running], [log] or [die], the log file
    and the terminal are extended by the same text.  Over [cmd_to_vm] and
    the sanity checks, which open SSH connections, the log file is extended
    by records of [log] and records of the SSH library, and the terminal by
    those records of [log], in their order, and nothing else. *)
Theorem log_and_terminal_in_step
    (E : Env) (argv : list string) (cmd vm msg : string) (w : world) :
  mirrored w (snd (startup_and_config_general E argv w))
  /\ mirrored w (snd (is_vm_running E vm w))
  /\ mirrored w (snd (log E msg w))
  /\ mirrored w (snd (@die E unit msg w))
  /\ woven w (snd (cmd_to_vm E cmd vm w))
  /\ woven w (snd (sanity_check_vms E w)).
Proof.
  repeat split.
  - apply (keeps_startup E mirrored); mirrored_side E.
  - apply (keeps_is_vm_running E mirrored); mirrored_side E.
  - apply (keeps_log E mirrored); mirrored_side E.
  - apply (keeps_die E mirrored); mirrored_side E.
  - apply (keeps_cmd_to_vm E woven); woven_side E.
  - apply (keeps_sanity_check_vms E woven); woven_side E.
Qed.

(** X19: the configuration is written once, by the main program: no call of
    the startup validation, the sanity checks, [cmd_to_vm], [is_vm_running]
    or [log] changes [rt_config], and after a run of the main program it is
    what it was (when the run ended before the startup validation returned)
    or the configuration built from [VM_INFO]. *)
Theorem configuration_written_once
    (E : Env) (argv : list string) (cmd vm : string) (w : world) :
  rt_config (snd (startup_and_config_general E argv w)) = rt_config w
  /\ rt_config (snd (sanity_check_vms E w)) = rt_config w
  /\ rt_config (snd (cmd_to_vm E cmd vm w)) = rt_config w
  /\ rt_config (snd (is_vm_running E vm w)) = rt_config w
  /\ rt_config (snd (log E cmd w)) = rt_config w
  /\ (rt_config (snd (main E argv w)) = rt_config w
      \/ rt_config (snd (main E argv w)) = Some startup_config).
Proof.
  assert (Hstart : forall a w0,
            rt_config (snd (startup_and_config_general E a w0)) = rt_config w0).
  { intros a w0. apply (keeps_startup E same_config); same_config_side. }
  assert (Hsanity : forall w0,
            rt_config (snd (sanity_check_vms E w0)) = rt_config w0).
  { intros w0. apply (keeps_sanity_check_vms E same_config); same_config_side. }
  split; [apply Hstart|]. split; [apply Hsanity|].
  split; [apply (keeps_cmd_to_vm E same_config); same_config_side|].
  split; [apply (keeps_is_vm_running E same_config); same_config_side|].
  split; [apply (keeps_log E same_config); same_config_side|].
  destruct (Nat.ltb (List.length argv) 2) eqn:Hlen.
  { apply Nat.ltb_lt in Hlen. rewrite main_no_arguments by exact Hlen.
    left. reflexivity. }
  apply Nat.ltb_ge in Hlen.
  destruct argv as [|argv0 [|c rest]]; simpl in Hlen; try lia.
  destruct (startup_outcome E argv0 (c :: rest) (started E w))
    as [w1 [Hs|Hs]].
  { rewrite (main_startup_exit E (argv0 :: c :: rest) w w1 0);
      [|simpl; lia | exact Hs].
    left. pose proof (Hstart (argv0 :: c :: rest) (started E w)) as H.
    rewrite Hs in H. exact H. }
  right.
  rewrite (main_dispatch E (argv0 :: c :: rest) w w1 c startup_config
             eq_refl Hs).
  cbv zeta.
  destruct (negb (mem c CLI_COMMANDS)); [reflexivity|].
  destruct (String.eqb c "help"); [reflexivity|].
  set (wd := dispatching E (argv0 :: c :: rest) c startup_config w1).
  change (Some startup_config) with (rt_config wd).
  apply (keeps_bind same_config); try same_config_side.
  - destruct (String.eqb c "check_vms"); [|intros w0; reflexivity].
    apply (keeps_bind same_config); try same_config_side.
    + intros w0. apply Hsanity.
    + intros ok. apply (keeps_when same_config); try same_config_side.
      apply (keeps_log E same_config); same_config_side.
  - intros _. apply (keeps_bind same_config); try same_config_side.
    + apply (keeps_log E same_config); same_config_side.
    + intros _ w0. reflexivity.
Qed.

(** ** The startup validation and the main program *)

(** X12: the startup validation returns exactly when the program was run as
    [./rt.py] and none of its four commands ([VBoxManage --version], then
    [showvminfo] for each machine) exits with a positive status; it then
    returns the configuration built from [VM_INFO], having run the four
    commands and logged nothing.  Otherwise it ends the process, or, with
    an empty argument list, raises [IndexError]. *)
Theorem startup_returns_iff (E : Env) (argv : list string) (w : world) :
  (startup_checks_pass E argv w ->
   startup_and_config_general E argv w = (Ret startup_config, after_startup E w))
  /\ (argv <> [] -> ~ startup_checks_pass E argv w ->
      exists w', startup_and_config_general E argv w = (Exit 0, w'))
  /\ (argv = [] ->
      startup_and_config_general E argv w = (Raise IndexError, w)).
Proof.
  split; [|split].
  - intros [H0 [H1 [H2 [H3 H4]]]].
    destruct argv as [|argv0 rest]; [discriminate|].
    injection H0 as ->. rewrite startup_eq. cbv zeta. cbn [String.eqb negb].
    rewrite (not_positive _ H1), (not_positive _ H2), (not_positive _ H3),
      (not_positive _ H4).
    reflexivity.
  - intros Hne Hnot. destruct argv as [|argv0 rest]; [congruence|].
    rewrite startup_eq. cbv zeta.
    destruct (String.eqb argv0 "./rt.py") eqn:H0; cbn [negb];
      [|eexists; reflexivity].
    apply String.eqb_eq in H0. subst argv0.
    destruct (popen_rc E VERSION_CMD w >? 0) eqn:H1; [eexists; reflexivity|].
    destruct (popen_rc E (showvminfo_cmd "gateway-vm") _ >? 0) eqn:H2;
      [eexists; reflexivity|].
    destruct (popen_rc E (showvminfo_cmd "servers-vm") _ >? 0) eqn:H3;
      [eexists; reflexivity|].
    destruct (popen_rc E (showvminfo_cmd "resolvers-vm") _ >? 0) eqn:H4;
      [eexists; reflexivity|].
    exfalso. apply Hnot. unfold startup_checks_pass. cbv zeta.
    repeat split; try reflexivity; apply positive_or_not; assumption.
  - intros ->. reflexivity.
Qed.

Lemma startup_returns_iff_witness :
  startup_checks_pass Sim.env ["./rt.py"; "check_vms"] Sim.fresh
  /\ fst (startup_and_config_general Sim.env ["./rt.py"; "check_vms"] Sim.fresh)
     = Ret startup_config
  /\ ~ startup_checks_pass Sim.env ["/opt/rt.py"; "check_vms"] Sim.fresh
  /\ fst (startup_and_config_general Sim.env ["/opt/rt.py"; "check_vms"]
            Sim.fresh) = Exit 0.
Proof.
  assert (Hp : startup_checks_pass Sim.env ["./rt.py"; "check_vms"] Sim.fresh).
  { unfold startup_checks_pass. cbv zeta.
    repeat split; try reflexivity; vm_compute; discriminate. }
  assert (Hn : ~ startup_checks_pass Sim.env ["/opt/rt.py"; "check_vms"]
                 Sim.fresh).
  { intros [H _]. discriminate H. }
  destruct (startup_returns_iff Sim.env ["./rt.py"; "check_vms"] Sim.fresh)
    as [Hyes _].
  destruct (startup_returns_iff Sim.env ["/opt/rt.py"; "check_vms"] Sim.fresh)
    as [_ [Hno _]].
  destruct (Hno ltac:(discriminate) Hn) as [w' Hw'].
  split; [exact Hp|]. split; [rewrite (Hyes Hp); reflexivity|].
  split; [exact Hn|]. rewrite Hw'. reflexivity.
Defined.

Lemma popen_commands_app (h1 h2 : list event) :
  popen_commands (h1 ++ h2) = (popen_commands h1 ++ popen_commands h2)%list.
Proof.
  induction h1 as [|e h1 IH]; [reflexivity|].
  destruct e; simpl; rewrite IH; reflexivity.
Qed.

Lemma popen_commands_after_commands (E : Env) (cmds : list string) (w : world) :
  popen_commands (history (after_commands E cmds w))
  = (popen_commands (history w) ++ cmds)%list.
Proof.
  revert w. induction cmds as [|c r IH]; intros w.
  - cbn. rewrite app_nil_r. reflexivity.
  - cbn [after_commands fold_left]. fold (after_commands E r (after_popen E c w)).
    rewrite IH. unfold after_popen, popened. cbn [history].
    rewrite popen_commands_app, <- List.app_assoc. reflexivity.
Qed.

Lemma positive (z : Z) : z > 0 -> (z >? 0) = true.
Proof. intros H. rewrite Z.gtb_ltb. apply Z.ltb_lt. lia. Qed.

(** X13: the startup validation stops at the first check that fails.  Not
    run as [./rt.py], it runs nothing and ends the process with the message
    about the invocation.  Run as [./rt.py], when the [k]-th of its four
    commands is the first to exit with a positive status, it ends the
    process right after that command with the message for it: the local
    commands it has run are the first [k] ones and the failing one, and no
    later one. *)
Theorem startup_stops_at_first_failure
    (E : Env) (argv0 : string) (rest : list string) (w : world) :
  (argv0 <> "./rt.py" ->
   startup_and_config_general E (argv0 :: rest) w
   = (Exit 0,
      logged E ("This program must be run as ./rt.py so that all the additional files are found."
                ++ " Exiting.") w))
  /\ forall k,
       argv0 = "./rt.py" ->
       (k < 4)%nat ->
       (forall i, (i < k)%nat -> startup_status E i w <= 0) ->
       startup_status E k w > 0 ->
       startup_and_config_general E (argv0 :: rest) w
       = (Exit 0,
          logged E (nth k startup_complaints EmptyString ++ " Exiting.")
            (after_commands E (firstn (S k) startup_commands) w))
       /\ popen_commands
            (history (snd (startup_and_config_general E (argv0 :: rest) w)))
          = (popen_commands (history w) ++ firstn (S k) startup_commands)%list.
Proof.
  split.
  { intros Hne. rewrite startup_eq. cbv zeta.
    destruct (String.eqb argv0 "./rt.py") eqn:H0; [|reflexivity].
    apply String.eqb_eq in H0. contradiction. }
  intros k -> Hk Hbefore Hfail.
  assert (Hrun : startup_and_config_general E ("./rt.py" :: rest) w
                 = (Exit 0,
                    logged E (nth k startup_complaints EmptyString ++ " Exiting.")
                      (after_commands E (firstn (S k) startup_commands) w))).
  { rewrite startup_eq. cbv zeta. cbn [String.eqb Ascii.eqb Bool.eqb negb].
    change (popen_rc E VERSION_CMD w) with (startup_status E 0 w).
    change (popen_rc E (showvminfo_cmd "gateway-vm") (after_popen E VERSION_CMD w))
      with (startup_status E 1 w).
    change (popen_rc E (showvminfo_cmd "servers-vm")
              (after_popen E (showvminfo_cmd "gateway-vm")
                 (after_popen E VERSION_CMD w)))
      with (startup_status E 2 w).
    change (popen_rc E (showvminfo_cmd "resolvers-vm")
              (after_popen E (showvminfo_cmd "servers-vm")
                 (after_popen E (showvminfo_cmd "gateway-vm")
                    (after_popen E VERSION_CMD w))))
      with (startup_status E 3 w).
    destruct k as [|[|[|[|k]]]]; [| | | |lia].
    - rewrite (positive _ Hfail). reflexivity.
    - rewrite (not_positive _ (Hbefore 0%nat ltac:(lia))).
      rewrite (positive _ Hfail). reflexivity.
    - rewrite (not_positive _ (Hbefore 0%nat ltac:(lia))).
      rewrite (not_positive _ (Hbefore 1%nat ltac:(lia))).
      rewrite (positive _ Hfail). reflexivity.
    - rewrite (not_positive _ (Hbefore 0%nat ltac:(lia))).
      rewrite (not_positive _ (Hbefore 1%nat ltac:(lia))).
      rewrite (not_positive _ (Hbefore 2%nat ltac:(lia))).
      rewrite (positive _ Hfail). reflexivity. }
  split; [exact Hrun|].
  rewrite Hrun. cbn [snd]. unfold logged. cbn [history].
  rewrite popen_commands_app, popen_commands_after_commands.
  cbn [popen_commands]. apply app_nil_r.
Qed.

Lemma startup_stops_at_first_failure_witness :
  (forall i, (i < 2)%nat -> startup_status Sim.env_servers_missing i Sim.fresh <= 0)
  /\ startup_status Sim.env_servers_missing 2 Sim.fresh > 0
  /\ fst (startup_and_config_general Sim.env_servers_missing
            ["./rt.py"; "check_vms"] Sim.fresh) = Exit 0
  /\ popen_commands
       (history (snd (startup_and_config_general Sim.env_servers_missing
                        ["./rt.py"; "check_vms"] Sim.fresh)))
     = [ VERSION_CMD; showvminfo_cmd "gateway-vm"; showvminfo_cmd "servers-vm" ].
Proof.
  assert (Hb : forall i, (i < 2)%nat ->
                 startup_status Sim.env_servers_missing i Sim.fresh <= 0).
  { intros [|[|i]] Hi; [vm_compute; discriminate | vm_compute; discriminate | lia]. }
  assert (Hf : startup_status Sim.env_servers_missing 2 Sim.fresh > 0)
    by (vm_compute; reflexivity).
  split; [exact Hb|]. split; [exact Hf|].
  destruct (startup_stops_at_first_failure Sim.env_servers_missing "./rt.py"
              ["check_vms"] Sim.fresh) as [_ H].
  destruct (H 2%nat eq_refl ltac:(lia) Hb Hf) as [Hrun Hcmds].
  split; [rewrite Hrun; reflexivity|].
  rewrite Hcmds. reflexivity.
Defined.

(** X14: run with a command but not as [./rt.py], the main program ends in
    the startup validation: it logs the start line and the message about
    the invocation, and runs no local command and nothing over SSH; the
    command is not looked at, and the help text is not printed. *)
Theorem main_wrong_invocation_path
    (E : Env) (argv : list string) (w : world) :
  (2 <= List.length argv)%nat ->
  nth_error argv 0 <> Some "./rt.py" ->
  main E argv w
  = (Exit 0,
     logged E ("This program must be run as ./rt.py so that all the additional files are found."
               ++ " Exiting.") (started E w))
  /\ external_actions (history (snd (main E argv w)))
     = external_actions (history w).
Proof.
  intros Hlen Hpath.
  assert (Hmain : main E argv w
    = (Exit 0,
       logged E ("This program must be run as ./rt.py so that all the additional files are found."
                 ++ " Exiting.") (started E w))).
  { apply main_startup_exit; [exact Hlen|].
    destruct argv as [|argv0 tl]; [simpl in Hlen; lia|].
    rewrite startup_eq. cbv zeta.
    destruct (String.eqb argv0 "./rt.py") eqn:H0; [|reflexivity].
    apply String.eqb_eq in H0. subst. exfalso. apply Hpath. reflexivity. }
  split; [exact Hmain|]. rewrite Hmain. cbn [snd].
  rewrite external_actions_logged. unfold started.
  rewrite external_actions_logged. unfold happened. cbn [history].
  rewrite external_actions_app. apply app_nil_r.
Qed.

Lemma main_wrong_invocation_path_witness :
  (2 <= List.length ["rt.py"; "check_vms"])%nat
  /\ nth_error ["rt.py"; "check_vms"] 0 <> Some "./rt.py"
  /\ fst (main Sim.env ["rt.py"; "check_vms"] Sim.fresh) = Exit 0
  /\ history (snd (main Sim.env ["rt.py"; "check_vms"] Sim.fresh))
     = [EvStrftime "%Y-%m-%d" "2019-03-01"; EvStrftime "%H-%M-%S" "12-30-05";
        EvStrftime "%H-%M-%S" "12-30-05"].
Proof.
  split; [simpl; lia|]. split; [discriminate|].
  destruct (main_wrong_invocation_path Sim.env ["rt.py"; "check_vms"] Sim.fresh)
    as [Hmain _]; [simpl; lia | discriminate |].
  rewrite Hmain. split; reflexivity.
Defined.

(** X15: with the command [check_vms], once the startup validation has
    returned, the main program runs the sanity checks; if they return it
    logs that the machines are running as expected, then the final line,
    and exits; if they end the process, the run ends there and neither line
    is logged. *)
Theorem main_check_vms
    (E : Env) (argv : list string) (w w1 w2 : world) (cfg : local_config) :
  nth_error argv 1 = Some "check_vms" ->
  startup_and_config_general E argv (started E w) = (Ret cfg, w1) ->
  let wd := dispatching E argv "check_vms" cfg w1 in
  (sanity_check_vms E wd = (Ret true, w2) ->
   main E argv w
   = (Exit 0,
      logged E "## Finished run" (logged E "VMs are running as expected" w2)))
  /\ (forall c, sanity_check_vms E wd = (Exit c, w2) ->
        main E argv w = (Exit c, w2)).
Proof.
  intros Hcmd Hstart wd.
  rewrite (main_dispatch E argv w w1 "check_vms" cfg Hcmd Hstart). cbv zeta.
  fold wd.
  cbn [mem CLI_COMMANDS existsb String.eqb Ascii.eqb Bool.eqb orb negb].
  split.
  - intros Hs. unfold bind at 1. unfold bind at 1. rewrite Hs.
    cbn [when]. rewrite log_nonempty by reflexivity.
    unfold bind at 1. rewrite log_nonempty by reflexivity. reflexivity.
  - intros c Hs. unfold bind at 1. unfold bind at 1. rewrite Hs. reflexivity.
Qed.

Lemma main_check_vms_witness :
  fst (main Sim.env ["./rt.py"; "check_vms"] Sim.fresh) = Exit 0
  /\ log_gained "VMs are running as expected" Sim.fresh
       (snd (main Sim.env ["./rt.py"; "check_vms"] Sim.fresh)).
Proof.
  destruct (main_check_vms Sim.env ["./rt.py"; "check_vms"] Sim.fresh
              (snd (startup_and_config_general Sim.env ["./rt.py"; "check_vms"]
                      (started Sim.env Sim.fresh)))
              (snd (sanity_check_vms Sim.env
                      (dispatching Sim.env ["./rt.py"; "check_vms"] "check_vms"
                         startup_config
                         (snd (startup_and_config_general Sim.env
                                 ["./rt.py"; "check_vms"]
                                 (started Sim.env Sim.fresh))))))
              startup_config eq_refl eq_refl) as [Hret _].
  rewrite Hret by (vm_compute; reflexivity).
  split; [reflexivity|].
  exists "12-30-05".
  exists (log_file
            (snd (sanity_check_vms Sim.env
                    (dispatching Sim.env ["./rt.py"; "check_vms"] "check_vms"
                       startup_config
                       (snd (startup_and_config_general Sim.env
                               ["./rt.py"; "check_vms"]
                               (started Sim.env Sim.fresh))))))).
  exists ("12-30-05: ## Finished run" ++ nl).
  vm_compute. reflexivity.
Defined.

(** ** The sanity checks: order *)

(** X16: as long as the three machines stay listed as running, reachable
    over SSH and answer [hostname] with their names, [sanity_check_vms]
    returns [True], whatever the listing and creation commands answer: in
    particular a creation command that fails goes unnoticed. *)
Theorem sanity_check_vms_returns_when_healthy (E : Env) (w : world) :
  healthy E ->
  rt_config w = Some startup_config ->
  exists w', sanity_check_vms E w = (Ret true, w').
Proof.
  intros H Hcfg. exact (sanity_check_vms_healthy E H w Hcfg).
Qed.

Lemma sanity_check_vms_returns_when_healthy_witness :
  healthy Sim.env_mkdir_fails
  /\ fst (sanity_check_vms Sim.env_mkdir_fails Sim.configured) = Ret true
  /\ map (fun r => exited r)
       (results_of "192.168.56.2" "mkdir ~/Target"
          (commands_run
             (history (snd (sanity_check_vms Sim.env_mkdir_fails
                              Sim.configured))))) = [1]
  /\ contains "Created ~/Target on gateway-vm"
       (log_file (snd (sanity_check_vms Sim.env_mkdir_fails Sim.configured)))
     = true.
Proof.
  assert (H : healthy Sim.env_mkdir_fails) by (apply sim_healthy; reflexivity).
  split; [exact H|].
  destruct (sanity_check_vms_returns_when_healthy Sim.env_mkdir_fails
              Sim.configured H eq_refl) as [w' Hrun].
  rewrite Hrun. cbn [fst snd]. split; [reflexivity|].
  assert (Hw : w' = snd (sanity_check_vms Sim.env_mkdir_fails Sim.configured))
    by (rewrite Hrun; reflexivity).
  rewrite Hw. split; vm_compute; reflexivity.
Defined.

Lemma dir_trace_script (addr vm dir : string) (b : bool) (l : list command)
    (lg : string) :
  dir_trace addr vm dir b l lg ->
  exists mk rest,
    dir_script addr dir mk = (map fst l ++ rest)%list
    /\ (b = true -> rest = []).
Proof.
  intros H. destruct H.
  - exists false. eexists. split; [reflexivity | discriminate].
  - exists false, []. split; reflexivity.
  - exists false, []. split; [reflexivity | discriminate].
  - exists true, []. split; reflexivity.
Qed.

Lemma machine_script_dirs (addr : string) (t s : bool) :
  machine_script addr t s
  = (dir_script addr "Target" t ++ dir_script addr "Source" s)%list.
Proof. destruct t, s; reflexivity. Qed.

Lemma vm_trace_script (addr vm : string) (b : bool) (l : list command)
    (lg : string) :
  vm_trace addr vm b l lg ->
  exists t s rest,
    machine_script addr t s = (map fst l ++ rest)%list
    /\ (b = true -> rest = []).
Proof.
  intros H. destruct H as [l lg0 lg1 H1 | b l1 l2 lg0 lg1 lg2 H1 H2].
  - destruct (dir_trace_script _ _ _ _ _ _ H1) as [t [rest [Heq _]]].
    exists t, false, (rest ++ dir_script addr "Source" false)%list.
    split; [|discriminate].
    rewrite machine_script_dirs, Heq, <- List.app_assoc. reflexivity.
  - destruct (dir_trace_script _ _ _ _ _ _ H1) as [t [r1 [Heq1 Hr1]]].
    destruct (dir_trace_script _ _ _ _ _ _ H2) as [s [r2 [Heq2 Hr2]]].
    rewrite (Hr1 eq_refl), app_nil_r in Heq1.
    exists t, s, r2. split; [|exact Hr2].
    rewrite machine_script_dirs, Heq1, Heq2, map_app, <- List.app_assoc.
    reflexivity.
Qed.

Lemma run_trace_script (vms : list (string * string)) (b : bool)
    (l : list command) (lg : string) :
  run_trace vms b l lg ->
  exists choices rest,
    List.length choices = List.length vms
    /\ run_script vms choices = (map fst l ++ rest)%list
    /\ (b = true -> rest = []).
Proof.
  intros H. induction H as [|vm addr tl l lg Hvm
                             |vm addr tl b l l' lg lg' Hvm Hrest IH].
  - exists [], []. repeat split.
  - destruct (vm_trace_script _ _ _ _ _ Hvm) as [t [s [rest [Heq _]]]].
    exists ((t, s) :: repeat (false, false) (List.length tl)).
    exists (rest ++ run_script tl (repeat (false, false) (List.length tl)))%list.
    split; [simpl; rewrite repeat_length; reflexivity|].
    split; [|discriminate].
    cbn [run_script]. rewrite Heq, <- List.app_assoc. reflexivity.
  - destruct (vm_trace_script _ _ _ _ _ Hvm) as [t [s [r1 [Heq1 Hr1]]]].
    rewrite (Hr1 eq_refl), app_nil_r in Heq1.
    destruct IH as [cs [rest [Hlen [Heq2 Hr2]]]].
    exists ((t, s) :: cs), rest.
    split; [simpl; rewrite Hlen; reflexivity|].
    split; [|exact Hr2].
    cbn [run_script]. rewrite Heq1, Heq2, map_app, <- List.app_assoc.
    reflexivity.
Qed.

(** X17: the sanity checks go through the machines in the order of
    [VM_INFO] and, on each, through listing [~/Target], creating it if
    asked for, listing [~/Source], creating it if asked for: the commands
    run are always the beginning of such a sequence, and the whole of it
    when [sanity_check_vms] returns. *)
Theorem sanity_check_vms_command_order (E : Env) (w : world) :
  rt_config w = Some startup_config ->
  exists evs t1 s1 t2 s2 t3 s3 rest,
    history (snd (sanity_check_vms E w)) = (history w ++ evs)%list
    /\ (machine_script "192.168.56.2" t1 s1
        ++ machine_script "192.168.56.3" t2 s2
        ++ machine_script "192.168.56.4" t3 s3)%list
       = (map fst (commands_run evs) ++ rest)%list
    /\ (fst (sanity_check_vms E w) = Ret true -> rest = []).
Proof.
  intros Hcfg.
  destruct (sanity_check_vms_trace E w Hcfg)
    as [b [o [w' [evs [lg [[Hh _] [Hrun [Ho Ht]]]]]]]].
  rewrite Hrun. cbn [fst snd]. exists evs.
  destruct (run_trace_script _ _ _ _ Ht) as [cs [rest [Hlen [Heq Hrest]]]].
  destruct cs as [|[t1 s1] [|[t2 s2] [|[t3 s3] [|c cs]]]]; try discriminate Hlen.
  exists t1, s1, t2, s2, t3, s3, rest. split; [exact Hh|]. split.
  - rewrite <- Heq. unfold machines. cbn [run_script].
    rewrite app_nil_r. reflexivity.
  - intros Hb. apply Hrest. destruct b; [reflexivity|].
    cbn [outcome_is] in Ho. rewrite Hb in Ho.
    destruct Ho as [Ho | Ho]; discriminate Ho.
Qed.

Lemma sanity_check_vms_command_order_witness :
  rt_config Sim.configured = Some startup_config
  /\ map fst (commands_run
                (history (snd (sanity_check_vms Sim.env Sim.configured))))
     = (machine_script "192.168.56.2" true false
        ++ machine_script "192.168.56.3" true false
        ++ machine_script "192.168.56.4" true false)%list.
Proof.
  split; [reflexivity|].
  destruct (sanity_check_vms_command_order Sim.env Sim.configured eq_refl)
    as [evs _].
  vm_compute. reflexivity.
Defined.

Lemma died_record (E : Env) (vm msg lib : string) (w0 w : world) :
  complaint vm msg ->
  terminal w0 = terminal w ->
  log_file w0 = log_file w ++ lib ->
  exists now m lib',
    complaint vm m
    /\ terminal (logged E (msg ++ " Exiting.") w0)
       = terminal w ++ (now ++ ": " ++ m ++ " Exiting.") ++ nl
    /\ log_file (logged E (msg ++ " Exiting.") w0)
       = log_file w ++ lib' ++ (now ++ ": " ++ m ++ " Exiting.") ++ nl.
Proof.
  intros Hc Ht Hl.
  exists (env_strftime E (history w0) "%H-%M-%S"), msg, lib.
  unfold logged. cbn [log_file terminal]. rewrite Ht, Hl, !app_assoc.
  auto.
Qed.

(** X8: [cmd_to_vm] writes to the terminal only when it ends the process
    through [die].  When it returns, the terminal is as it was and the log
    file has gained the records of the SSH library for the connection to
    the configured address, and nothing else.  When it raises, the terminal
    is as it was, and so is the log file unless the exception is that of a
    failing [hostname].  When it ends the process, the status is 0 and the
    terminal has gained one record: a time, one of the six complaints of
    [cmd_to_vm] and [is_vm_running], and the word "Exiting."; the log file
    ends with the same record. *)
Theorem cmd_to_vm_prints_only_when_dying
    (E : Env) (cmd_to_run vm_name : string) (w : world) :
  let w' := snd (cmd_to_vm E cmd_to_run vm_name w) in
  match fst (cmd_to_vm E cmd_to_run vm_name w) with
  | Ret _ =>
      terminal w' = terminal w
      /\ exists addr,
           address_configured w vm_name addr
           /\ log_file w'
              = log_file w
                ++ log_records
                     (env_ssh_log E (history (after_popen E LIST_RUNNING w))
                        addr "root")
  | Exit c =>
      c = 0
      /\ exists now msg lib,
           complaint vm_name msg
           /\ terminal w'
              = terminal w ++ (now ++ ": " ++ msg ++ " Exiting.") ++ nl
           /\ log_file w'
              = log_file w ++ lib ++ (now ++ ": " ++ msg ++ " Exiting.") ++ nl
  | Raise e =>
      terminal w' = terminal w
      /\ (e <> UnexpectedExit -> log_file w' = log_file w)
  end.
Proof.
  cbv zeta. rewrite cmd_to_vm_cases. cbv zeta.
  assert (Hdie : forall msg lib w0,
            complaint vm_name msg ->
            terminal w0 = terminal w ->
            log_file w0 = log_file w ++ lib ->
            0 = 0
            /\ exists now m lib',
                 complaint vm_name m
                 /\ terminal (logged E (msg ++ " Exiting.") w0)
                    = terminal w ++ (now ++ ": " ++ m ++ " Exiting.") ++ nl
                 /\ log_file (logged E (msg ++ " Exiting.") w0)
                    = log_file w ++ lib' ++ (now ++ ": " ++ m ++ " Exiting.") ++ nl).
  { intros msg lib w0 Hc Ht Hl. split; [reflexivity|].
    exact (died_record E vm_name msg lib w0 w Hc Ht Hl). }
  assert (Hnil : forall x : string, x = x ++ "")
    by (intros x; rewrite app_empty_r; reflexivity).
  destruct (negb (dict_mem vm_name VM_INFO)).
  { cbn [fst snd]. apply (Hdie _ ""); [constructor | reflexivity | apply Hnil]. }
  destruct (popen_rc E LIST_RUNNING w >? 0).
  { cbn [fst snd]. apply (Hdie _ ""); [constructor | reflexivity | apply Hnil]. }
  destruct (negb (mem vm_name _)).
  { cbn [fst snd]. apply (Hdie _ ""); [constructor | reflexivity | apply Hnil]. }
  destruct (rt_config w) as [cfg|] eqn:Hcfg;
    [|cbn [fst snd]; split; [reflexivity | intros _; reflexivity]].
  destruct (dict_get (vm_info cfg) vm_name) as [this_vm|] eqn:Hthis;
    [|cbn [fst snd]; split; [reflexivity | intros _; reflexivity]].
  destruct (dict_get this_vm "control_addr") as [addr|] eqn:Haddr.
  2: { cbn [fst snd].
       apply (Hdie _ ""); [constructor | reflexivity | apply Hnil]. }
  destruct (is_empty addr) eqn:Hne.
  { cbn [fst snd]. apply (Hdie _ ""); [constructor | reflexivity | apply Hnil]. }
  rewrite run_over_ssh_eq. cbv zeta.
  destruct (negb (env_open E _ addr "root")).
  { cbn [fst snd]. eapply Hdie; [constructor | reflexivity | reflexivity]. }
  destruct (failed _).
  { cbn [fst snd]. split; [reflexivity|]. intros H. exfalso. apply H.
    reflexivity. }
  destruct (negb (String.eqb _ vm_name)).
  { cbn [fst snd]. eapply Hdie; [constructor | reflexivity | reflexivity]. }
  cbn [fst snd]. split; [reflexivity|].
  exists addr. split; [|reflexivity].
  exists cfg, this_vm. repeat split; try assumption.
  intros ->. discriminate Hne.
Qed.

(** ** How the process ends *)

(** X20: every run of the main program ends the process, in one of two
    ways: in [exit()], with status 0, or with the uncaught exception of a
    failing [hostname], with status 1.  The second can only happen under
    the command [check_vms]; the main program never comes back, and no
    [NameError], [KeyError] or [IndexError] escapes it. *)
Theorem main_ends_the_process (E : Env) (argv : list string) (w : world) :
  exists o w',
    main E argv w = (o, w')
    /\ (o = Exit 0 \/ o = Raise UnexpectedExit)
    /\ (exit_status o = 0 \/ exit_status o = 1)
    /\ (nth_error argv 1 <> Some "check_vms" -> o = Exit 0).
Proof.
  destruct (main_ends E argv w) as [o [w' [Hrun [Ho Hcmd]]]].
  exists o, w'. split; [exact Hrun|]. split; [exact Ho|]. split; [|exact Hcmd].
  destruct Ho as [-> | ->]; [left | right]; reflexivity.
Qed.
